(** * Monthly gap-filling satellite data collector

    A shallow embedding of [services/satellite_collector.py],
    [services/data_checker.py] and the collection step of
    [services/integration_pipeline.py], with the properties of the
    specification stated and settled against it.

    Conventions of the embedding.
    - Python [float] is IEEE binary64: Rocq's primitive [float].
    - Python [str] is [string]; a character is a code point below 256
      (the texts of the log are the UTF-8 bytes of the source).
    - A [dict] used as a record is a [gmap string value].
    - Every function that can log, call Earth Engine or BigQuery, or raise,
      lives in the monad [eff S]: state [S], exceptions, and the chronological
      list of the [event]s it emitted (log records of level WARNING and ERROR,
      and the image searches sent to Earth Engine).
    - What the program cannot decide itself (the clock, the answers of
      Earth Engine and of BigQuery, the platform's [strftime] and the
      [pow] of its C library) is read from an environment [Env]. *)

From Stdlib Require Import ZArith Floats String Ascii DecimalString.
From Stdlib Require Import List Lia Bool.
From stdpp Require Import gmap strings list.
From Equations Require Import Equations.

Set Warnings "-inexact-float".
Local Open Scope Z_scope.

(* ===================================================================== *)
(** ** Exceptions, events and the effect monad *)
(* ===================================================================== *)

(** The exceptions the modelled code can meet.  [ServiceError] stands for
    whatever the Earth Engine or BigQuery client raises. *)
Inductive exn :=
| ValueError (msg : string)
| OverflowError (msg : string)
| KeyError (key : string)
| TypeError (msg : string)
| ServiceError (msg : string).

Inductive result (A : Type) :=
| Ok (a : A)
| Raise (e : exn).
Arguments Ok {A} a.
Arguments Raise {A} e.

(** The levels of the log records the embedding keeps.  The calls of
    [logger.info] are left out of it: an empty list of events means no
    record of level WARNING or ERROR, not a silent logger. *)
Inductive level := WARNING | ERROR.

(** What a run leaves behind besides its writes to the table.
    [Log lvl text exc] is a call of [logger.warning] or [logger.error];
    when the f-string ends in [{e}], [text] is the part before it and [exc]
    the exception.  The texts are the bytes of the source file (UTF-8).
    [GetInfo a b] is the [getInfo()] of the image collection filtered by
    [filterDate(a, b)]. *)
Inductive event :=
| Log (lvl : level) (text : string) (exc : option exn)
| GetInfo (start_date end_date : string).

Definition eff (S A : Type) : Type := S → result A * S * list event.

Definition ret {S A} (a : A) : eff S A := λ s, (Ok a, s, []).

Definition bind {S A B} (m : eff S A) (k : A → eff S B) : eff S B :=
  λ s, match m s with
       | (Ok a, s1, ev1) =>
           match k a s1 with
           | (r, s2, ev2) => (r, s2, ev1 ++ ev2)
           end
       | (Raise e, s1, ev1) => (Raise e, s1, ev1)
       end.

#[global] Instance eff_ret {S} : MRet (eff S) := λ A, ret.
#[global] Instance eff_bind {S} : MBind (eff S) := λ A B k m, bind m k.

Definition raise {S A} (e : exn) : eff S A := λ s, (Raise e, s, []).

(** [try: m except Exception as e: h e].  What [m] did to the state and
    what it emitted before raising stays. *)
Definition try_except {S A} (m : eff S A) (h : exn → eff S A) : eff S A :=
  λ s, match m s with
       | (Ok a, s1, ev1) => (Ok a, s1, ev1)
       | (Raise e, s1, ev1) =>
           match h e s1 with
           | (r, s2, ev2) => (r, s2, ev1 ++ ev2)
           end
       end.

Definition get {S} : eff S S := λ s, (Ok s, s, []).
Definition put {S} (s' : S) : eff S unit := λ _, (Ok tt, s', []).
Definition emit {S} (ev : event) : eff S unit := λ s, (Ok tt, s, [ev]).

(** A pure computation that may raise. *)
Definition of_result {S A} (r : result A) : eff S A := λ s, (r, s, []).

(** A computation that owns no state, run inside one that does. *)
Definition stateless {S A} (m : eff unit A) : eff S A :=
  λ s, match m tt with (r, _, ev) => (r, s, ev) end.

(** A computation on local variables [L], started at [l0]; the caller gets
    the result together with the final value of the locals. *)
Definition with_locals {S L A} (l0 : L) (m : eff L A) : eff S (A * L) :=
  λ s, match m l0 with
       | (Ok a, l1, ev) => (Ok (a, l1), s, ev)
       | (Raise e, _, ev) => (Raise e, s, ev)
       end.

Definition logger_warning {S} (text : string) : eff S unit :=
  emit (Log WARNING text None).
Definition logger_warning_exc {S} (text : string) (e : exn) : eff S unit :=
  emit (Log WARNING text (Some e)).
Definition logger_error {S} (text : string) (e : exn) : eff S unit :=
  emit (Log ERROR text (Some e)).
Definition logger_error_plain {S} (text : string) : eff S unit :=
  emit (Log ERROR text None).

(** [for x in xs: body x]. *)
Fixpoint for_each {S A} (xs : list A) (body : A → eff S unit) : eff S unit :=
  match xs with
  | [] => ret tt
  | x :: xs' => _ ← body x; for_each xs' body
  end.

(** The value, the final state and the events of a run. *)
Definition value_of {S A} (x : result A * S * list event) : result A := x.1.1.
Definition state_of {S A} (x : result A * S * list event) : S := x.1.2.
Definition events_of {S A} (x : result A * S * list event) : list event := x.2.

(* ===================================================================== *)
(** ** Calendar: [datetime], [timedelta], [calendar.monthrange] *)
(* ===================================================================== *)

(** Of a [datetime] only the calendar date is kept: the module formats
    with [%Y-%m] and [%Y-%m-%d] only, compares midnights of first days of
    months, and [timedelta(days=n)] leaves the time of day alone. *)
Record datetime := mk_datetime { year : Z; month : Z; day : Z }.

Definition MINYEAR : Z := 1.
Definition MAXYEAR : Z := 9999.
Definition _MAXORDINAL : Z := 3652059.

Definition _is_leap (y : Z) : bool :=
  (y mod 4 =? 0) && (negb (y mod 100 =? 0) || (y mod 400 =? 0)).

Definition _DAYS_IN_MONTH : list Z :=
  [-1; 31; 28; 31; 30; 31; 30; 31; 31; 30; 31; 30; 31].
Definition _DAYS_BEFORE_MONTH : list Z :=
  [-1; 0; 31; 59; 90; 120; 151; 181; 212; 243; 273; 304; 334].

Definition _days_before_year (y : Z) : Z :=
  let y := y - 1 in y * 365 + y / 4 - y / 100 + y / 400.

Definition _days_in_month (y m : Z) : Z :=
  if (m =? 2) && _is_leap y then 29
  else default 0 (_DAYS_IN_MONTH !! Z.to_nat m).

Definition _days_before_month (y m : Z) : Z :=
  default 0 (_DAYS_BEFORE_MONTH !! Z.to_nat m)
  + (if (2 <? m) && _is_leap y then 1 else 0).

Definition _ymd2ord (y m d : Z) : Z :=
  _days_before_year y + _days_before_month y m + d.

Definition _DI400Y : Z := 146097.
Definition _DI100Y : Z := 36524.
Definition _DI4Y : Z := 1461.

Definition _ord2ymd (n : Z) : Z * Z * Z :=
  let n := n - 1 in
  let n400 := n / _DI400Y in let n := n mod _DI400Y in
  let y := n400 * 400 + 1 in
  let n100 := n / _DI100Y in let n := n mod _DI100Y in
  let n4 := n / _DI4Y in let n := n mod _DI4Y in
  let n1 := n / 365 in let n := n mod 365 in
  let y := y + n100 * 100 + n4 * 4 + n1 in
  if (n1 =? 4) || (n100 =? 4) then (y - 1, 12, 31)
  else
    let leapyear := (n1 =? 3) && (negb (n4 =? 24) || (n100 =? 3)) in
    let m := Z.shiftr (n + 50) 5 in
    let preceding :=
      default 0 (_DAYS_BEFORE_MONTH !! Z.to_nat m)
      + (if (2 <? m) && leapyear then 1 else 0) in
    if n <? preceding then
      let m := m - 1 in
      let preceding :=
        preceding - (default 0 (_DAYS_IN_MONTH !! Z.to_nat m)
                     + (if (m =? 2) && leapyear then 1 else 0)) in
      (y, m, n - preceding + 1)
    else (y, m, n - preceding + 1).

(** The constructor's range check. *)
Definition new_datetime (y m d : Z) : result datetime :=
  if negb ((MINYEAR <=? y) && (y <=? MAXYEAR)) then
    Raise (ValueError "year is out of range")
  else if negb ((1 <=? m) && (m <=? 12)) then
    Raise (ValueError "month must be in 1..12")
  else if negb ((1 <=? d) && (d <=? _days_in_month y m)) then
    Raise (ValueError "day is out of range for month")
  else Ok (mk_datetime y m d).

(** [dt.replace(year=.., month=.., day=..)]; [None] keeps the field. *)
Definition replace (dt : datetime) (y m d : option Z) : result datetime :=
  new_datetime (default (year dt) y) (default (month dt) m)
               (default (day dt) d).

(** [dt - timedelta(days=n)]. *)
Definition sub_days (dt : datetime) (n : Z) : result datetime :=
  let o := _ymd2ord (year dt) (month dt) (day dt) - n in
  if (1 <=? o) && (o <=? _MAXORDINAL) then
    match _ord2ymd o with (y, m, d) => Ok (mk_datetime y m d) end
  else Raise (OverflowError "date value out of range").

(** [calendar.monthrange(year, month)[1]]. *)
Definition monthrange_ndays (y m : Z) : result Z :=
  if negb ((1 <=? m) && (m <=? 12)) then Raise (ValueError "bad month number")
  else Ok (default 0 (_DAYS_IN_MONTH !! Z.to_nat m)
           + (if (m =? 2) && _is_leap y then 1 else 0)).

(** Comparison of two datetimes (of the same time of day). *)
Definition datetime_ltb (a b : datetime) : bool :=
  (year a <? year b)
  || ((year a =? year b)
      && ((month a <? month b)
          || ((month a =? month b) && (day a <? day b)))).

Definition datetime_eqb (a b : datetime) : bool :=
  (year a =? year b) && (month a =? month b) && (day a =? day b).

Definition datetime_leb (a b : datetime) : bool :=
  datetime_ltb a b || datetime_eqb a b.

(** A datetime the constructor accepts. *)
Definition valid_datetime (dt : datetime) : Prop :=
  new_datetime (year dt) (month dt) (day dt) = Ok dt.

(* ===================================================================== *)
(** ** [strftime] and [strptime] *)
(* ===================================================================== *)

Definition str_int (z : Z) : string :=
  DecimalString.NilZero.string_of_int (Z.to_int z).

Fixpoint zeros (n : nat) : string :=
  match n with O => "" | S n' => String "0" (zeros n') end.

(** [%0wd] of a number that is not negative. *)
Definition zfill (w : nat) (z : Z) : string :=
  let s := str_int z in zeros (w - String.length s) +:+ s.

(** [%Y].  The C library decides whether a year below 1000 is padded with
    zeros: glibc does not, and CPython pads by itself from 3.13 on.  The
    flag is the platform's choice; from the year 1000 on both agree. *)
Definition strftime_Y (pads : bool) (y : Z) : string :=
  if pads then zfill 4 y else str_int y.

(** [dt.strftime('%Y-%m')] *)
Definition strftime_Y_m (pads : bool) (dt : datetime) : string :=
  strftime_Y pads (year dt) +:+ "-" +:+ zfill 2 (month dt).

(** [dt.strftime('%Y-%m-%d')] *)
Definition strftime_Y_m_d (pads : bool) (dt : datetime) : string :=
  strftime_Y_m pads dt +:+ "-" +:+ zfill 2 (day dt).

Definition digit_of (c : ascii) : option Z :=
  let n := Z.of_nat (nat_of_ascii c) in
  if (48 <=? n) && (n <=? 57) then Some (n - 48) else None.

(** The group [(?P<m>1[0-2]|0[1-9]|[1-9])] of [_strptime]'s regular
    expression, tried at the head of [s]: the month and what follows it. *)
Definition match_m (s : string) : option (Z * string) :=
  let alt1 :=
    match s with
    | String "1" (String c rest) =>
        match digit_of c with
        | Some d => if d <=? 2 then Some (10 + d, rest) else None
        | None => None
        end
    | _ => None
    end in
  let alt2 :=
    match s with
    | String "0" (String c rest) =>
        match digit_of c with
        | Some d => if 1 <=? d then Some (d, rest) else None
        | None => None
        end
    | _ => None
    end in
  let alt3 :=
    match s with
    | String c rest =>
        match digit_of c with
        | Some d => if 1 <=? d then Some (d, rest) else None
        | None => None
        end
    | _ => None
    end in
  match alt1 with
  | Some r => Some r
  | None => match alt2 with Some r => Some r | None => alt3 end
  end.

(** The group [(?P<Y>\d\d\d\d)]. *)
Definition match_Y (s : string) : option (Z * string) :=
  match s with
  | String a (String b (String c (String d rest))) =>
      match digit_of a, digit_of b, digit_of c, digit_of d with
      | Some a, Some b, Some c, Some d =>
          Some (1000 * a + 100 * b + 10 * c + d, rest)
      | _, _, _, _ => None
      end
  | _ => None
  end.

(** [datetime.strptime(s, '%Y-%m')]: the regular expression must match a
    prefix of [s], nothing may remain after it, and the year must be one a
    [datetime] can hold.  The day is 1. *)
Definition strptime_Y_m (s : string) : result datetime :=
  match match_Y s with
  | Some (y, String "-" rest) =>
      match match_m rest with
      | Some (m, "") => new_datetime y m 1
      | Some (_, _) => Raise (ValueError "unconverted data remains")
      | None => Raise (ValueError "time data does not match format")
      end
  | _ => Raise (ValueError "time data does not match format")
  end.

(* ===================================================================== *)
(** ** Floats: the builtins the collector uses *)
(* ===================================================================== *)

Local Open Scope float_scope.

Definition float_of_Z (z : Z) : float :=
  SF2Prim (binary_normalize prec emax z 0 false).

(** [len(l)] where Python divides a float by it. *)
Definition len_f {A} (l : list A) : float := float_of_Z (Z.of_nat (length l)).

(** [sum(l)]: the additions from the left, starting at the integer 0
    (CPython up to 3.11; from 3.12 on [sum] compensates the rounding
    errors of floats, which can change the last bit of the result). *)
Definition py_sum (l : list float) : float := fold_left PrimFloat.add l 0.

(** [x ** 2] and [v ** 0.5] are CPython's [float_pow], which settles the
    special cases itself and hands the others to the [pow] of the C
    library, here [libm_pow]; that function is accurate to a unit in the
    last place on the usual platforms, not correctly rounded, so it is a
    parameter.  [errno] is taken to be set only together with an infinite
    result or a zero, as the C libraries do: an infinite result is an
    [OverflowError]. *)

(** [x ** 2]: a NaN is returned as it is, an infinity gives [inf], a zero
    gives [0.0]; [pow] gets the absolute value, unless that is 1.0. *)
Definition pow2 (libm_pow : float → float → float) (x : float)
  : result float :=
  if PrimFloat.is_nan x then Ok x
  else if PrimFloat.is_infinity x then Ok (PrimFloat.abs x)
  else if PrimFloat.eqb x 0 then Ok 0
  else
    let iv := if PrimFloat.ltb x 0 then (- x) else x in
    if PrimFloat.eqb iv 1 then Ok 1
    else
      let ix := libm_pow iv 2 in
      if PrimFloat.is_infinity ix
      then Raise (OverflowError "(34, 'Numerical result out of range')")
      else Ok ix.

(** [v ** 0.5], as far as the record is concerned.  The power of a
    negative number is a complex number, which nothing looks at before
    the [round] of the record refuses it with a [TypeError]. *)
Definition pow_half (libm_pow : float → float → float) (v : float)
  : result float :=
  if PrimFloat.is_nan v then Ok v
  else if PrimFloat.is_infinity v then Ok (PrimFloat.abs v)
  else if PrimFloat.eqb v 0 then Ok 0
  else if PrimFloat.ltb v 0
  then Raise (TypeError "type complex doesn't define __round__ method")
  else if PrimFloat.eqb v 1 then Ok 1
  else
    let ix := libm_pow v 0.5 in
    if PrimFloat.is_infinity ix
    then Raise (OverflowError "(34, 'Numerical result out of range')")
    else Ok ix.

Fixpoint squares_of_deviations (libm_pow : float → float → float)
    (avg : float) (l : list float) : result (list float) :=
  match l with
  | [] => Ok []
  | x :: l' =>
      match pow2 libm_pow (x - avg) with
      | Raise e => Raise e
      | Ok y =>
          match squares_of_deviations libm_pow avg l' with
          | Raise e => Raise e
          | Ok ys => Ok (y :: ys)
          end
      end
  end.

(** [min(l)] and [max(l)] of a list that is not empty. *)
Definition py_min (l : list float) : float :=
  match l with
  | [] => 0
  | x :: l' => fold_left (λ m y, if y <? m then y else m) l' x
  end.
Definition py_max (l : list float) : float :=
  match l with
  | [] => 0
  | x :: l' => fold_left (λ m y, if m <? y then y else m) l' x
  end.

Local Close Scope float_scope.

(** [p / q] rounded to an integer, a half going to the even neighbour
    ([q] positive). *)
Definition round_half_even (p q : Z) : Z :=
  let n := p / q in
  match 2 * (p mod q) ?= q with
  | Lt => n
  | Gt => n + 1
  | Eq => if Z.even n then n else n + 1
  end.

(** The sign of a finite [x], and [|x| * 10^nd] rounded half to even, on
    the exact value of the double. *)
Definition scaled_round (x : float) (nd : Z) : bool * Z :=
  match Prim2SF x with
  | S754_finite s m e =>
      let p := Z.pos m * 10 ^ nd in
      (s, if 0 <=? e then p * 2 ^ e else round_half_even p (2 ^ (- e)))
  | S754_zero s => (s, 0)
  | _ => (false, 0)
  end.

(** The double nearest to [n / d] (ties to even), with sign [s]; [n] is
    not negative and [d] is positive.  The quotient is cut after more
    than 60 bits and a sticky bit records whether anything was lost. *)
Definition nearest_float (s : bool) (n d : Z) : float :=
  if n =? 0 then (if s then (-0)%float else 0%float)
  else
    let k := 64 + Z.log2 d in
    let q := (n * 2 ^ k) / d in
    let sticky := if (n * 2 ^ k) mod d =? 0 then 0 else 1 in
    let m := 2 * q + sticky in
    SF2Prim (binary_normalize prec emax (if s then - m else m) (- k - 1) false).

(** [round(x, nd)]: the decimal nearest to [x] at [nd] places, half to
    even on the exact value, read back as a double. *)
Definition py_round (x : float) (nd : Z) : float :=
  if PrimFloat.is_finite x then
    match scaled_round x nd with
    | (s, n) => nearest_float s n (10 ^ nd)
    end
  else x.

(** [f"{x:.3f}"] and the like. *)
Definition format_f (nd : nat) (x : float) : string :=
  if PrimFloat.is_nan x then "nan"
  else if PrimFloat.is_infinity x then
    (if PrimFloat.ltb x 0 then "-inf" else "inf")
  else
    match scaled_round x (Z.of_nat nd) with
    | (s, n) =>
        (if s then "-" else "")
        +:+ str_int (n / 10 ^ Z.of_nat nd) +:+ "."
        +:+ zfill nd (n mod 10 ^ Z.of_nat nd)
    end.

(* ===================================================================== *)
(** ** Records, Earth Engine objects and the environment *)
(* ===================================================================== *)

(** The values a record of the table holds. *)
Inductive value :=
| VStr (s : string)
| VInt (n : Z)
| VFloat (x : float)
| VDate (d : datetime)
| VList (l : list string).

(** A record of the table: a [dict] from column names to values. *)
Abbreviation dict := (gmap string value).

(** The table [raw_satellite_metrics]: the rows appended so far. *)
Abbreviation table := (list (gmap string value)).

(** [ee.Geometry.Point([lon, lat])], [g.buffer(r)], [g.bounds()]: built on
    the client, never sent on their own. *)
Inductive geometry :=
| Point (lon lat : float)
| Buffer (g : geometry) (r : Z)
| Bounds (g : geometry).

(** One entry of the [features] of a collection's [getInfo()]: the image
    id, and of its [properties] the two the collector reads. *)
Record img_info := mk_img_info {
  img_id : string;
  CLOUDY_PIXEL_PERCENTAGE : option float;
  system_time_start : option Z
}.

(** The user's personal location, as [add_user_location] stores it. *)
Record location_data := mk_location_data {
  actual_location : string;
  loc_lat : float;
  loc_lon : float
}.

(** The row of the aggregate query of [_generate_basic_analysis]. *)
Record metrics_row := mk_metrics_row {
  total_observations : Z;
  avg_vegetation : option float;
  avg_cloud_cover_row : option float;
  earliest_date : string;
  latest_date : string
}.

Record Env := mk_Env {
  (** [datetime.now()] *)
  now : datetime;
  (** whether the platform's [%Y] pads years below 1000 *)
  strftime_pads_year : bool;
  (** offset of local time from UTC, in seconds ([datetime.fromtimestamp]) *)
  utcoffset : Z;
  (** [ee.Initialize()]: the exception it raises, if any *)
  ee_initialize : option exn;
  (** [collection.getInfo()] for the point, [filterDate(a, b)], cloud
      cover below 25 sorted ascending, [limit(n)]: the ['features'], when
      the answer has them *)
  ee_get_info : geometry → string → string → Z →
                result (option (list img_info));
  (** [ndvi.reduceRegion(..).getInfo().get('nd')] of the image with this
      id over the region *)
  ee_reduce_region : string → geometry → result (option float);
  (** the exception a BigQuery query raises, if any *)
  bq_query_error : option exn;
  (** the exception the load job of these rows raises, if any *)
  bq_load_error : table → option exn;
  (** the aggregate row of the analysis query for a region name, computed
      by the warehouse *)
  bq_metrics : table → string → option metrics_row;
  (** [user_sessions]: per user id, the ['personal_locations'] when the
      session has them *)
  user_sessions : gmap Z (option (gmap string location_data));
  (** [pow(x, y)] of the C library *)
  libm_pow : float → float → float
}.

(* ===================================================================== *)
(** ** [services/satellite_collector.py] *)
(* ===================================================================== *)

(** The four lists the image loop of [_get_monthly_averaged_data] fills. *)
Record samples := mk_samples {
  ndvi_values : list float;
  cloud_percentages : list float;
  image_dates : list string;
  image_ids : list string
}.

Definition _assess_monthly_data_quality
    (image_count : Z) (avg_cloud_cover std_dev : float) : string :=
  let quality_score := 0 in
  let quality_score :=
    if 3 <=? image_count then quality_score + 40
    else if 2 <=? image_count then quality_score + 25
    else quality_score + 10 in
  let quality_score :=
    if PrimFloat.ltb avg_cloud_cover 10 then quality_score + 40
    else if PrimFloat.ltb avg_cloud_cover 20 then quality_score + 25
    else quality_score + 10 in
  let quality_score :=
    if PrimFloat.ltb std_dev 0.05 then quality_score + 20
    else if PrimFloat.ltb std_dev 0.10 then quality_score + 10
    else quality_score + 5 in
  if 80 <=? quality_score then "excellent"
  else if 60 <=? quality_score then "good"
  else if 40 <=? quality_score then "fair"
  else "poor".

(** [enumerate(l)], counting from [i]. *)
Fixpoint enumerate {A} (i : Z) (l : list A) : list (Z * A) :=
  match l with
  | [] => []
  | x :: l' => (i, x) :: enumerate (i + 1) l'
  end.

Section Collector.

Variable E : Env.

Definition strftime_Ym (dt : datetime) : string :=
  strftime_Y_m (strftime_pads_year E) dt.
Definition strftime_Ymd (dt : datetime) : string :=
  strftime_Y_m_d (strftime_pads_year E) dt.

(** [datetime.fromtimestamp(ms / 1000)], the date of it. *)
Definition fromtimestamp (ms : Z) : result datetime :=
  let o := 719163 + (ms + 1000 * utcoffset E) / 86400000 in
  if (1 <=? o) && (o <=? _MAXORDINAL) then
    match _ord2ymd o with (y, m, d) => Ok (mk_datetime y m d) end
  else Raise (ValueError "year is out of range").

(** The body of the loop over the images.  The two appends of the metric
    and of the cloud cover come before the timestamp is read: an image
    whose timestamp cannot be read still counts. *)
Definition process_image (region : geometry) (ix : Z * img_info)
  : eff samples unit :=
  let '(i, img_info) := ix in
  try_except
    (ndvi_value ← of_result (ee_reduce_region E (img_id img_info) region);
     match ndvi_value with
     | Some ndvi_value =>
         l ← get;
         _ ← put (mk_samples
                    (ndvi_values l ++ [ndvi_value])
                    (cloud_percentages l
                       ++ [default 0%float (CLOUDY_PIXEL_PERCENTAGE img_info)])
                    (image_dates l) (image_ids l));
         timestamp ← match system_time_start img_info with
                     | Some t => ret t
                     | None => raise (KeyError "system:time_start")
                     end;
         image_date ← of_result (fromtimestamp timestamp);
         l ← get;
         put (mk_samples (ndvi_values l) (cloud_percentages l)
                (image_dates l ++ [strftime_Ymd image_date])
                (image_ids l ++ [img_id img_info]))
     | None => ret tt
     end)
    (λ e, logger_error
            ("Failed to process image " +:+ str_int (i + 1) +:+ ": ") e).

Definition _get_monthly_averaged_data
    (point region : geometry) (month_start month_end : datetime)
    (max_images : Z) : eff unit (option dict) :=
  try_except
    (_ ← emit (GetInfo (strftime_Ymd month_start) (strftime_Ymd month_end));
     images_info ←
       of_result (ee_get_info E point (strftime_Ymd month_start)
                    (strftime_Ymd month_end) max_images);
     let images_list := default [] images_info in
     match images_list with
     | [] =>
         _ ← logger_warning
               ("No suitable images found for " +:+ strftime_Ym month_start);
         ret None
     | _ :: _ =>
         '(_, l) ← with_locals (mk_samples [] [] [] [])
                     (for_each (enumerate 0 images_list)
                        (process_image region));
         match ndvi_values l with
         | [] => ret None
         | _ :: _ =>
             let avg_ndvi :=
               (py_sum (ndvi_values l) / len_f (ndvi_values l))%float in
             let avg_cloud_cover :=
               (py_sum (cloud_percentages l)
                / len_f (cloud_percentages l))%float in
             std_dev ←
               (if (1 <? length (ndvi_values l))%nat then
                  sq ← of_result
                         (squares_of_deviations (libm_pow E) avg_ndvi
                            (ndvi_values l));
                  let variance :=
                    (py_sum sq / len_f (ndvi_values l))%float in
                  of_result (pow_half (libm_pow E) variance)
                else ret 0%float);
             ret (Some (list_to_map
               [("acquisition_month", VStr (strftime_Ym month_start));
                ("image_count", VInt (Z.of_nat (length (ndvi_values l))));
                ("image_ids", VList (image_ids l));
                ("image_dates", VList (image_dates l));
                ("ndvi_mean", VFloat (py_round avg_ndvi 4));
                ("ndvi_std", VFloat (py_round std_dev 4));
                ("ndvi_min", VFloat (py_round (py_min (ndvi_values l)) 4));
                ("ndvi_max", VFloat (py_round (py_max (ndvi_values l)) 4));
                ("cloud_percentage", VFloat (py_round avg_cloud_cover 1));
                ("sensor", VStr "Sentinel-2");
                ("data_quality",
                  VStr (_assess_monthly_data_quality
                          (Z.of_nat (length (ndvi_values l)))
                          avg_cloud_cover std_dev))]))
         end
     end)
    (λ e, _ ← logger_error
                ("Failed to get averaged data for month "
                 +:+ strftime_Ym month_start +:+ ": ") e;
          ret None).

(** The step of the loop of [_get_missing_months]: move to the next
    month. *)
Definition next_month (check_date : datetime) : result datetime :=
  if month check_date =? 12 then
    replace check_date (Some (year check_date + 1)) (Some 1) None
  else replace check_date None (Some (month check_date + 1)) None.

(** Months left until the end of [current_date]'s year, and one more:
    every turn of the loop takes one away. *)
Definition months_left (current_date check_date : datetime) : nat :=
  Z.to_nat (12 * (year current_date - year check_date)
            + 13 - month check_date).

Definition inspect {A} (a : A) : {b | a = b} := exist _ a eq_refl.

(** [while check_date < current_date: ...], with the list built so far. *)
Equations? missing_months_loop (current_date check_date : datetime)
    (missing_months : list string) : result (list string)
    by wf (months_left current_date check_date) lt :=
  missing_months_loop current_date check_date missing_months
    with inspect (datetime_ltb check_date current_date) := {
    | exist _ false _ => Ok missing_months;
    | exist _ true Hlt with inspect (next_month check_date) := {
        | exist _ (Raise e) _ => Raise e;
        | exist _ (Ok check_date') Hnext =>
            missing_months_loop current_date check_date'
              (missing_months ++ [strftime_Ym check_date']) } }.
Proof.
  clear missing_months_loop.
  unfold months_left, datetime_ltb in *.
  unfold next_month, replace, new_datetime in Hnext.
  repeat match type of Hnext with
         | context [if ?b then _ else _] => destruct b eqn:?
         end; try discriminate;
  inversion Hnext; subst; simpl in *; lia.
Qed.

Definition _get_missing_months (latest_month current_month : string)
  : eff unit (list string) :=
  try_except
    (latest_date ← of_result (strptime_Y_m latest_month);
     current_date ← of_result (strptime_Y_m current_month);
     if datetime_leb current_date latest_date then ret []
     else of_result (missing_months_loop current_date latest_date []))
    (λ e, _ ← logger_error "Failed to calculate missing months: " e;
          ret []).

Fixpoint max_string (l : list string) : option string :=
  match l with
  | [] => None
  | s :: l' =>
      match max_string l' with
      | None => Some s
      | Some m => if String.ltb s m then Some m else Some s
      end
  end.

(** [SELECT MAX(acquisition_month) ... WHERE region_id = @region_id
    AND acquisition_month IS NOT NULL], the columns being strings. *)
Definition max_acquisition_month (tbl : table) (region_id : string)
  : option string :=
  max_string
    (omap (λ row : dict,
             match row !! "region_id", row !! "acquisition_month" with
             | Some (VStr r), Some (VStr m) =>
                 if String.eqb r region_id then Some m else None
             | _, _ => None
             end) tbl).

(** The client and the query job of a read of the table. *)
Definition bq_query {A} (answer : table → A) : eff table A :=
  match bq_query_error E with
  | Some e => raise e
  | None => tbl ← get; ret (answer tbl)
  end.

Definition _get_latest_data_month (region_id : string)
  : eff table (option string) :=
  try_except
    (bq_query (λ tbl, max_acquisition_month tbl region_id))
    (λ e, _ ← logger_error
                ("Failed to get latest month for region "
                 +:+ region_id +:+ ": ") e;
          ret None).

Definition _upload_to_bigquery (data_rows : table) : eff table bool :=
  try_except
    (match bq_load_error E data_rows with
     | Some e => raise e
     | None => tbl ← get; _ ← put (tbl ++ data_rows); ret true
     end)
    (λ e, _ ← logger_error "BigQuery upload failed: " e; ret false).

Definition ee_Initialize {S} : eff S unit :=
  match ee_initialize E with
  | Some e => raise e
  | None => ret tt
  end.

(** [d.update(new)] *)
Definition update (d : dict) (new : list (string * value)) : dict :=
  list_to_map new ∪ d.

Definition _fill_missing_months (region_id display_name : string)
    (latitude longitude : float) (missing_months : list string)
  : eff table bool :=
  try_except
    (_ ← ee_Initialize;
     let point := Point longitude latitude in
     let region := Bounds (Buffer point 5000) in
     '(_, collected_data) ←
       with_locals ([] : table)
         (for_each missing_months (λ month_str,
            month_date ← of_result (strptime_Y_m month_str);
            month_start ← of_result (replace month_date None None (Some 1));
            last_day ← of_result (monthrange_ndays (year month_date)
                                    (month month_date));
            month_end ←
              of_result (replace month_date None None (Some last_day));
            month_data ←
              stateless (_get_monthly_averaged_data point region
                           month_start month_end 3);
            match month_data with
            | Some month_data =>
                let month_data :=
                  update month_data
                    [("region_id", VStr region_id);
                     ("region_name", VStr display_name);
                     ("latitude", VFloat latitude);
                     ("longitude", VFloat longitude);
                     ("processing_date", VDate (now E));
                     ("collection_type", VStr "gap_fill")] in
                collected_data ← get;
                put (collected_data ++ [month_data])
            | None =>
                logger_warning
                  ("❌ Could not fill gap for " +:+ month_str
                   +:+ " (no suitable images)")
            end));
     match collected_data with
     | _ :: _ => _upload_to_bigquery collected_data
     | [] =>
         _ ← logger_warning
               ("No data collected during gap filling for "
                +:+ display_name);
         ret false
     end)
    (λ e, _ ← logger_error "Failed to fill missing months: " e;
          ret false).

Definition collect_satellite_data_monthly (region_id display_name : string)
    (latitude longitude : float) : eff table bool :=
  try_except
    (_ ← ee_Initialize;
     let point := Point longitude latitude in
     let region := Bounds (Buffer point 5000) in
     let current_date := now E in
     '(_, monthly_data) ←
       with_locals ([] : table)
         (for_each [0; 1; 2; 3; 4; 5] (λ month_offset,
            target_month ←
              of_result (sub_days current_date (30 * month_offset));
            month_start ←
              of_result (replace target_month None None (Some 1));
            last_day ← of_result (monthrange_ndays (year target_month)
                                    (month target_month));
            month_end ←
              of_result (replace target_month None None (Some last_day));
            month_data ←
              stateless (_get_monthly_averaged_data point region
                           month_start month_end 3);
            match month_data with
            | Some month_data =>
                monthly_data ← get;
                put (monthly_data ++ [month_data])
            | None =>
                logger_warning
                  ("❌ No suitable images for " +:+ strftime_Ym month_start)
            end));
     match monthly_data with
     | [] =>
         _ ← logger_error_plain
               ("No monthly data collected for " +:+ display_name);
         ret false
     | _ :: _ =>
         let monthly_data :=
           map (λ record,
                  update record
                    [("region_id", VStr region_id);
                     ("region_name", VStr display_name);
                     ("latitude", VFloat latitude);
                     ("longitude", VFloat longitude);
                     ("processing_date", VDate (now E))])
               monthly_data in
         _upload_to_bigquery monthly_data
     end)
    (λ e, _ ← logger_error
                ("Monthly collection failed for " +:+ display_name +:+ ": ")
                e;
          ret false).

Definition collect_with_gap_filling (region_id display_name : string)
    (latitude longitude : float) : eff table bool :=
  try_except
    (latest_month ← _get_latest_data_month region_id;
     let current_month := strftime_Ym (now E) in
     match latest_month with
     | None =>
         collect_satellite_data_monthly region_id display_name
           latitude longitude
     | Some latest_month =>
         missing_months ←
           stateless (_get_missing_months latest_month current_month);
         match missing_months with
         | [] => ret true
         | _ :: _ =>
             _fill_missing_months region_id display_name
               latitude longitude missing_months
         end
     end)
    (λ e, _ ← logger_error
                ("Gap filling failed for " +:+ display_name +:+ ": ") e;
          ret false).

Definition collect_satellite_data (region_name : string)
    (latitude longitude : float) : eff table bool :=
  try_except
    (let region_id :=
       format_f 3 latitude +:+ "_" +:+ format_f 3 longitude in
     collect_with_gap_filling region_id region_name latitude longitude)
    (λ e, _ ← logger_error
                ("Smart collection failed for " +:+ region_name +:+ ": ") e;
          ret false).

(* ===================================================================== *)
(** ** [services/data_checker.py] *)
(* ===================================================================== *)

(** The rows [WHERE region_name = @region_name]. *)
Definition rows_named (tbl : table) (region_name : string) : table :=
  List.filter (λ row : dict,
                 match row !! "region_name" with
                 | Some (VStr n) => String.eqb n region_name
                 | _ => false
                 end) tbl.

Definition should_collect_data (region_name : string) : eff table bool :=
  try_except
    (record_count ←
       bq_query (λ tbl, Z.of_nat (length (rows_named tbl region_name)));
     if record_count <? 3 then ret true else ret false)
    (λ e, _ ← logger_warning_exc
                ("Failed to check data for " +:+ region_name +:+ ": ") e;
          ret true).

(** [MAX(acquisition_date)] of the rows, the column being strings, and
    [str] of it. *)
Definition max_acquisition_date (rows : table) : string :=
  default "None"
    (max_string
       (omap (λ row : dict,
                match row !! "acquisition_date" with
                | Some (VStr d) => Some d
                | _ => None
                end) rows)).

Definition get_data_summary (region_name : string) : eff table string :=
  try_except
    ('(count, latest) ←
       bq_query (λ tbl,
         let rows := rows_named tbl region_name in
         (Z.of_nat (length rows), max_acquisition_date rows));
     if count =? 0 then
       ret ("No data found for " +:+ region_name
            +:+ ". Collecting new data...")
     else
       ret ("Found " +:+ str_int count +:+ " records for " +:+ region_name
            +:+ ", latest: " +:+ latest))
    (λ e, _ ← logger_error
                ("Failed to get summary for " +:+ region_name +:+ ": ") e;
          ret ("Could not check data for " +:+ region_name)).

(* ===================================================================== *)
(** ** [services/integration_pipeline.py] *)
(* ===================================================================== *)

(** The dict [_generate_basic_analysis] returns. *)
Record basic_analysis := mk_basic_analysis {
  has_data : bool;
  a_total_observations : option Z;
  vegetation_index : option float;
  a_data_quality : option float;
  date_range : option string;
  interpretation : option (gmap string string);
  a_message : option string;
  a_error : option exn
}.

(** The dict [analyze_user_location] returns; a key the dict does not
    have is [None].  A message that ends in [str(e)] keeps [e] apart. *)
Record analysis_result := mk_analysis_result {
  success : bool;
  error : option string;
  message : option (string * option exn);
  r_location_name : option string;
  r_region_name : option string;
  coordinates : option (float * float);
  data_status : option string;
  needs_collection : option bool;
  collection_status : option string;
  updated_data_status : option string;
  analysis : option basic_analysis
}.

Definition _interpret_metrics (ndvi cloud_cover : option float)
  : gmap string string :=
  let interpretation : gmap string string := ∅ in
  let interpretation :=
    match ndvi with
    | Some ndvi =>
        if PrimFloat.ltb 0.6 ndvi then
          <["vegetation" := "🌲 Very green area with healthy vegetation"]>
            interpretation
        else if PrimFloat.ltb 0.4 ndvi then
          <["vegetation" := "🌱 Moderate vegetation coverage"]>
            interpretation
        else if PrimFloat.ltb 0.2 ndvi then
          <["vegetation" := "🏙️ Urban area with some green spaces"]>
            interpretation
        else
          <["vegetation" := "🏢 Highly urban/built-up area"]>
            interpretation
    | None => interpretation
    end in
  match cloud_cover with
  | Some cloud_cover =>
      if PrimFloat.ltb cloud_cover 10 then
        <["data_quality" := "☀️ Excellent data quality (clear skies)"]>
          interpretation
      else if PrimFloat.ltb cloud_cover 20 then
        <["data_quality" := "⛅ Good data quality (some clouds)"]>
          interpretation
      else
        <["data_quality" := "☁️ Fair data quality (cloudy conditions)"]>
          interpretation
  | None => interpretation
  end.

(** [x or 0] of a float that may be NULL. *)
Definition or_zero (x : option float) : float :=
  match x with
  | Some x => if PrimFloat.eqb x 0 then 0%float else x
  | None => 0%float
  end.

Definition no_analysis (msg : option string) (e : option exn)
  : basic_analysis :=
  mk_basic_analysis false None None None None None msg e.

Definition _generate_basic_analysis (region_name : string)
    (location_data : location_data) : eff table basic_analysis :=
  try_except
    (results ← bq_query (λ tbl, bq_metrics E tbl region_name);
     match results with
     | Some row =>
         if 0 <? total_observations row then
           ret (mk_basic_analysis true
                  (Some (total_observations row))
                  (Some (py_round (or_zero (avg_vegetation row)) 3))
                  (Some (py_round (or_zero (avg_cloud_cover_row row)) 1))
                  (Some (earliest_date row +:+ " to " +:+ latest_date row))
                  (Some (_interpret_metrics (avg_vegetation row)
                           (avg_cloud_cover_row row)))
                  None None)
         else ret (no_analysis (Some "No satellite data available yet") None)
     | None => ret (no_analysis (Some "No satellite data available yet") None)
     end)
    (λ e, _ ← logger_error "Analysis generation failed: " e;
          ret (no_analysis None (Some e))).

(** [UserPersonalization.get_user_locations] *)
Definition get_user_locations (user_id : Z) : gmap string location_data :=
  let session := default None (user_sessions E !! user_id) in
  default ∅ session.

Definition analyze_user_location (user_id : Z) (location_name : string)
  : eff table analysis_result :=
  try_except
    (let locations := get_user_locations user_id in
     match locations !! location_name with
     | None =>
         ret (mk_analysis_result false (Some "location_not_found")
                (Some ("Location '" +:+ location_name
                       +:+ "' not found in your personal locations.", None))
                None None None None None None None None)
     | Some location_data =>
         let region_name := actual_location location_data in
         let lat := loc_lat location_data in
         let lon := loc_lon location_data in
         needs_collection ← should_collect_data region_name;
         data_status ← get_data_summary region_name;
         let result_ (status msg : string) (updated : option string) :=
           mk_analysis_result true None (Some (msg, None))
             (Some location_name) (Some region_name) (Some (lat, lon))
             (Some data_status) (Some needs_collection)
             (Some status) updated in
         result_ ←
           (if (needs_collection : bool) then
              collection_success ← collect_satellite_data region_name lat lon;
              if (collection_success : bool) then
                new_data_status ← get_data_summary region_name;
                ret (result_ "success"
                       ("✅ Successfully collected new satellite data for "
                        +:+ location_name)
                       (Some new_data_status))
              else
                ret (result_ "failed"
                       ("❌ Failed to collect satellite data for "
                        +:+ location_name)
                       None)
            else
              ret (result_ "not_needed"
                     ("📊 Using existing satellite data for "
                      +:+ location_name)
                     None));
         analysis ← _generate_basic_analysis region_name location_data;
         ret (result_ (Some analysis))
     end)
    (λ e, _ ← logger_error
                ("Pipeline failed for user " +:+ str_int user_id
                 +:+ ", location " +:+ location_name +:+ ": ") e;
          ret (mk_analysis_result false (Some "pipeline_error")
                 (Some ("❌ Analysis failed: ", Some e))
                 None None None None None None None None)).

End Collector.

(* ===================================================================== *)
(** ** Vocabulary of the specification *)
(* ===================================================================== *)

(** *** Months *)

(** A month key: the midnight of the first day of a month a [datetime]
    can hold, which is what [strptime] gives for ['%Y-%m']. *)
Definition month_start (d : datetime) : Prop :=
  1 <= year d <= 9999 ∧ 1 <= month d <= 12 ∧ day d = 1.

(** Months counted from January of the year 0. *)
Definition month_index (d : datetime) : Z := 12 * year d + month d - 1.

Definition month_of_index (i : Z) : datetime :=
  mk_datetime (i / 12) (i mod 12 + 1) 1.

(** The month immediately after a month. *)
Definition month_successor (d : datetime) : datetime :=
  if month d =? 12 then mk_datetime (year d + 1) 1 (day d)
  else mk_datetime (year d) (month d + 1) (day d).

(** The first day of the month of a date. *)
Definition first_of_month (d : datetime) : datetime :=
  mk_datetime (year d) (month d) 1.

(** A clock a run can meet: a date whose year has four digits. *)
Definition wall_clock (d : datetime) : Prop :=
  1000 <= year d <= 9999 ∧ 1 <= month d <= 12.

(** [strptime] reads back what [strftime] wrote for this year and month. *)
Definition roundtrips (pads : bool) (y m : Z) : bool :=
  match strptime_Y_m (strftime_Y_m pads (mk_datetime y m 1)) with
  | Ok d => datetime_eqb d (mk_datetime y m 1)
  | Raise _ => false
  end.

(** *** The aggregation and the quality rule, in the specification's words *)

(** The four lists the image loop has filled when it is done with the
    images of a search. *)
Definition collected_samples (E : Env) (region : geometry)
    (images_list : list img_info) : samples :=
  state_of (for_each (enumerate 0 images_list) (process_image E region)
              (mk_samples [] [] [] [])).

(** image_count: at least 3 images give 40 points, 2 give 25, 1 gives 10. *)
Definition image_count_points (n : Z) : option Z :=
  if 3 <=? n then Some 40
  else if n =? 2 then Some 25
  else if n =? 1 then Some 10
  else None.

(** mean cloud cover: below 10 gives 40 points, below 20 gives 25, else 10. *)
Definition cloud_points (c : float) : Z :=
  if PrimFloat.ltb c 10 then 40 else if PrimFloat.ltb c 20 then 25 else 10.

(** standard deviation of the metric: below 0.05 gives 20 points, below
    0.10 gives 10, else 5. *)
Definition std_points (s : float) : Z :=
  if PrimFloat.ltb s 0.05 then 20 else if PrimFloat.ltb s 0.10 then 10 else 5.


Definition mean (l : list float) : float := (py_sum l / len_f l)%float.

(** The values of a list of results when none of them raised, else the
    first exception. *)
Fixpoint all_ok {A} (l : list (result A)) : result (list A) :=
  match l with
  | [] => Ok []
  | Raise e :: _ => Raise e
  | Ok a :: l' =>
      match all_ok l' with
      | Ok l'' => Ok (a :: l'')
      | Raise e => Raise e
      end
  end.

(** The population standard deviation of the samples, 0.0 when there is
    only one: the power 0.5 of the mean of the squares of the deviations
    from the mean, in the arithmetic of a platform whose C library has
    [libm_pow].  It has no value when a power has none. *)
Definition population_std (libm_pow : float → float → float)
    (l : list float) : result float :=
  if (length l <=? 1)%nat then Ok 0%float
  else
    match all_ok (map (λ x, pow2 libm_pow (x - mean l)) l) with
    | Ok squares => pow_half libm_pow (py_sum squares / len_f l)
    | Raise e => Raise e
    end.

(** The additive score of a number of images, a mean cloud cover and a
    standard deviation. *)
Definition additive_score (n : Z) (cloud std : float) : option Z :=
  match image_count_points n with
  | Some p => Some (p + cloud_points cloud + std_points std)
  | None => None
  end.

(** The additive score of the metrics and cloud covers of the images. *)
Definition quality_score (libm_pow : float → float → float)
    (metrics clouds : list float) : option Z :=
  match population_std libm_pow metrics with
  | Ok std =>
      additive_score (Z.of_nat (length metrics)) (mean clouds) std
  | Raise _ => None
  end.

(** *** The accuracy of the C library *)



(** A [pow] that is correctly rounded for these two exponents. *)
Definition rounded_pow (x y : float) : float :=
  if PrimFloat.eqb y 2%float then (x * x)%float
  else if PrimFloat.eqb y 0.5%float then PrimFloat.sqrt x
  else PrimFloat.nan.





(** *** Region identity, tags and plans *)

(** The RegionId of a pair of coordinates. *)
Definition region_id_of (latitude longitude : float) : string :=
  format_f 3 latitude +:+ "_" +:+ format_f 3 longitude.

(** A record carries the region id, the display name, the coordinates,
    and [collection_type] as its collection type ([None]: the record has
    no such field). *)
Definition tagged (region_id display_name : string)
    (latitude longitude : float) (collection_type : option value)
    (rec : dict) : Prop :=
  rec !! "region_id" = Some (VStr region_id)
  ∧ rec !! "region_name" = Some (VStr display_name)
  ∧ rec !! "latitude" = Some (VFloat latitude)
  ∧ rec !! "longitude" = Some (VFloat longitude)
  ∧ rec !! "collection_type" = collection_type.

(** The first and the last day of the month of a date, as both
    collection loops compute them. *)
Definition month_window (d : datetime) : result (datetime * datetime) :=
  match replace d None None (Some 1) with
  | Raise e => Raise e
  | Ok first =>
      match monthrange_ndays (year d) (month d) with
      | Raise e => Raise e
      | Ok last_day =>
          match replace d None None (Some last_day) with
          | Raise e => Raise e
          | Ok last => Ok (first, last)
          end
      end
  end.

(** The window the gap-fill loop aggregates for a month string. *)
Definition gap_fill_window (month_str : string)
  : result (datetime * datetime) :=
  match strptime_Y_m month_str with
  | Raise e => Raise e
  | Ok d => month_window d
  end.

(** The window the bootstrap loop aggregates at a month offset. *)
Definition bootstrap_window (E : Env) (month_offset : Z)
  : result (datetime * datetime) :=
  match sub_days (now E) (30 * month_offset) with
  | Raise e => Raise e
  | Ok d => month_window d
  end.

(** The latest month the planner sees for a region. *)
Definition latest_recorded_month (E : Env) (tbl : table)
    (region_id : string) : option string :=
  match value_of (_get_latest_data_month E region_id tbl) with
  | Ok latest => latest
  | Raise _ => None
  end.

(** The months a run plans to aggregate, as windows: six for a bootstrap,
    the missing ones otherwise. *)
Definition planned_windows (E : Env) (tbl : table) (region_id : string)
  : list (result (datetime * datetime)) :=
  match latest_recorded_month E tbl region_id with
  | None => map (bootstrap_window E) [0; 1; 2; 3; 4; 5]
  | Some latest =>
      match value_of (_get_missing_months E latest
                        (strftime_Ym E (now E)) tt) with
      | Ok months => map gap_fill_window months
      | Raise _ => []
      end
  end.

(** The number of records the store holds under a display name: a row
    counts when its column [region_name] holds that name. *)
Fixpoint records_named (tbl : table) (region_name : string) : nat :=
  match tbl with
  | [] => 0
  | row :: tbl' =>
      match row !! "region_name" with
      | Some (VStr n) =>
          if decide (n = region_name)
          then S (records_named tbl' region_name)
          else records_named tbl' region_name
      | _ => records_named tbl' region_name
      end
  end.

(** *** Events *)

(** An event that is a log record, not a request to Earth Engine. *)
Definition is_log (ev : event) : Prop :=
  match ev with Log _ _ _ => True | GetInfo _ _ => False end.

(** The searches among the events: the two dates of each [filterDate]. *)
Definition searches (evs : list event) : list (string * string) :=
  omap (λ ev, match ev with
              | GetInfo a b => Some (a, b)
              | Log _ _ _ => None
              end) evs.

(** The results of a list up to the first that raised. *)
Fixpoint ok_prefix {A} (l : list (result A)) : list A :=
  match l with
  | Ok a :: l' => a :: ok_prefix l'
  | _ => []
  end.

(** The two dates of a window as [filterDate] gets them. *)
Definition window_dates (E : Env) (w : datetime * datetime)
  : string * string :=
  (strftime_Ymd E w.1, strftime_Ymd E w.2).

(** *** Scenarios *)

(** The worlds of the scenarios have a C library whose [pow] is correctly
    rounded. *)

(** A world where nothing fails and Earth Engine has no image. *)
Definition quiet_env (today : datetime) : Env :=
  mk_Env today true 0 None
    (λ _ _ _ _, Ok (Some []))
    (λ _ _, Ok None)
    None (λ _, None) (λ _ _, None) ∅ rounded_pow.

(** Three images of April 2024, of cloud cover 5, 8 and 6 and of metric
    0.62, 0.58 and 0.65. *)
Definition april_images : list img_info :=
  [mk_img_info "S2A_20240405" (Some 5%float) (Some 1712313000000);
   mk_img_info "S2B_20240412" (Some 8%float) (Some 1712917800000);
   mk_img_info "S2A_20240420" (Some 6%float) (Some 1713609000000)].

Definition april_metric (image_id : string) : result (option float) :=
  if String.eqb image_id "S2A_20240405" then Ok (Some 0.62%float)
  else if String.eqb image_id "S2B_20240412" then Ok (Some 0.58%float)
  else if String.eqb image_id "S2A_20240420" then Ok (Some 0.65%float)
  else Ok None.

(** A world where Earth Engine has these three images for the window that
    starts on 2024-04-01 and nothing else; [load] is what the load job
    raises. *)
Definition april_env (today : datetime) (load : option exn) : Env :=
  mk_Env today true 0 None
    (λ _ a _ _, if String.eqb a "2024-04-01" then Ok (Some april_images)
                else Ok (Some []))
    (λ image_id _, april_metric image_id)
    None (λ _, load) (λ _ _, None) ∅ rounded_pow.


(** A world where Earth Engine finds the three images for every window
    but no metric can be computed: the reducer fails for one image and
    answers without a value for the others. *)
Definition barren_env (today : datetime) : Env :=
  mk_Env today true 0 None
    (λ _ _ _ _, Ok (Some april_images))
    (λ image_id _,
       if String.eqb image_id "S2A_20240405"
       then Raise (ServiceError "reducer failed")
       else Ok None)
    None (λ _, None) (λ _ _, None) ∅ rounded_pow.

(** The world of April 2024 with one user, who has a location named
    'home' in Berlin. *)
Definition home_env (today : datetime) : Env :=
  mk_Env today true 0 None
    (λ _ a _ _, if String.eqb a "2024-04-01" then Ok (Some april_images)
                else Ok (Some []))
    (λ image_id _, april_metric image_id)
    None (λ _, None) (λ _ _, None)
    {[ 7 := Some {[ "home" := mk_location_data "Berlin" 52.52 13.405 ]} ]}
    rounded_pow.

Definition berlin : geometry := Point 13.405 52.52.

Definition berlin_region : geometry := Bounds (Buffer berlin 5000).

(** The record of April 2024 in that world. *)
Definition april_record : dict :=
  list_to_map
    [("acquisition_month", VStr "2024-04");
     ("image_count", VInt 3);
     ("image_ids", VList ["S2A_20240405"; "S2B_20240412"; "S2A_20240420"]);
     ("image_dates", VList ["2024-04-05"; "2024-04-12"; "2024-04-20"]);
     ("ndvi_mean", VFloat 0.6167);
     ("ndvi_std", VFloat 0.0287);
     ("ndvi_min", VFloat 0.58);
     ("ndvi_max", VFloat 0.65);
     ("cloud_percentage", VFloat 6.3);
     ("sensor", VStr "Sentinel-2");
     ("data_quality", VStr "excellent")].

(** A row of March 2024 for the region of Berlin, and one whose month
    cannot be read. *)
Definition march_row : dict :=
  list_to_map [("region_id", VStr "52.520_13.405");
               ("region_name", VStr "Berlin");
               ("acquisition_month", VStr "2024-03")].

Definition odd_row : dict :=
  list_to_map [("region_id", VStr "52.520_13.405");
               ("region_name", VStr "Berlin");
               ("acquisition_month", VStr "2024/03")].

(** A row of February 2024 for the region of Berlin, and a row of the
    same region id that another display name wrote. *)
Definition february_row : dict :=
  list_to_map [("region_id", VStr "52.520_13.405");
               ("region_name", VStr "Berlin");
               ("acquisition_month", VStr "2024-02")].

Definition stray_row : dict :=
  list_to_map [("region_id", VStr "52.520_13.405");
               ("region_name", VStr "Berlin Mitte");
               ("acquisition_month", VStr "2024-01")].

(** The record of April 2024 as a bootstrap run of 2024-06-15 writes it,
    and as a gap-fill run of that day writes it. *)
Definition april_bootstrap_row : dict :=
  update april_record
    [("region_id", VStr "52.520_13.405");
     ("region_name", VStr "Berlin");
     ("latitude", VFloat 52.52);
     ("longitude", VFloat 13.405);
     ("processing_date", VDate (mk_datetime 2024 6 15))].

Definition april_gap_fill_row : dict :=
  update april_record
    [("region_id", VStr "52.520_13.405");
     ("region_name", VStr "Berlin");
     ("latitude", VFloat 52.52);
     ("longitude", VFloat 13.405);
     ("processing_date", VDate (mk_datetime 2024 6 15));
     ("collection_type", VStr "gap_fill")].

(* ===================================================================== *)
(** ** Vocabulary of the further properties *)
(* ===================================================================== *)

(** The last day of the month of a date. *)
Definition last_of_month (d : datetime) : datetime :=
  mk_datetime (year d) (month d) (_days_in_month (year d) (month d)).

(** The whole calendar month of a date, as a window. *)
Definition whole_month (d : datetime) : datetime * datetime :=
  (first_of_month d, last_of_month d).

(** The months recorded for a region: the column [acquisition_month] of
    its rows, in the order of the table. *)
Definition region_months (tbl : table) (region_id : string) : list string :=
  omap (λ row : dict,
          match row !! "region_id", row !! "acquisition_month" with
          | Some (VStr r), Some (VStr m) =>
              if String.eqb r region_id then Some m else None
          | _, _ => None
          end) tbl.

(** A month string of the form 'YYYY-MM': it parses, and the month it
    parses to prints back as the same string, the year on four digits. *)
Definition canonical_month (s : string) : bool :=
  match strptime_Y_m s with
  | Ok d => String.eqb (strftime_Y_m true d) s
  | Raise _ => false
  end.

(** The month a month string stands for, as an index. *)
Definition month_key (s : string) : Z :=
  match strptime_Y_m s with
  | Ok d => month_index d
  | Raise _ => 0
  end.

(** The character of a decimal digit, and a number on four and on two
    digits. *)
Definition digit_char (d : Z) : ascii := ascii_of_nat (Z.to_nat (48 + d)).

Definition digits4 (y : Z) : string :=
  String (digit_char (y / 1000))
    (String (digit_char (y / 100 mod 10))
       (String (digit_char (y / 10 mod 10))
          (String (digit_char (y mod 10)) ""))).

Definition digits2 (m : Z) : string :=
  String (digit_char (m / 10)) (String (digit_char (m mod 10)) "").

(** The four ratings, from the worst to the best. *)
Definition quality_rank (rating : string) : Z :=
  if String.eqb rating "excellent" then 3
  else if String.eqb rating "good" then 2
  else if String.eqb rating "fair" then 1
  else 0.

(** The fields a gap-fill run adds to a record of the aggregation. *)
Definition gap_fill_tags (E : Env) (region_id display_name : string)
    (latitude longitude : float) : list (string * value) :=
  [("region_id", VStr region_id);
   ("region_name", VStr display_name);
   ("latitude", VFloat latitude);
   ("longitude", VFloat longitude);
   ("processing_date", VDate (now E));
   ("collection_type", VStr "gap_fill")].

(** The fields a bootstrap run adds. *)
Definition bootstrap_tags (E : Env) (region_id display_name : string)
    (latitude longitude : float) : list (string * value) :=
  [("region_id", VStr region_id);
   ("region_name", VStr display_name);
   ("latitude", VFloat latitude);
   ("longitude", VFloat longitude);
   ("processing_date", VDate (now E))].

(** The record of a window, when the aggregation of the window over the
    5 km square around the point yields one. *)
Definition window_record (E : Env) (latitude longitude : float)
    (w : datetime * datetime) : option dict :=
  match value_of (_get_monthly_averaged_data E (Point longitude latitude)
                    (Bounds (Buffer (Point longitude latitude) 5000))
                    w.1 w.2 3 tt) with
  | Ok o => o
  | Raise _ => None
  end.

(** An event that is a log record of level WARNING or ERROR. *)
Definition is_failure_log (ev : option event) : Prop :=
  match ev with Some (Log _ _ _) => True | _ => False end.

(** The table of Berlin with the months of March and April 2024. *)
Definition berlin_table : table := [march_row; april_gap_fill_row].

(** A record a run can append: the record of a window, with the fields
    of one of the two paths. *)
Definition run_record (E : Env) (name : string) (latitude longitude : float)
    (rec : dict) : Prop :=
  ∃ w md,
    window_record E latitude longitude w = Some md
    ∧ (rec = update md (gap_fill_tags E (region_id_of latitude longitude)
                          name latitude longitude)
       ∨ rec = update md (bootstrap_tags E (region_id_of latitude longitude)
                            name latitude longitude)).

(** The batch a gap-fill run has collected when it is done with these
    months: the record of every month whose window has one, with the
    fields of the run. *)
Definition gap_fill_batch (E : Env) (region_id display_name : string)
    (latitude longitude : float) (months : list string) : table :=
  omap (λ s, match gap_fill_window s with
             | Ok w =>
                 (λ md, update md (gap_fill_tags E region_id display_name
                                     latitude longitude))
                   <$> window_record E latitude longitude w
             | Raise _ => None
             end) months.

(** The batch a bootstrap run has collected when it is done with its six
    months. *)
Definition bootstrap_batch (E : Env) (region_id display_name : string)
    (latitude longitude : float) : table :=
  map (λ md, update md (bootstrap_tags E region_id display_name
                          latitude longitude))
    (omap (λ k, match bootstrap_window E k with
                | Ok w => window_record E latitude longitude w
                | Raise _ => None
                end) [0; 1; 2; 3; 4; 5]).

(** The batch of a collection run: what it hands to the load job when it
    gets that far. *)
Definition run_batch (E : Env) (name : string) (latitude longitude : float)
    (tbl : table) : table :=
  let region_id := region_id_of latitude longitude in
  match latest_recorded_month E tbl region_id with
  | None => bootstrap_batch E region_id name latitude longitude
  | Some latest =>
      match value_of (_get_missing_months E latest
                        (strftime_Ym E (now E)) tt) with
      | Ok months =>
          gap_fill_batch E region_id name latitude longitude months
      | Raise _ => []
      end
  end.

(** The world of April 2024 where the load job fails for a batch of one
    row and for no other. *)
Definition single_row_failure_env (today : datetime) : Env :=
  mk_Env today true 0 None
    (λ _ a _ _, if String.eqb a "2024-04-01" then Ok (Some april_images)
                else Ok (Some []))
    (λ image_id _, april_metric image_id)
    None
    (λ rows, if (length rows =? 1)%nat
             then Some (ServiceError "load job failed")
             else None)
    (λ _ _, None) ∅ rounded_pow.

(** A world where the table cannot be read, and one where Earth Engine
    cannot be initialised; Earth Engine has no image in either. *)
Definition unreadable_env (today : datetime) : Env :=
  mk_Env today true 0 None
    (λ _ _ _ _, Ok (Some []))
    (λ _ _, Ok None)
    (Some (ServiceError "no access")) (λ _, None) (λ _ _, None) ∅ rounded_pow.

Definition signed_out_env (today : datetime) : Env :=
  mk_Env today true 0 (Some (ServiceError "not signed in"))
    (λ _ _ _ _, Ok (Some []))
    (λ _ _, Ok None)
    None (λ _, None) (λ _ _, None) ∅ rounded_pow.

(** The metric of an image, when the reducer answers with a value. *)
Definition usable_metric (E : Env) (region : geometry) (img : img_info)
  : option float :=
  match ee_reduce_region E (img_id img) region with
  | Ok (Some v) => Some v
  | _ => None
  end.

(** The date of an image, when its timestamp is there and is a date. *)
Definition image_date (E : Env) (img : img_info) : option string :=
  match system_time_start img with
  | Some t =>
      match fromtimestamp E t with
      | Ok d => Some (strftime_Ymd E d)
      | Raise _ => None
      end
  | None => None
  end.

(** The images of a search that count: those with a usable metric; and
    among them those that are dated. *)
Definition counted_images (E : Env) (region : geometry)
    (imgs : list img_info) : list img_info :=
  List.filter (λ img, bool_decide (is_Some (usable_metric E region img))) imgs.

Definition dated_images (E : Env) (region : geometry)
    (imgs : list img_info) : list img_info :=
  List.filter (λ img, bool_decide (is_Some (image_date E img)))
    (counted_images E region imgs).

(** A world where every search finds one image, of metric 0.62 and of
    cloud cover 5. *)
Definition lone_env (today : datetime) : Env :=
  mk_Env today true 0 None
    (λ _ _ _ _,
       Ok (Some [mk_img_info "S2A_20240405" (Some 5%float)
                   (Some 1712313000000)]))
    (λ _ _, Ok (Some 0.62%float))
    None (λ _, None) (λ _ _, None) ∅ rounded_pow.

(** The record of April 2024 in that world. *)
Definition lone_record : dict :=
  list_to_map
    [("acquisition_month", VStr "2024-04");
     ("image_count", VInt 1);
     ("image_ids", VList ["S2A_20240405"]);
     ("image_dates", VList ["2024-04-05"]);
     ("ndvi_mean", VFloat 0.62);
     ("ndvi_std", VFloat 0);
     ("ndvi_min", VFloat 0.62);
     ("ndvi_max", VFloat 0.62);
     ("cloud_percentage", VFloat 5);
     ("sensor", VStr "Sentinel-2");
     ("data_quality", VStr "good")].

(** The month and the day of the day number [n] (from 0) of a year, as
    [_ord2ymd] finds them. *)
Definition month_day (leapyear : bool) (n : Z) : Z * Z :=
  let m := Z.shiftr (n + 50) 5 in
  let preceding :=
    default 0 (_DAYS_BEFORE_MONTH !! Z.to_nat m)
    + (if (2 <? m) && leapyear then 1 else 0) in
  if n <? preceding then
    let m := m - 1 in
    let preceding :=
      preceding - (default 0 (_DAYS_IN_MONTH !! Z.to_nat m)
                   + (if (m =? 2) && leapyear then 1 else 0)) in
    (m, n - preceding + 1)
  else (m, n - preceding + 1).

(** The date [n] days before a date. *)
Definition days_before (d : datetime) (n : Z) : datetime :=
  match _ord2ymd (_ymd2ord (year d) (month d) (day d) - n) with
  | (y, m, dd) => mk_datetime y m dd
  end.
(* ===================================================================== *)
(** ** [services/user_sessions.py] *)
(* ===================================================================== *)

(** A personal location, as [add_user_location] stores it. *)
Record personal_location := mk_personal_location {
  pl_user_name : string;
  pl_actual_location : string;
  pl_display_name : string;
  pl_lat : float;
  pl_lon : float;
  pl_is_city : bool;
  pl_added_date : string
}.

Module user_sessions.

(** The dict of a user: every key the program writes, each [None] as long
    as the dict does not have it.  ['personal_locations'] is a dict from
    the user's names to the locations; ['adding_location'] and
    ['removing_location'] belong to the handlers. *)
Record session := mk_session {
  mode : option string;
  sensor : option string;
  lat : option float;
  lon : option float;
  current_date : option string;
  personal_locations : option (gmap string personal_location);
  adding_location : option (gmap string string);
  removing_location : option bool;
  region_name : option string;
  region_id : option string;
  display_name : option string;
  is_city : option bool
}.

(** [user_sessions]: the dict of the dicts of the users. *)
Abbreviation sessions := (gmap Z session).

(** [{}] *)
Definition empty : session :=
  mk_session None None None None None None None None None None None None.

Definition has {A} (o : option A) : bool :=
  match o with Some _ => true | None => false end.

(** The truth value of a dict: whether it has a key. *)
Definition truthy (s : session) : bool :=
  has (mode s) || has (sensor s) || has (lat s) || has (lon s)
  || has (current_date s) || has (personal_locations s)
  || has (adding_location s) || has (removing_location s)
  || has (region_name s) || has (region_id s) || has (display_name s)
  || has (is_city s).

Definition set_sensor (v : string) (s : session) : session :=
  mk_session (mode s) (Some v) (lat s) (lon s) (current_date s)
    (personal_locations s) (adding_location s) (removing_location s)
    (region_name s) (region_id s) (display_name s) (is_city s).

Definition set_lat_lon (la lo : float) (s : session) : session :=
  mk_session (mode s) (sensor s) (Some la) (Some lo) (current_date s)
    (personal_locations s) (adding_location s) (removing_location s)
    (region_name s) (region_id s) (display_name s) (is_city s).

Definition set_current_date (v : string) (s : session) : session :=
  mk_session (mode s) (sensor s) (lat s) (lon s) (Some v)
    (personal_locations s) (adding_location s) (removing_location s)
    (region_name s) (region_id s) (display_name s) (is_city s).

Definition set_personal_locations (v : gmap string personal_location)
    (s : session) : session :=
  mk_session (mode s) (sensor s) (lat s) (lon s) (current_date s)
    (Some v) (adding_location s) (removing_location s)
    (region_name s) (region_id s) (display_name s) (is_city s).

Definition set_location (la lo : float) (name id display : string)
    (city : bool) (s : session) : session :=
  mk_session (mode s) (sensor s) (Some la) (Some lo) (current_date s)
    (personal_locations s) (adding_location s) (removing_location s)
    (Some name) (Some id) (Some display) (Some city).

Definition init_mode_session (user_id : Z) (mode : string)
  : eff sessions unit :=
  user_sessions ← get;
  put (<[user_id :=
           mk_session (Some mode) None None None None None None None None
             None None None]> user_sessions).

Definition init_user_session (user_id : Z) (sensor : string)
  : eff sessions unit :=
  user_sessions ← get;
  let user_sessions :=
    match user_sessions !! user_id with
    | None => <[user_id := empty]> user_sessions
    | Some _ => user_sessions
    end in
  put (<[user_id := set_sensor sensor (default empty (user_sessions !! user_id))]>
         user_sessions).

Definition update_user_session (user_id : Z) (lat lon : float)
    (sensor current_date : string) : eff sessions unit :=
  user_sessions ← get;
  let user_sessions :=
    match user_sessions !! user_id with
    | None => <[user_id := empty]> user_sessions
    | Some _ => user_sessions
    end in
  put (<[user_id :=
           set_current_date current_date
             (set_sensor sensor
                (set_lat_lon lat lon
                   (default empty (user_sessions !! user_id))))]>
         user_sessions).

Definition get_user_session (user_id : Z) : eff sessions (option session) :=
  user_sessions ← get;
  ret (user_sessions !! user_id).

(** The session the function gets is the dict of the store: what it
    writes to it, it writes to the store. *)
Definition check_and_update_session (user_id : Z) (lat lon : float)
  : eff sessions (option string) :=
  session ← get_user_session user_id;
  match session with
  | Some session =>
      if truthy session then
        user_sessions ← get;
        _ ← put (<[user_id := set_lat_lon lat lon session]> user_sessions);
        match sensor session with
        | Some sensor => ret (Some sensor)
        | None => raise (KeyError "sensor")
        end
      else ret None
  | None => ret None
  end.

Definition init_timetravelling_location (user_id : Z) (lat lon : float)
  : eff sessions unit :=
  user_sessions ← get;
  match user_sessions !! user_id with
  | Some session =>
      if truthy session then
        put (<[user_id := set_lat_lon lat lon session]> user_sessions)
      else
        raise (ValueError ("Session not initialized for user_id "
                           +:+ str_int user_id))
  | None =>
      raise (ValueError ("Session not initialized for user_id "
                         +:+ str_int user_id))
  end.

End user_sessions.

(* ===================================================================== *)
(** ** [services/city_locator.py] *)
(* ===================================================================== *)

Module city_locator.

(** The answer of the reverse geocoder, as far as [get_location_info]
    reads it: the fields of ['address'] (strings, when they are there),
    and [float(data['lat'])], [float(data['lon'])] when the answer has
    these keys. *)
Record osm_answer := mk_osm_answer {
  city : option string;
  town : option string;
  village : option string;
  municipality : option string;
  county : option string;
  country : option string;
  osm_lat : option (result float);
  osm_lon : option (result float)
}.

(** The dict [get_location_info] returns. *)
Record location_info := mk_location_info {
  region_name : string;
  region_id : string;
  lat : float;
  lon : float;
  display_name : string;
  base_display : string;
  is_city : bool
}.

Definition city_centers : gmap string (float * float) :=
  list_to_map
    [("Berlin", (52.5200%float, 13.4050%float));
     ("Munich", (48.1351%float, 11.5820%float));
     ("Hamburg", (53.5511%float, 9.9937%float));
     ("Frankfurt", (50.1109%float, 8.6821%float));
     ("Cologne", (50.9375%float, 6.9603%float));
     ("Stuttgart", (48.7758%float, 9.1829%float));
     ("Düsseldorf", (51.2277%float, 6.7735%float))].

Definition _get_district_hint (lat lon : float) (city_name : string)
  : string :=
  match city_centers !! city_name with
  | None => "Area"
  | Some (center_lat, center_lon) =>
      let lat_diff := (lat - center_lat)%float in
      let lon_diff := (lon - center_lon)%float in
      if PrimFloat.ltb (PrimFloat.abs lat_diff) 0.01
         && PrimFloat.ltb (PrimFloat.abs lon_diff) 0.01
      then "Central"
      else if PrimFloat.ltb 0.02 lat_diff then
        "North" +:+ (if PrimFloat.ltb 0.02 lon_diff then "east"
                     else if PrimFloat.ltb lon_diff (- 0.02) then "west"
                     else "")
      else if PrimFloat.ltb lat_diff (- 0.02) then
        "South" +:+ (if PrimFloat.ltb 0.02 lon_diff then "east"
                     else if PrimFloat.ltb lon_diff (- 0.02) then "west"
                     else "")
      else if PrimFloat.ltb 0.02 lon_diff then "East"
      else if PrimFloat.ltb lon_diff (- 0.02) then "West"
      else "Central"
  end.

(** [a or b] of two values that are a string or None. *)
Definition or_else (a b : option string) : option string :=
  match a with
  | Some s => if String.eqb s "" then b else a
  | None => b
  end.

Section Locator.

(** [requests.get(url, params=...)], [raise_for_status()] and [json()] for
    a latitude and a longitude: the answer, or the exception. *)
Variable reverse : float → float → result osm_answer.

Definition get_location_info {S} (latitude longitude : float)
  : eff S location_info :=
  found ←
    try_except
      (data ← of_result (reverse latitude longitude);
       let city_name :=
         or_else (or_else (or_else (or_else (city data) (town data))
                             (village data))
                    (municipality data))
           (county data) in
       match city_name with
       | Some city_name =>
           if String.eqb city_name "" then ret None
           else
             let region_id :=
               format_f 3 latitude +:+ "_" +:+ format_f 3 longitude in
             let country := default "Unknown" (country data) in
             let base_display := city_name +:+ ", " +:+ country in
             let district_hint :=
               _get_district_hint latitude longitude city_name in
             let enhanced_display :=
               if negb (String.eqb district_hint "Area") then
                 city_name +:+ " (" +:+ district_hint +:+ "), " +:+ country
               else base_display in
             lat ← of_result (default (Ok latitude) (osm_lat data));
             lon ← of_result (default (Ok longitude) (osm_lon data));
             ret (Some (mk_location_info city_name region_id lat lon
                          enhanced_display base_display true))
       | None => ret None
       end)
      (λ e, _ ← logger_warning_exc "City lookup failed: " e; ret None);
  match found with
  | Some location_info => ret location_info
  | None =>
      let coord_name :=
        format_f 4 latitude +:+ ", " +:+ format_f 4 longitude in
      let region_id :=
        format_f 3 latitude +:+ "_" +:+ format_f 3 longitude in
      ret (mk_location_info coord_name region_id latitude longitude
             ("Location " +:+ coord_name) coord_name false)
  end.

(** [session = get_user_session(user_id) or {}] is the dict of the store
    or a new one; it is put into the store at the end. *)
Definition update_user_location (user_id : Z) (latitude longitude : float)
  : eff user_sessions.sessions location_info :=
  location_info ← get_location_info latitude longitude;
  session ← user_sessions.get_user_session user_id;
  let session :=
    match session with
    | Some session =>
        if user_sessions.truthy session then session
        else user_sessions.empty
    | None => user_sessions.empty
    end in
  let session :=
    user_sessions.set_location (lat location_info) (lon location_info)
      (region_name location_info) (region_id location_info)
      (display_name location_info) (is_city location_info) session in
  user_sessions ← get;
  _ ← put (<[user_id := session]> user_sessions);
  ret location_info.

End Locator.

End city_locator.

(* ===================================================================== *)
(** ** [services/user_personalization.py] *)
(* ===================================================================== *)

Module user_personalization.

Import user_sessions.

Section UserPersonalization.

Variable E : Env.
Variable reverse : float → float → result city_locator.osm_answer.

(** [str(datetime.now().date())]: the ISO format, the year on four
    digits. *)
Definition today_str : string := strftime_Y_m_d true (now E).

Definition add_user_location (user_id : Z) (location_name : string)
    (latitude longitude : float) : eff sessions bool :=
  try_except
    (location_info ← city_locator.get_location_info reverse latitude longitude;
     user_sessions ← get;
     let user_sessions :=
       match user_sessions !! user_id with
       | None => <[user_id := empty]> user_sessions
       | Some _ => user_sessions
       end in
     let session := default empty (user_sessions !! user_id) in
     let session :=
       match personal_locations session with
       | None => set_personal_locations ∅ session
       | Some _ => session
       end in
     let locations := default ∅ (personal_locations session) in
     _ ← put (<[user_id :=
                  set_personal_locations
                    (<[location_name :=
                         mk_personal_location location_name
                           (city_locator.region_name location_info)
                           (city_locator.display_name location_info)
                           (city_locator.lat location_info)
                           (city_locator.lon location_info)
                           (city_locator.is_city location_info)
                           today_str]> locations)
                    session]> user_sessions);
     ret true)
    (λ e, _ ← logger_error
                ("Failed to add location for user " +:+ str_int user_id
                 +:+ ": ") e;
          ret false).

Definition get_user_locations (user_id : Z)
  : eff sessions (gmap string personal_location) :=
  user_sessions ← get;
  let session := default empty (user_sessions !! user_id) in
  ret (default ∅ (personal_locations session)).

Definition remove_user_location (user_id : Z) (location_name : string)
  : eff sessions bool :=
  try_except
    (user_sessions ← get;
     match user_sessions !! user_id with
     | Some session =>
         match personal_locations session with
         | Some locations =>
             match locations !! location_name with
             | Some _ =>
                 _ ← put (<[user_id :=
                              set_personal_locations
                                (delete location_name locations) session]>
                            user_sessions);
                 ret true
             | None => ret false
             end
         | None => ret false
         end
     | None => ret false
     end)
    (λ e, _ ← logger_error "Failed to remove location: " e; ret false).

(** [locations] is the dict of the store when the session has one; the
    two writes go to the store. *)
Definition rename_user_location (user_id : Z) (old_name new_name : string)
  : eff sessions bool :=
  try_except
    (locations ← get_user_locations user_id;
     match locations !! old_name with
     | Some location_data =>
         let location_data :=
           mk_personal_location new_name
             (pl_actual_location location_data)
             (pl_display_name location_data)
             (pl_lat location_data) (pl_lon location_data)
             (pl_is_city location_data) (pl_added_date location_data) in
         user_sessions ← get;
         session ← match user_sessions !! user_id with
                   | Some session => ret session
                   | None => raise (KeyError (str_int user_id))
                   end;
         stored ← match personal_locations session with
                  | Some stored => ret stored
                  | None => raise (KeyError "personal_locations")
                  end;
         _ ← put (<[user_id :=
                      set_personal_locations
                        (delete old_name
                           (<[new_name := location_data]> stored))
                        session]> user_sessions);
         ret true
     | None => ret false
     end)
    (λ e, _ ← logger_error "Failed to rename location: " e; ret false).

End UserPersonalization.

End user_personalization.

(** *** The sessions as the pipeline reads them *)

(** What the pipeline reads of a personal location. *)
Definition location_view (pl : personal_location) : location_data :=
  mk_location_data (pl_actual_location pl) (pl_lat pl) (pl_lon pl).

(** The store of the sessions, as the environment of the pipeline has
    it. *)
Definition sessions_view (st : user_sessions.sessions)
  : gmap Z (option (gmap string location_data)) :=
  fmap (M := gmap Z)
    (λ s : user_sessions.session,
       fmap (M := option) (fmap (M := gmap string) location_view)
         (user_sessions.personal_locations s))
    st.

(** The world [E] with the users' sessions [st]. *)
Definition with_sessions (E : Env) (st : user_sessions.sessions) : Env :=
  mk_Env (now E) (strftime_pads_year E) (utcoffset E) (ee_initialize E)
    (ee_get_info E) (ee_reduce_region E) (bq_query_error E)
    (bq_load_error E) (bq_metrics E) (sessions_view st) (libm_pow E).

(** The personal locations of a user in a store. *)
Definition locations_of (st : user_sessions.sessions) (user_id : Z)
  : gmap string personal_location :=
  default ∅ (user_sessions.personal_locations
               (default user_sessions.empty (st !! user_id))).

(** A geocoder that is out of reach, and one that knows Berlin. *)
Definition no_geocoder (latitude longitude : float)
  : result city_locator.osm_answer :=
  Raise (ServiceError "timeout").

Definition berlin_geocoder (latitude longitude : float)
  : result city_locator.osm_answer :=
  Ok (city_locator.mk_osm_answer (Some "Berlin") None None None None
        (Some "Deutschland") (Some (Ok 52.5170365%float))
        (Some (Ok 13.3888599%float))).

(* ===================================================================== *)
(** ** Proofs *)
(* ===================================================================== *)

Ltac run_eff :=
  unfold logger_error, logger_warning, logger_warning_exc, logger_error_plain;
  unfold try_except, mbind, eff_bind, bind, mret, eff_ret, ret, of_result,
    raise, get, put, emit, stateless, with_locals.

(** Equations between closed terms, decided by evaluation. *)
Ltac by_vm :=
  match goal with |- _ = ?b => vm_cast_no_check (@eq_refl _ b) end.

(* ===================================================================== *)
(** ** Months: the gap enumeration *)
(* ===================================================================== *)

Lemma new_datetime_Ok y m d dt :
  new_datetime y m d = Ok dt →
  dt = mk_datetime y m d ∧ 1 <= y <= 9999 ∧ 1 <= m <= 12 ∧ 1 <= d.
Proof.
  unfold new_datetime, MINYEAR, MAXYEAR.
  repeat case_match; try discriminate. intros [= <-].
  split; [reflexivity | lia].
Qed.

Lemma strptime_Y_m_Ok s d : strptime_Y_m s = Ok d → month_start d.
Proof.
  unfold strptime_Y_m. intros H.
  repeat case_match; try discriminate.
  apply new_datetime_Ok in H. destruct H as (-> & ? & ? & ?). 
  unfold month_start. simpl. lia.
Qed.

Lemma loop_unfold E cur chk acc :
  missing_months_loop E cur chk acc =
  if datetime_ltb chk cur then
    match next_month chk with
    | Raise e => Raise e
    | Ok d => missing_months_loop E cur d (acc ++ [strftime_Ym E d])
    end
  else Ok acc.
Proof.
  funelim (missing_months_loop E cur chk acc).
  - rewrite e. reflexivity.
  - rewrite Hlt, Hnext. reflexivity.
  - rewrite Hlt, e1. reflexivity.
Qed.

Lemma month_of_index_index d :
  month_start d → month_of_index (month_index d) = d.
Proof.
  destruct d as [y m dd].
  unfold month_start, month_of_index, month_index. simpl.
  intros (? & ? & ->). f_equal.
  - replace (12 * y + m - 1) with (m - 1 + y * 12) by lia.
    rewrite Z.div_add by lia. rewrite Z.div_small; lia.
  - replace (12 * y + m - 1) with (m - 1 + y * 12) by lia.
    rewrite Z.mod_add by lia. rewrite Z.mod_small; lia.
Qed.

Lemma month_index_of_index i : month_index (month_of_index i) = i.
Proof.
  unfold month_of_index, month_index. simpl.
  pose proof (Z.div_mod i 12 ltac:(lia)). lia.
Qed.

Lemma days_in_month_pos y m : 1 <= m <= 12 → 28 <= _days_in_month y m.
Proof.
  intros Hm. unfold _days_in_month.
  destruct ((m =? 2) && _is_leap y); [lia|].
  assert (m = 1 ∨ m = 2 ∨ m = 3 ∨ m = 4 ∨ m = 5 ∨ m = 6 ∨ m = 7 ∨ m = 8
          ∨ m = 9 ∨ m = 10 ∨ m = 11 ∨ m = 12) as Hc by lia.
  repeat destruct Hc as [-> | Hc]; try subst m; simpl; lia.
Qed.

Lemma new_datetime_month_start i :
  12 <= i <= 12 * 9999 + 11 →
  new_datetime (i / 12) (i mod 12 + 1) 1 = Ok (month_of_index i).
Proof.
  intros Hi. unfold new_datetime, MINYEAR, MAXYEAR.
  pose proof (Z.div_mod i 12 ltac:(lia)).
  pose proof (Z.mod_pos_bound i 12 ltac:(lia)).
  assert (1 <= i / 12 <= 9999) by lia.
  pose proof (days_in_month_pos (i / 12) (i mod 12 + 1) ltac:(lia)).
  repeat (case_match; simpl in *); try reflexivity; exfalso;
    repeat match goal with
      | H : negb _ = true |- _ => apply negb_true_iff in H
      | H : _ && _ = false |- _ => apply andb_false_iff in H; destruct H
      end; lia.
Qed.

Lemma next_month_of_index i :
  12 <= i → i + 1 <= 12 * 9999 + 11 →
  next_month (month_of_index i) = Ok (month_of_index (i + 1)).
Proof.
  intros H1 H2. unfold next_month, replace. simpl.
  pose proof (Z.div_mod i 12 ltac:(lia)).
  pose proof (Z.mod_pos_bound i 12 ltac:(lia)).
  pose proof (Z.div_mod (i + 1) 12 ltac:(lia)).
  pose proof (Z.mod_pos_bound (i + 1) 12 ltac:(lia)).
  destruct (i mod 12 + 1 =? 12) eqn:Hm.
  - assert ((i + 1) / 12 = i / 12 + 1 ∧ (i + 1) mod 12 = 0)
      as [Hq Hr] by lia.
    pose proof (new_datetime_month_start (i + 1) ltac:(lia)) as Hn.
    rewrite Hq, Hr in Hn. exact Hn.
  - assert ((i + 1) / 12 = i / 12 ∧ (i + 1) mod 12 = i mod 12 + 1)
      as [Hq Hr] by lia.
    pose proof (new_datetime_month_start (i + 1) ltac:(lia)) as Hn.
    rewrite Hq, Hr in Hn. exact Hn.
Qed.

Lemma datetime_ltb_of_index i j :
  datetime_ltb (month_of_index i) (month_of_index j) = bool_decide (i < j).
Proof.
  unfold datetime_ltb, month_of_index. simpl.
  pose proof (Z.div_mod i 12 ltac:(lia)).
  pose proof (Z.mod_pos_bound i 12 ltac:(lia)).
  pose proof (Z.div_mod j 12 ltac:(lia)).
  pose proof (Z.mod_pos_bound j 12 ltac:(lia)).
  case_bool_decide.
  - destruct (i / 12 <? j / 12) eqn:?; [done|]. simpl.
    destruct (i / 12 =? j / 12) eqn:?; [|lia]. simpl.
    destruct (i mod 12 + 1 <? j mod 12 + 1) eqn:?; [done|]. lia.
  - destruct (i / 12 <? j / 12) eqn:?; [lia|]. simpl.
    destruct (i / 12 =? j / 12) eqn:?; [|done]. simpl.
    destruct (i mod 12 + 1 <? j mod 12 + 1) eqn:?; [lia|]. simpl.
    rewrite andb_false_r. done.
Qed.

Lemma loop_of_index E (n : nat) : ∀ i j acc,
  12 <= i → j <= 12 * 9999 + 11 → j = i + Z.of_nat n →
  missing_months_loop E (month_of_index j) (month_of_index i) acc
  = Ok (acc ++ map (λ k, strftime_Ym E (month_of_index k))
                 (seqZ (i + 1) (Z.of_nat n))).
Proof.
  induction n as [|n IH]; intros i j acc Hi Hj Hij;
    rewrite loop_unfold, datetime_ltb_of_index.
  - rewrite bool_decide_eq_false_2 by lia. simpl. by rewrite app_nil_r.
  - rewrite bool_decide_eq_true_2 by lia.
    rewrite next_month_of_index by lia.
    rewrite (IH (i + 1) j) by lia.
    f_equal. rewrite <- app_assoc. f_equal.
    rewrite (seqZ_cons (i + 1) (Z.of_nat (S n))) by lia. simpl.
    do 2 f_equal. f_equal; lia.
Qed.

Lemma datetime_eqb_of_index i j :
  datetime_eqb (month_of_index i) (month_of_index j) = bool_decide (i = j).
Proof.
  unfold datetime_eqb, month_of_index. simpl.
  pose proof (Z.div_mod i 12 ltac:(lia)).
  pose proof (Z.div_mod j 12 ltac:(lia)).
  case_bool_decide.
  - subst. rewrite !Z.eqb_refl. done.
  - destruct (i / 12 =? j / 12) eqn:?; [|done]. simpl.
    destruct (i mod 12 + 1 =? j mod 12 + 1) eqn:?; [|done]. lia.
Qed.

Lemma datetime_leb_of_index i j :
  datetime_leb (month_of_index i) (month_of_index j) = bool_decide (i <= j).
Proof.
  unfold datetime_leb. rewrite datetime_ltb_of_index, datetime_eqb_of_index.
  repeat case_bool_decide; simpl; try done; lia.
Qed.

Lemma month_index_range d :
  month_start d → 12 <= month_index d <= 12 * 9999 + 11.
Proof. unfold month_start, month_index. lia. Qed.

Lemma month_successor_index d :
  month_start d → month_of_index (month_index d + 1) = month_successor d.
Proof.
  destruct d as [y m dd].
  unfold month_start, month_of_index, month_index, month_successor.
  simpl. intros (? & ? & ->).
  pose proof (Z.div_mod (12 * y + m - 1 + 1) 12 ltac:(lia)).
  pose proof (Z.mod_pos_bound (12 * y + m - 1 + 1) 12 ltac:(lia)).
  destruct (m =? 12) eqn:?; f_equal; lia.
Qed.

(** C6: for month strings that parse to the months [l] and [c] with [c]
    equal to or before [l], the gap enumeration returns the empty
    sequence (and logs nothing). *)
Theorem get_missing_months_no_gap E latest current l c :
  strptime_Y_m latest = Ok l → strptime_Y_m current = Ok c →
  datetime_leb c l = true →
  _get_missing_months E latest current tt = (Ok [], tt, []).
Proof.
  intros Hl Hc Hle. unfold _get_missing_months. run_eff.
  rewrite Hl, Hc, Hle. reflexivity.
Qed.

Lemma get_missing_months_no_gap_witness :
  strptime_Y_m "2024-06" = Ok (mk_datetime 2024 6 1)
  ∧ strptime_Y_m "2024-03" = Ok (mk_datetime 2024 3 1)
  ∧ _get_missing_months (quiet_env (mk_datetime 2024 3 20))
      "2024-06" "2024-03" tt = (Ok [], tt, []).
Proof.
  split; [reflexivity|]. split; [reflexivity|].
  apply (get_missing_months_no_gap (quiet_env (mk_datetime 2024 3 20))
           "2024-06" "2024-03" (mk_datetime 2024 6 1) (mk_datetime 2024 3 1));
    reflexivity.
Defined.

(** C1: for month strings that parse to the months [l] and [c] with [c]
    strictly after [l], the gap enumeration returns the month strings of
    [ks], the months of the indices from the one after [l] to the one of
    [c]: as many as there are months from [l] (excluded) to [c]
    (included), the first the successor of [l], the last [c], strictly
    increasing. *)
Theorem get_missing_months_gap E latest current l c :
  strptime_Y_m latest = Ok l → strptime_Y_m current = Ok c →
  datetime_ltb l c = true →
  let n := month_index c - month_index l in
  let ks := map month_of_index (seqZ (month_index l + 1) n) in
  _get_missing_months E latest current tt
    = (Ok (map (strftime_Ym E) ks), tt, [])
  ∧ 0 < n
  ∧ Z.of_nat (length ks) = n
  ∧ head ks = Some (month_successor l)
  ∧ last ks = Some c
  ∧ (∀ (i j : nat) a b, (i < j)%nat → ks !! i = Some a → ks !! j = Some b →
       datetime_ltb a b = true).
Proof.
  intros Hl Hc Hlt n ks.
  pose proof (strptime_Y_m_Ok _ _ Hl) as Vl.
  pose proof (strptime_Y_m_Ok _ _ Hc) as Vc.
  pose proof (month_index_range _ Vl). pose proof (month_index_range _ Vc).
  assert (0 < n) as Hn.
  { rewrite <- (month_of_index_index l Vl), <- (month_of_index_index c Vc) in Hlt.
    rewrite datetime_ltb_of_index in Hlt. apply bool_decide_eq_true in Hlt.
    unfold n. lia. }
  repeat split.
  - unfold _get_missing_months. run_eff. rewrite Hl, Hc.
    replace (datetime_leb c l) with false.
    2:{ rewrite <- (month_of_index_index l Vl), <- (month_of_index_index c Vc).
        rewrite datetime_leb_of_index. symmetry. apply bool_decide_eq_false. unfold n in Hn. lia. }
    rewrite <- (month_of_index_index l Vl) at 1.
    rewrite <- (month_of_index_index c Vc) at 1.
    rewrite (loop_of_index E (Z.to_nat n)) by (unfold n in *; lia).
    simpl. unfold ks. rewrite map_map. rewrite Z2Nat.id by lia. reflexivity.
  - exact Hn.
  - unfold ks. rewrite length_map, length_seqZ. lia.
  - unfold ks. rewrite seqZ_cons by lia. simpl. f_equal. by apply month_successor_index.
  - rewrite last_lookup. unfold ks. rewrite length_map, length_seqZ.
    rewrite list_lookup_fmap.
    rewrite (proj2 (lookup_seqZ _ _ _ (month_index c))).
    + simpl. f_equal. by apply month_of_index_index.
    + unfold n. lia.
  - intros i j a b Hij Ha Hb. unfold ks in Ha, Hb.
    rewrite list_lookup_fmap in Ha, Hb.
    destruct (seqZ _ _ !! i) as [x|] eqn:Hx; [|done].
    destruct (seqZ _ _ !! j) as [y|] eqn:Hy; [|done].
    apply lookup_seqZ in Hx, Hy. simpl in Ha, Hb.
    injection Ha as <-. injection Hb as <-.
    rewrite datetime_ltb_of_index. apply bool_decide_eq_true. lia.
Qed.

Lemma get_missing_months_gap_witness :
  strptime_Y_m "2023-11" = Ok (mk_datetime 2023 11 1)
  ∧ strptime_Y_m "2024-02" = Ok (mk_datetime 2024 2 1)
  ∧ _get_missing_months (quiet_env (mk_datetime 2024 2 10))
      "2023-11" "2024-02" tt
    = (Ok ["2023-12"; "2024-01"; "2024-02"], tt, []).
Proof.
  split; [reflexivity|]. split; [reflexivity|].
  exact (proj1 (get_missing_months_gap (quiet_env (mk_datetime 2024 2 10))
                  "2023-11" "2024-02"
                  (mk_datetime 2023 11 1) (mk_datetime 2024 2 1)
                  eq_refl eq_refl eq_refl)).
Defined.

(* ===================================================================== *)
(** ** Loops in the effect monad *)
(* ===================================================================== *)

Lemma for_each_cons {S A} (x : A) xs (body : A → eff S unit) s :
  for_each (x :: xs) body s =
  match body x s with
  | (Ok _, s1, ev1) =>
      match for_each xs body s1 with
      | (r, s2, ev2) => (r, s2, ev1 ++ ev2)
      end
  | (Raise e, s1, ev1) => (Raise e, s1, ev1)
  end.
Proof. reflexivity. Qed.

(** An invariant of the state that every turn keeps holds after the loop,
    however the loop ends. *)
Lemma for_each_invariant {S A} (P : S → Prop) xs (body : A → eff S unit) s :
  P s →
  (∀ x s, x ∈ xs → P s → P (state_of (body x s))) →
  P (state_of (for_each xs body s)).
Proof.
  revert s. induction xs as [|x xs IH]; intros s Hs Hbody; [exact Hs|].
  rewrite for_each_cons.
  pose proof (Hbody x s ltac:(left) Hs) as H1.
  destruct (body x s) as [[[[]|e] s1] ev1]; simpl in H1; [|exact H1].
  assert (P (state_of (for_each xs body s1))) as H2.
  { apply IH; [exact H1|]. intros y s' Hy. apply Hbody. by right. }
  destruct (for_each xs body s1) as [[r s2] ev2]. exact H2.
Qed.

(** A loop whose turns never raise does not raise. *)
Lemma for_each_no_raise {S A} xs (body : A → eff S unit) s :
  (∀ x s, value_of (body x s) = Ok tt) →
  value_of (for_each xs body s) = Ok tt.
Proof.
  intros Hbody. revert s. induction xs as [|x xs IH]; intros s; [reflexivity|].
  rewrite for_each_cons. specialize (Hbody x s).
  destruct (body x s) as [[[[]|e] s1] ev1]; simpl in Hbody; [|discriminate].
  specialize (IH s1). destruct (for_each xs body s1) as [[r s2] ev2]. exact IH.
Qed.

(** Events that every turn keeps out stay out. *)
Lemma for_each_events {S A} (P : event → Prop) xs (body : A → eff S unit) s :
  (∀ x s, Forall P (events_of (body x s))) →
  Forall P (events_of (for_each xs body s)).
Proof.
  intros Hbody. revert s. induction xs as [|x xs IH]; intros s; [constructor|].
  rewrite for_each_cons. specialize (Hbody x s).
  destruct (body x s) as [[[[]|e] s1] ev1]; simpl in Hbody; [|exact Hbody].
  specialize (IH s1). destruct (for_each xs body s1) as [[r s2] ev2].
  simpl in *. by apply Forall_app.
Qed.

(* ===================================================================== *)
(** ** The monthly aggregation *)
(* ===================================================================== *)

Lemma process_image_no_raise E region ix l :
  value_of (process_image E region ix l) = Ok tt.
Proof.
  destruct ix as [i img]. unfold process_image. run_eff.
  destruct (ee_reduce_region E (img_id img) region) as [[v|]|e]; simpl; try reflexivity.
  destruct (system_time_start img) as [t|]; simpl; try reflexivity.
  destruct (fromtimestamp E t) as [d|e]; reflexivity.
Qed.

(** An image without a usable metric leaves the list of metrics alone. *)
Lemma process_image_unusable E region i img l :
  (∀ v, ee_reduce_region E (img_id img) region ≠ Ok (Some v)) →
  ndvi_values (state_of (process_image E region (i, img) l)) = ndvi_values l.
Proof.
  intros Hno. unfold process_image. run_eff.
  destruct (ee_reduce_region E (img_id img) region) as [[v|]|e]; simpl; try reflexivity.
  by destruct (Hno v).
Qed.

Lemma elem_of_enumerate {A} (l : list A) i k x :
  (k, x) ∈ enumerate i l → x ∈ l.
Proof.
  revert i. induction l as [|y l IH]; intros i; simpl.
  - by intros ?%elem_of_nil.
  - intros [[= -> ->]|H]%elem_of_cons; [left | right; eauto].
Qed.



(** What a record the aggregation returns is made of. *)
Lemma monthly_record_inv E point region a b n rec :
  value_of (_get_monthly_averaged_data E point region a b n tt) = Ok (Some rec) →
  ∃ imgs,
    ee_get_info E point (strftime_Ymd E a) (strftime_Ymd E b) n = Ok (Some imgs)
    ∧ let l := collected_samples E region imgs in
      let avg_ndvi := (py_sum (ndvi_values l) / len_f (ndvi_values l))%float in
      let avg_cloud_cover :=
        (py_sum (cloud_percentages l) / len_f (cloud_percentages l))%float in
      ∃ std_dev,
        ndvi_values l ≠ []
        ∧ (if (1 <? length (ndvi_values l))%nat then
             ∃ sq, squares_of_deviations (libm_pow E) avg_ndvi (ndvi_values l)
                   = Ok sq
                   ∧ pow_half (libm_pow E) (py_sum sq / len_f (ndvi_values l))
                     = Ok std_dev
           else std_dev = 0%float)
        ∧ rec = list_to_map
               [("acquisition_month", VStr (strftime_Ym E a));
                ("image_count", VInt (Z.of_nat (length (ndvi_values l))));
                ("image_ids", VList (image_ids l));
                ("image_dates", VList (image_dates l));
                ("ndvi_mean", VFloat (py_round avg_ndvi 4));
                ("ndvi_std", VFloat (py_round std_dev 4));
                ("ndvi_min", VFloat (py_round (py_min (ndvi_values l)) 4));
                ("ndvi_max", VFloat (py_round (py_max (ndvi_values l)) 4));
                ("cloud_percentage", VFloat (py_round avg_cloud_cover 1));
                ("sensor", VStr "Sentinel-2");
                ("data_quality",
                  VStr (_assess_monthly_data_quality
                          (Z.of_nat (length (ndvi_values l)))
                          avg_cloud_cover std_dev))].
Proof.
  unfold _get_monthly_averaged_data, value_of. run_eff.
  destruct (ee_get_info E point _ _ n) as [[imgs|]|e];
    cbn [default from_option id]; cbv beta iota;
    try (intros [=]; fail).
  destruct imgs as [|img imgs]; [intros [=]|].
  intros H. eexists; split; [reflexivity|]. unfold collected_samples.
  cbv beta iota zeta in H.
  pose proof (for_each_no_raise (enumerate 0 (img :: imgs)) (process_image E region)
                (mk_samples [] [] [] []) (process_image_no_raise E region)) as Hok.
  destruct (for_each (enumerate 0 (img :: imgs)) (process_image E region) _)
    as [[r l] ev]. unfold value_of in Hok. simpl in Hok. subst r.
  unfold state_of. cbn [fst snd]. cbv beta iota in H.
  destruct (ndvi_values l) as [|v vs] eqn:Hv; cbv beta iota in H;
    [cbn [fst snd] in H; discriminate|].
  destruct (1 <? length (v :: vs))%nat eqn:Hlen.
  - destruct (squares_of_deviations _ _ (v :: vs)) as [sq|e] eqn:Hsq;
      cbv beta iota in H; [|cbn [fst snd] in H; discriminate].
    destruct (pow_half _ _) as [std_dev|e] eqn:Hstd; cbv beta iota in H;
      [|cbn [fst snd] in H; discriminate].
    cbn [fst snd] in H. injection H as <-.
    eexists. split; [done|]. split; [|reflexivity]. eauto.
  - cbn [fst snd] in H. injection H as <-.
    eexists. split; [done|]. split; reflexivity.
Qed.


(** The aggregation of April 2024 in the world of the three images. *)
Lemma april_aggregation today load :
  value_of (_get_monthly_averaged_data (april_env today load) berlin
              berlin_region (mk_datetime 2024 4 1) (mk_datetime 2024 4 30)
              3 tt)
  = Ok (Some april_record).
Proof. by_vm. Qed.

Lemma try_except_value {S A} (m : eff S A) (h : exn → eff S A) s :
  value_of (try_except m h s) =
  match m s with
  | (Ok a, _, _) => Ok a
  | (Raise e, s1, _) => value_of (h e s1)
  end.
Proof.
  unfold try_except, value_of.
  destruct (m s) as [[[a|e] s1] ev1]; [reflexivity|].
  by destruct (h e s1) as [[r s2] ev2].
Qed.

Lemma monthly_aggregation_no_raise E point region a b n :
  ∃ o, value_of (_get_monthly_averaged_data E point region a b n tt) = Ok o.
Proof.
  unfold _get_monthly_averaged_data. rewrite try_except_value.
  match goal with |- context [match ?m tt with _ => _ end] =>
    destruct (m tt) as [[[o|e] s1] ev1] end; eauto.
Qed.

Lemma collected_samples_unusable E region imgs :
  (∀ img, img ∈ imgs → ∀ v, ee_reduce_region E (img_id img) region ≠ Ok (Some v)) →
  ndvi_values (collected_samples E region imgs) = [].
Proof.
  intros Hno. unfold collected_samples.
  apply (for_each_invariant (λ l, ndvi_values l = [])); [reflexivity|].
  intros [k img] l Hin Hl. rewrite process_image_unusable; [exact Hl|].
  apply Hno. by eapply elem_of_enumerate.
Qed.

(** C5: when no image of the search yields a usable metric (the search
    raises, has no features, or every image's metric raises or has no
    value) the monthly aggregation returns None; and every record it does
    return has an image_count of at least 1. *)
Theorem monthly_aggregation_needs_an_image E point region a b n :
  ((∀ imgs,
      ee_get_info E point (strftime_Ymd E a) (strftime_Ymd E b) n
        = Ok (Some imgs) →
      ∀ img, img ∈ imgs →
        ∀ v, ee_reduce_region E (img_id img) region ≠ Ok (Some v)) →
   value_of (_get_monthly_averaged_data E point region a b n tt) = Ok None)
  ∧ (∀ rec,
       value_of (_get_monthly_averaged_data E point region a b n tt)
         = Ok (Some rec) →
       ∃ k, rec !! "image_count" = Some (VInt k) ∧ 1 <= k).
Proof.
  split.
  - intros Hno.
    destruct (monthly_aggregation_no_raise E point region a b n) as [[rec|] Ho];
      [|exact Ho].
    exfalso. apply monthly_record_inv in Ho.
    destruct Ho as (imgs & Hinfo & std & Hne & _).
    apply Hne, collected_samples_unusable. eauto.
  - intros rec Ho. apply monthly_record_inv in Ho.
    destruct Ho as (imgs & Hinfo & std & Hne & _ & ->).
    eexists. split; [reflexivity|].
    destruct (ndvi_values _); [done|]. simpl. lia.
Qed.

Lemma monthly_aggregation_needs_an_image_witness :
  value_of (_get_monthly_averaged_data (barren_env (mk_datetime 2024 6 15))
              berlin berlin_region
              (mk_datetime 2024 4 1) (mk_datetime 2024 4 30) 3 tt)
  = Ok None
  ∧ ∃ k, april_record !! "image_count" = Some (VInt k) ∧ 1 <= k.
Proof.
  split.
  - apply (proj1 (monthly_aggregation_needs_an_image
                    (barren_env (mk_datetime 2024 6 15)) berlin berlin_region
                    (mk_datetime 2024 4 1) (mk_datetime 2024 4 30) 3)).
    intros imgs Himgs img Himg v Hv. simpl in Himgs.
    injection Himgs as <-.
    repeat (apply elem_of_cons in Himg; destruct Himg as [-> | Himg]);
      [vm_compute in Hv; discriminate ..|].
    by apply elem_of_nil in Himg.
  - apply (proj2 (monthly_aggregation_needs_an_image
                    (april_env (mk_datetime 2024 6 15) None)
                    berlin berlin_region
                    (mk_datetime 2024 4 1) (mk_datetime 2024 4 30) 3)
             april_record).
    apply april_aggregation.
Defined.

(* ===================================================================== *)
(** ** The quality rating *)
(* ===================================================================== *)


(** *** What an accurate [pow] can answer *)












(* ===================================================================== *)
(** ** Storage *)
(* ===================================================================== *)

Lemma get_latest_data_month_run E region_id tbl :
  _get_latest_data_month E region_id tbl =
  match bq_query_error E with
  | None => (Ok (max_acquisition_month tbl region_id), tbl, [])
  | Some e =>
      (Ok None, tbl,
       [Log ERROR ("Failed to get latest month for region "
                   +:+ region_id +:+ ": ") (Some e)])
  end.
Proof.
  unfold _get_latest_data_month, bq_query. run_eff.
  by destruct (bq_query_error E).
Qed.

Lemma upload_to_bigquery_run E rows tbl :
  _upload_to_bigquery E rows tbl =
  match bq_load_error E rows with
  | None => (Ok true, tbl ++ rows, [])
  | Some e => (Ok false, tbl, [Log ERROR "BigQuery upload failed: " (Some e)])
  end.
Proof.
  unfold _upload_to_bigquery. run_eff. by destruct (bq_load_error E rows).
Qed.

Lemma update_lookup_new (d : dict) new k v :
  (list_to_map new : dict) !! k = Some v → update d new !! k = Some v.
Proof. intros H. unfold update. by apply lookup_union_Some_l. Qed.

Lemma update_lookup_old (d : dict) new k :
  (list_to_map new : dict) !! k = None → update d new !! k = d !! k.
Proof. intros H. unfold update. by apply lookup_union_r. Qed.

(** The records of the aggregation have no collection type. *)
Lemma monthly_record_untyped E point region a b n rec :
  value_of (_get_monthly_averaged_data E point region a b n tt) = Ok (Some rec) →
  rec !! "collection_type" = None.
Proof.
  intros Ho. apply monthly_record_inv in Ho.
  destruct Ho as (imgs & _ & std & _ & _ & ->). reflexivity.
Qed.

(* ===================================================================== *)
(** ** The two collection loops *)
(* ===================================================================== *)

Lemma tagged_update_gap_fill region_id display_name latitude longitude d md :
  tagged region_id display_name latitude longitude (Some (VStr "gap_fill"))
    (update md
       [("region_id", VStr region_id);
        ("region_name", VStr display_name);
        ("latitude", VFloat latitude);
        ("longitude", VFloat longitude);
        ("processing_date", VDate d);
        ("collection_type", VStr "gap_fill")]).
Proof. unfold tagged. split_and!; by apply update_lookup_new. Qed.

Lemma tagged_update_bootstrap region_id display_name latitude longitude d md :
  md !! "collection_type" = None →
  tagged region_id display_name latitude longitude None
    (update md
       [("region_id", VStr region_id);
        ("region_name", VStr display_name);
        ("latitude", VFloat latitude);
        ("longitude", VFloat longitude);
        ("processing_date", VDate d)]).
Proof.
  intros Hmd. unfold tagged. split_and!; try by apply update_lookup_new.
  by rewrite update_lookup_old.
Qed.

(** What a gap-fill run does: it never raises, it appends only records
    tagged as gap fill, and it returns false without appending when the
    load job fails or when no planned month has data. *)
Lemma fill_missing_months_run E region_id display_name latitude longitude
    months tbl :
  ∃ b new ev,
    _fill_missing_months E region_id display_name latitude longitude months tbl
      = (Ok b, tbl ++ new, ev)
    ∧ Forall (tagged region_id display_name latitude longitude
                (Some (VStr "gap_fill"))) new
    ∧ ((∀ rows, rows ≠ [] → bq_load_error E rows ≠ None) →
       b = false ∧ new = [])
    ∧ ((∀ s a b, s ∈ months → gap_fill_window s = Ok (a, b) →
          value_of (_get_monthly_averaged_data E (Point longitude latitude)
                      (Bounds (Buffer (Point longitude latitude) 5000))
                      a b 3 tt) = Ok None) →
       b = false ∧ new = []).
Proof.
  unfold _fill_missing_months.
  match goal with |- context [for_each months ?f] => set (body := f) end.
  assert (Forall (tagged region_id display_name latitude longitude
                    (Some (VStr "gap_fill")))
            (state_of (for_each months body []))) as Htag.
  { apply (for_each_invariant
             (Forall (tagged region_id display_name latitude longitude
                        (Some (VStr "gap_fill"))))); [constructor|].
    intros s l _ Hl. subst body. unfold state_of. run_eff. cbv beta.
    destruct (strptime_Y_m s) as [d|e]; [|exact Hl].
    destruct (replace d None None (Some 1)) as [first|e]; [|exact Hl].
    destruct (monthrange_ndays _ _) as [last_day|e]; [|exact Hl].
    destruct (replace d None None (Some last_day)) as [last|e]; [|exact Hl].
    destruct (_get_monthly_averaged_data _ _ _ _ _ _ _) as [[[[md|]|e] u] ev];
      cbn [fst snd]; try exact Hl.
    apply Forall_app. split; [exact Hl|]. constructor; [|constructor].
    apply tagged_update_gap_fill. }
  assert ((∀ s a b, s ∈ months → gap_fill_window s = Ok (a, b) →
             value_of (_get_monthly_averaged_data E (Point longitude latitude)
                         (Bounds (Buffer (Point longitude latitude) 5000))
                         a b 3 tt) = Ok None) →
          state_of (for_each months body []) = []) as Hnone.
  { intros Hno. apply (for_each_invariant (λ l, l = [])); [reflexivity|].
    intros s l Hin ->. specialize (Hno s). unfold gap_fill_window, month_window in Hno.
    subst body. unfold state_of. run_eff. cbv beta.
    destruct (strptime_Y_m s) as [d|e]; [|reflexivity].
    destruct (replace d None None (Some 1)) as [first|e]; [|reflexivity].
    destruct (monthrange_ndays _ _) as [last_day|e]; [|reflexivity].
    destruct (replace d None None (Some last_day)) as [last|e]; [|reflexivity].
    specialize (Hno first last Hin eq_refl). unfold value_of in Hno.
    destruct (_get_monthly_averaged_data _ _ _ _ _ _ _) as [[[[md|]|e] u] ev];
      cbn [fst snd] in *; try reflexivity. discriminate. }
  unfold ee_Initialize. run_eff.
  destruct (ee_initialize E) as [e|].
  { exists false, [], [Log ERROR "Failed to fill missing months: " (Some e)].
    rewrite (app_nil_r tbl). split; [reflexivity|]. split; [constructor|]. done. }
  destruct (for_each months body []) as [[[[]|e] l] ev] eqn:Hloop;
    unfold state_of in Htag, Hnone; cbn [fst snd] in Htag, Hnone.
  2:{ eexists false, [], _. rewrite (app_nil_r tbl). split; [reflexivity|].
      split; [constructor|]. done. }
  destruct l as [|r l].
  { eexists false, [], _. rewrite (app_nil_r tbl). split; [reflexivity|].
    split; [constructor|]. done. }
  rewrite upload_to_bigquery_run.
  destruct (bq_load_error E (r :: l)) as [e|] eqn:Hload.
  - eexists false, [], _. rewrite (app_nil_r tbl). split; [reflexivity|].
    split; [constructor|]. done.
  - eexists true, (r :: l), _. split; [reflexivity|]. split; [exact Htag|].
    split.
    + intros Hfail. by destruct (Hfail (r :: l)).
    + intros Hno. by specialize (Hnone Hno).
Qed.

(** What a bootstrap run does: it never raises, the records it appends
    carry the region but no collection type, and it returns false without
    appending when the load job fails or when no planned month has data. *)
Lemma collect_satellite_data_monthly_run E region_id display_name
    latitude longitude tbl :
  ∃ b new ev,
    collect_satellite_data_monthly E region_id display_name
      latitude longitude tbl = (Ok b, tbl ++ new, ev)
    ∧ Forall (tagged region_id display_name latitude longitude None) new
    ∧ ((∀ rows, rows ≠ [] → bq_load_error E rows ≠ None) →
       b = false ∧ new = [])
    ∧ ((∀ k a b, k ∈ [0; 1; 2; 3; 4; 5] → bootstrap_window E k = Ok (a, b) →
          value_of (_get_monthly_averaged_data E (Point longitude latitude)
                      (Bounds (Buffer (Point longitude latitude) 5000))
                      a b 3 tt) = Ok None) →
       b = false ∧ new = []).
Proof.
  unfold collect_satellite_data_monthly.
  match goal with |- context [for_each ?ks ?f] => set (body := f) end.
  assert (Forall (λ md : dict, md !! "collection_type" = None)
            (state_of (for_each [0; 1; 2; 3; 4; 5] body []))) as Htag.
  { apply (for_each_invariant
             (Forall (λ md : dict, md !! "collection_type" = None)));
      [constructor|].
    intros k l _ Hl. subst body. unfold state_of. run_eff. cbv beta.
    destruct (sub_days (now E) (30 * k)) as [d|e]; [|exact Hl].
    destruct (replace d None None (Some 1)) as [first|e]; [|exact Hl].
    destruct (monthrange_ndays _ _) as [last_day|e]; [|exact Hl].
    destruct (replace d None None (Some last_day)) as [last|e]; [|exact Hl].
    destruct (_get_monthly_averaged_data _ _ _ _ _ _ _) as [[[[md|]|e] u] ev]
      eqn:Hagg; cbn [fst snd]; try exact Hl.
    apply Forall_app. split; [exact Hl|]. constructor; [|constructor].
    eapply monthly_record_untyped. unfold value_of. rewrite Hagg. reflexivity. }
  assert ((∀ k a b, k ∈ [0; 1; 2; 3; 4; 5] → bootstrap_window E k = Ok (a, b) →
             value_of (_get_monthly_averaged_data E (Point longitude latitude)
                         (Bounds (Buffer (Point longitude latitude) 5000))
                         a b 3 tt) = Ok None) →
          state_of (for_each [0; 1; 2; 3; 4; 5] body []) = []) as Hnone.
  { intros Hno. apply (for_each_invariant (λ l, l = [])); [reflexivity|].
    intros k l Hin ->. specialize (Hno k).
    unfold bootstrap_window, month_window in Hno.
    subst body. unfold state_of. run_eff. cbv beta.
    destruct (sub_days (now E) (30 * k)) as [d|e]; [|reflexivity].
    destruct (replace d None None (Some 1)) as [first|e]; [|reflexivity].
    destruct (monthrange_ndays _ _) as [last_day|e]; [|reflexivity].
    destruct (replace d None None (Some last_day)) as [last|e]; [|reflexivity].
    specialize (Hno first last Hin eq_refl). unfold value_of in Hno.
    destruct (_get_monthly_averaged_data _ _ _ _ _ _ _) as [[[[md|]|e] u] ev];
      cbn [fst snd] in *; try reflexivity. discriminate. }
  unfold ee_Initialize. run_eff.
  destruct (ee_initialize E) as [e|].
  { eexists false, [], _. rewrite (app_nil_r tbl). split; [reflexivity|].
    split; [constructor|]. done. }
  destruct (for_each [0; 1; 2; 3; 4; 5] body []) as [[[[]|e] l] ev] eqn:Hloop;
    unfold state_of in Htag, Hnone; cbn [fst snd] in Htag, Hnone.
  2:{ eexists false, [], _. rewrite (app_nil_r tbl). split; [reflexivity|].
      split; [constructor|]. done. }
  destruct l as [|r l].
  { eexists false, [], _. rewrite (app_nil_r tbl). split; [reflexivity|].
    split; [constructor|]. done. }
  rewrite upload_to_bigquery_run.
  match goal with |- context [bq_load_error E ?rows] =>
    destruct (bq_load_error E rows) as [e|] eqn:Hload end.
  - eexists false, [], _. rewrite (app_nil_r tbl). split; [reflexivity|].
    split; [constructor|]. done.
  - eexists true, _, _. split; [reflexivity|]. split.
    + apply Forall_fmap. eapply Forall_impl; [exact Htag|].
      intros md Hmd. by apply tagged_update_bootstrap.
    + split.
      * intros Hfail. exfalso. eapply Hfail; [|exact Hload]. done.
      * intros Hno. by specialize (Hnone Hno).
Qed.

(* ===================================================================== *)
(** ** The collection run *)
(* ===================================================================== *)

(** The gap enumeration never raises, and it sends nothing to Earth
    Engine. *)
Lemma get_missing_months_total E latest current :
  ∃ months ev,
    _get_missing_months E latest current tt = (Ok months, tt, ev)
    ∧ Forall is_log ev.
Proof.
  unfold _get_missing_months. run_eff.
  destruct (strptime_Y_m latest) as [l|e].
  2:{ eexists _, _. split; [reflexivity|]. by repeat constructor. }
  destruct (strptime_Y_m current) as [c|e].
  2:{ eexists _, _. split; [reflexivity|]. by repeat constructor. }
  destruct (datetime_leb c l).
  { eexists _, _. split; [reflexivity|]. constructor. }
  destruct (missing_months_loop E c l []) as [months|e].
  - eexists _, _. split; [reflexivity|]. constructor.
  - eexists _, _. split; [reflexivity|]. by repeat constructor.
Qed.

(** What a collection run does, on either path. *)
Lemma collect_satellite_data_run E name latitude longitude tbl :
  let region_id := region_id_of latitude longitude in
  let point := Point longitude latitude in
  let region := Bounds (Buffer point 5000) in
  ∃ b new ev,
    collect_satellite_data E name latitude longitude tbl
      = (Ok b, tbl ++ new, ev)
    ∧ Forall (tagged region_id name latitude longitude
                (match latest_recorded_month E tbl region_id with
                 | None => None
                 | Some _ => Some (VStr "gap_fill")
                 end)) new
    ∧ (planned_windows E tbl region_id ≠ [] →
       (∀ rows, rows ≠ [] → bq_load_error E rows ≠ None) →
       b = false ∧ new = [])
    ∧ (planned_windows E tbl region_id ≠ [] →
       (∀ a b, Ok (a, b) ∈ planned_windows E tbl region_id →
          value_of (_get_monthly_averaged_data E point region a b 3 tt)
            = Ok None) →
       b = false ∧ new = []).
Proof.
  intros region_id point region.
  unfold collect_satellite_data, collect_with_gap_filling.
  fold (region_id_of latitude longitude). fold region_id.
  unfold planned_windows, latest_recorded_month. run_eff.
  rewrite get_latest_data_month_run.
  assert (∃ b new ev,
            collect_satellite_data_monthly E region_id name latitude longitude tbl
              = (Ok b, tbl ++ new, ev)
            ∧ Forall (tagged region_id name latitude longitude None) new
            ∧ ((∀ rows, rows ≠ [] → bq_load_error E rows ≠ None) →
               b = false ∧ new = [])
            ∧ ((∀ a b,
                  Ok (a, b) ∈ map (bootstrap_window E) [0; 1; 2; 3; 4; 5] →
                  value_of (_get_monthly_averaged_data E point region a b 3 tt)
                    = Ok None) →
               b = false ∧ new = [])) as Hboot.
  { destruct (collect_satellite_data_monthly_run E region_id name
                latitude longitude tbl) as (b & new & ev & Hrun & Ht & Hl & Hn).
    exists b, new, ev. split_and!; try done.
    intros Hno. apply Hn. intros k x y Hk Hw. apply Hno.
    rewrite <- Hw. apply list_elem_of_fmap. by exists k. }
  destruct (bq_query_error E) as [e|]; cbn [value_of fst snd].
  { destruct Hboot as (b & new & ev & -> & Ht & Hl & Hn).
    eexists b, new, _. split; [reflexivity|]. split; [exact Ht|]. eauto. }
  destruct (max_acquisition_month tbl region_id) as [latest|].
  2:{ destruct Hboot as (b & new & ev & -> & Ht & Hl & Hn).
      eexists b, new, _. split; [reflexivity|]. split; [exact Ht|]. eauto. }
  clear Hboot.
  destruct (get_missing_months_total E latest (strftime_Ym E (now E)))
    as (months & ev1 & -> & _). cbn [value_of fst snd].
  destruct months as [|m months].
  { eexists true, [], _. rewrite (app_nil_r tbl). split; [reflexivity|].
    split; [constructor|]. split; intros Hp; by destruct Hp. }
  destruct (fill_missing_months_run E region_id name latitude longitude
              (m :: months) tbl) as (b & new & ev & -> & Ht & Hl & Hn).
  eexists b, new, _. split; [reflexivity|]. split; [exact Ht|].
  split; [eauto|]. intros _ Hno. apply Hn. intros s x y Hs Hw. apply Hno.
  rewrite <- Hw. apply list_elem_of_fmap. by exists s.
Qed.

Lemma roundtrips_all :
  forallb (λ y, forallb (λ m, roundtrips true y m && roundtrips false y m)
                  (seqZ 1 12))
    (seqZ 1000 9000) = true.
Proof. vm_compute. reflexivity. Qed.

Lemma datetime_eqb_eq a b : datetime_eqb a b = true → a = b.
Proof.
  destruct a, b. unfold datetime_eqb. simpl. intros H.
  f_equal; lia.
Qed.

(** From the year 1000 on, the month string of a date parses back to the
    first day of its month, whatever the platform's [%Y]. *)
Lemma strptime_strftime E d :
  wall_clock d → strptime_Y_m (strftime_Ym E d) = Ok (first_of_month d).
Proof.
  intros [Hy Hm]. pose proof roundtrips_all as H.
  rewrite forallb_forall in H. specialize (H (year d)).
  rewrite <- list_elem_of_In, elem_of_seqZ in H. specialize (H ltac:(lia)).
  rewrite forallb_forall in H. specialize (H (month d)).
  rewrite <- list_elem_of_In, elem_of_seqZ in H. specialize (H ltac:(lia)).
  apply andb_true_iff in H. destruct H as [Ht Hf].
  unfold strftime_Ym, first_of_month.
  replace (strftime_Y_m (strftime_pads_year E) d)
    with (strftime_Y_m (strftime_pads_year E)
            (mk_datetime (year d) (month d) 1)) by reflexivity.
  unfold roundtrips in Ht, Hf.
  destruct (strftime_pads_year E).
  - clear Hf. destruct (strptime_Y_m _) as [x|]; [|discriminate].
    f_equal. by apply datetime_eqb_eq.
  - clear Ht. destruct (strptime_Y_m _) as [x|]; [|discriminate].
    f_equal. by apply datetime_eqb_eq.
Qed.

Lemma latest_recorded_month_Some E tbl region_id latest :
  latest_recorded_month E tbl region_id = Some latest →
  _get_latest_data_month E region_id tbl = (Ok (Some latest), tbl, []).
Proof.
  unfold latest_recorded_month. rewrite get_latest_data_month_run.
  destruct (bq_query_error E); cbn [value_of fst snd]; [discriminate|].
  by intros ->.
Qed.

(** C8: when the latest recorded month of the region is the current month
    or a later one, the run returns true, leaves the table as it is, sends
    nothing to Earth Engine and logs nothing; so does the run after it. *)
Theorem up_to_date_run_is_a_no_op E name latitude longitude tbl latest l :
  wall_clock (now E) →
  latest_recorded_month E tbl (region_id_of latitude longitude) = Some latest →
  strptime_Y_m latest = Ok l →
  datetime_leb (first_of_month (now E)) l = true →
  collect_satellite_data E name latitude longitude tbl = (Ok true, tbl, [])
  ∧ collect_satellite_data E name latitude longitude
      (state_of (collect_satellite_data E name latitude longitude tbl))
    = (Ok true, tbl, []).
Proof.
  intros Hclock Hlatest Hl Hle.
  assert (collect_satellite_data E name latitude longitude tbl
          = (Ok true, tbl, [])) as Hrun.
  { unfold collect_satellite_data, collect_with_gap_filling.
    fold (region_id_of latitude longitude). run_eff.
    rewrite (latest_recorded_month_Some _ _ _ _ Hlatest).
    unfold _get_missing_months. run_eff.
    rewrite Hl, (strptime_strftime E (now E) Hclock), Hle. reflexivity. }
  split; [exact Hrun|]. rewrite Hrun. exact Hrun.
Qed.

Lemma up_to_date_run_is_a_no_op_witness :
  wall_clock (mk_datetime 2024 3 20)
  ∧ strptime_Y_m "2024-03" = Ok (mk_datetime 2024 3 1)
  ∧ collect_satellite_data (quiet_env (mk_datetime 2024 3 20))
      "Berlin" 52.52 13.405 [march_row] = (Ok true, [march_row], []).
Proof.
  split; [unfold wall_clock; simpl; lia|]. split; [reflexivity|].
  apply (up_to_date_run_is_a_no_op (quiet_env (mk_datetime 2024 3 20))
           "Berlin" 52.52 13.405 [march_row] "2024-03"
           (mk_datetime 2024 3 1)).
  - unfold wall_clock. simpl. lia.
  - vm_compute. reflexivity.
  - reflexivity.
  - reflexivity.
Defined.

(** C10: when the latest month read from the table does not parse, the
    gap enumeration logs the error and returns the empty list, and the
    run returns true without a search and without a write. *)
Theorem unreadable_latest_month_counts_as_up_to_date
    E name latitude longitude tbl latest e :
  latest_recorded_month E tbl (region_id_of latitude longitude) = Some latest →
  strptime_Y_m latest = Raise e →
  _get_missing_months E latest (strftime_Ym E (now E)) tt
    = (Ok [], tt, [Log ERROR "Failed to calculate missing months: " (Some e)])
  ∧ collect_satellite_data E name latitude longitude tbl
    = (Ok true, tbl,
       [Log ERROR "Failed to calculate missing months: " (Some e)]).
Proof.
  intros Hlatest He.
  assert (_get_missing_months E latest (strftime_Ym E (now E)) tt
          = (Ok [], tt,
             [Log ERROR "Failed to calculate missing months: " (Some e)]))
    as Hgap.
  { unfold _get_missing_months. run_eff. rewrite He. reflexivity. }
  split; [exact Hgap|].
  unfold collect_satellite_data, collect_with_gap_filling.
  fold (region_id_of latitude longitude). run_eff.
  rewrite (latest_recorded_month_Some _ _ _ _ Hlatest), Hgap. reflexivity.
Qed.

Lemma unreadable_latest_month_counts_as_up_to_date_witness :
  strptime_Y_m "2024/03"
  = Raise (ValueError "time data does not match format")
  ∧ collect_satellite_data (quiet_env (mk_datetime 2024 6 15))
      "Berlin" 52.52 13.405 [odd_row]
    = (Ok true, [odd_row],
       [Log ERROR "Failed to calculate missing months: "
          (Some (ValueError "time data does not match format"))]).
Proof.
  split; [reflexivity|].
  apply (unreadable_latest_month_counts_as_up_to_date
           (quiet_env (mk_datetime 2024 6 15))
           "Berlin" 52.52 13.405 [odd_row] "2024/03"
           (ValueError "time data does not match format")).
  - vm_compute. reflexivity.
  - reflexivity.
Defined.

(** C4, amended: every record a run appends carries the region id, the
    display name and the coordinates; the records of the gap-fill path
    carry the collection type 'gap_fill', and the records of the bootstrap
    path carry no collection type. *)
Theorem appended_records_are_tagged E name latitude longitude tbl :
  ∃ new,
    state_of (collect_satellite_data E name latitude longitude tbl)
      = tbl ++ new
    ∧ Forall
        (tagged (region_id_of latitude longitude) name latitude longitude
           (match latest_recorded_month E tbl
                    (region_id_of latitude longitude) with
            | None => None
            | Some _ => Some (VStr "gap_fill")
            end))
        new.
Proof.
  destruct (collect_satellite_data_run E name latitude longitude tbl)
    as (b & new & ev & Hrun & Htag & _).
  exists new. rewrite Hrun. split; [reflexivity|exact Htag].
Qed.

Lemma april_bootstrap_run :
  collect_satellite_data (april_env (mk_datetime 2024 6 15) None)
    "Berlin" 52.52 13.405 []
  = (Ok true, [april_bootstrap_row],
     [GetInfo "2024-06-01" "2024-06-30";
      Log WARNING "No suitable images found for 2024-06" None;
      Log WARNING "❌ No suitable images for 2024-06" None;
      GetInfo "2024-05-01" "2024-05-31";
      Log WARNING "No suitable images found for 2024-05" None;
      Log WARNING "❌ No suitable images for 2024-05" None;
      GetInfo "2024-04-01" "2024-04-30";
      GetInfo "2024-03-01" "2024-03-31";
      Log WARNING "No suitable images found for 2024-03" None;
      Log WARNING "❌ No suitable images for 2024-03" None;
      GetInfo "2024-02-01" "2024-02-29";
      Log WARNING "No suitable images found for 2024-02" None;
      Log WARNING "❌ No suitable images for 2024-02" None;
      GetInfo "2024-01-01" "2024-01-31";
      Log WARNING "No suitable images found for 2024-01" None;
      Log WARNING "❌ No suitable images for 2024-01" None]).
Proof. by_vm. Qed.

Lemma april_gap_fill_run :
  collect_satellite_data (april_env (mk_datetime 2024 6 15) None)
    "Berlin" 52.52 13.405 [march_row]
  = (Ok true, [march_row; april_gap_fill_row],
     [GetInfo "2024-04-01" "2024-04-30";
      GetInfo "2024-05-01" "2024-05-31";
      Log WARNING "No suitable images found for 2024-05" None;
      Log WARNING "❌ Could not fill gap for 2024-05 (no suitable images)"
        None;
      GetInfo "2024-06-01" "2024-06-30";
      Log WARNING "No suitable images found for 2024-06" None;
      Log WARNING "❌ Could not fill gap for 2024-06 (no suitable images)"
        None]).
Proof. by_vm. Qed.

(** C4, as stated, fails: the record a bootstrap run appends has no
    collection type, where the claim wants 'bootstrap'. *)
Lemma bootstrap_records_have_no_collection_type :
  let E := april_env (mk_datetime 2024 6 15) None in
  latest_recorded_month E [] (region_id_of 52.52 13.405) = None
  ∧ state_of (collect_satellite_data E "Berlin" 52.52 13.405 [])
    = [april_bootstrap_row]
  ∧ april_bootstrap_row !! "region_id" = Some (VStr "52.520_13.405")
  ∧ april_bootstrap_row !! "collection_type" = None
  ∧ ¬ Forall (λ rec : dict,
                rec !! "collection_type" = Some (VStr "bootstrap"))
        (state_of (collect_satellite_data E "Berlin" 52.52 13.405 [])).
Proof.
  cbv zeta. rewrite april_bootstrap_run. unfold state_of. cbn [fst snd].
  split_and!; try by_vm.
  intros H. apply Forall_cons in H. destruct H as [H _].
  assert (april_bootstrap_row !! "collection_type" = None) as Hn by by_vm.
  rewrite Hn in H. discriminate.
Qed.
(** A loop that adds to a list at most one item a turn has added, when
    it is done, the items of its turns in their order. *)
Lemma for_each_collect {A B} (pick : A → option B) xs
    (body : A → eff (list B) unit) acc :
  (∀ x l, match body x l with
          | (Ok _, l', _) => l' = l ++ option_list (pick x)
          | (Raise _, _, _) => True
          end) →
  match for_each xs body acc with
  | (Ok _, l, _) => l = acc ++ omap pick xs
  | (Raise _, _, _) => True
  end.
Proof.
  intros Hbody. revert acc. induction xs as [|x xs IH]; intros acc.
  - simpl. by rewrite app_nil_r.
  - rewrite for_each_cons. specialize (Hbody x acc).
    destruct (body x acc) as [[[[]|e] s1] ev1]; [|done]. subst s1.
    specialize (IH (acc ++ option_list (pick x))).
    destruct (for_each xs body _) as [[[[]|e] s2] ev2]; [|done]. subst s2.
    rewrite <- app_assoc. cbn [omap list_omap]. by destruct (pick x).
Qed.

(** The aggregation of a window returns the record of the window. *)
Lemma window_record_value E latitude longitude first last :
  value_of (_get_monthly_averaged_data E (Point longitude latitude)
              (Bounds (Buffer (Point longitude latitude) 5000))
              first last 3 tt)
  = Ok (window_record E latitude longitude (first, last)).
Proof.
  unfold window_record. cbn [fst snd].
  destruct (value_of _) as [o|e] eqn:Hv; [reflexivity|].
  exfalso. revert Hv.
  unfold _get_monthly_averaged_data, value_of. run_eff.
  match goal with |- context [match ?m with _ => _ end] =>
    destruct m as [[[o|e'] u] ev] end; discriminate.
Qed.

(** A gap-fill run hands its batch to the load job, and appends it when
    it returns true. *)
Lemma fill_missing_months_batch E region_id display_name latitude longitude
    months tbl :
  let batch :=
    gap_fill_batch E region_id display_name latitude longitude months in
  ∃ (b : bool) ev,
    _fill_missing_months E region_id display_name latitude longitude months tbl
      = (Ok b, tbl ++ (if b then batch else []), ev)
    ∧ (b = true → batch ≠ [] ∧ bq_load_error E batch = None).
Proof.
  intros batch. unfold _fill_missing_months.
  match goal with |- context [for_each months ?f] => set (body := f) end.
  pose proof (for_each_collect
                (λ s : string, match gap_fill_window s with
                      | Ok w =>
                          (λ md, update md (gap_fill_tags E region_id
                                              display_name latitude longitude))
                            <$> window_record E latitude longitude w
                      | Raise _ => None
                      end) months body []) as Hloop.
  fold (gap_fill_batch E region_id display_name latitude longitude months)
    in Hloop. fold batch in Hloop.
  assert (match for_each months body [] with
          | (Ok _, l, _) => l = batch
          | (Raise _, _, _) => True
          end) as Hstate.
  { apply Hloop. intros s l. subst body. cbv beta.
    unfold gap_fill_window, month_window. run_eff.
    destruct (strptime_Y_m s) as [d|e]; [|done]. cbv beta iota.
    destruct (replace d None None (Some 1)) as [first|e]; [|done].
    cbv beta iota.
    destruct (monthrange_ndays _ _) as [last_day|e]; [|done]. cbv beta iota.
    destruct (replace d None None (Some last_day)) as [last|e]; [|done].
    cbv beta iota.
    pose proof (window_record_value E latitude longitude first last) as Hw.
    unfold value_of in Hw.
    destruct (_get_monthly_averaged_data _ _ _ _ _ _ _) as [[r u] ev].
    cbn [fst snd] in Hw. subst r. cbv beta iota.
    destruct (window_record E latitude longitude (first, last)) as [md|];
      cbn [fst snd option_list fmap option_fmap option_map];
      [reflexivity|by rewrite app_nil_r]. }
  clear Hloop. unfold ee_Initialize. run_eff.
  destruct (ee_initialize E) as [e|].
  { exists false. eexists. rewrite (app_nil_r tbl). split; [reflexivity|done]. }
  destruct (for_each months body []) as [[[[]|e] l] ev].
  2:{ exists false. eexists. rewrite (app_nil_r tbl).
      split; [reflexivity|done]. }
  subst l. cbv beta iota. destruct batch as [|r l] eqn:Hbatch.
  { exists false. eexists. rewrite (app_nil_r tbl).
    split; [reflexivity|done]. }
  rewrite upload_to_bigquery_run.
  destruct (bq_load_error E (r :: l)) as [e|] eqn:Hload.
  - exists false. eexists. rewrite (app_nil_r tbl). split; [reflexivity|done].
  - exists true. eexists. split; [reflexivity|]. done.
Qed.

(** A bootstrap run hands its batch to the load job, and appends it when
    it returns true. *)
Lemma collect_satellite_data_monthly_batch E region_id display_name
    latitude longitude tbl :
  let batch :=
    bootstrap_batch E region_id display_name latitude longitude in
  ∃ (b : bool) ev,
    collect_satellite_data_monthly E region_id display_name
      latitude longitude tbl = (Ok b, tbl ++ (if b then batch else []), ev)
    ∧ (b = true → batch ≠ [] ∧ bq_load_error E batch = None).
Proof.
  intros batch. unfold collect_satellite_data_monthly.
  match goal with |- context [for_each ?ks ?f] => set (body := f) end.
  pose proof (for_each_collect
                (λ k : Z, match bootstrap_window E k with
                      | Ok w => window_record E latitude longitude w
                      | Raise _ => None
                      end) [0; 1; 2; 3; 4; 5] body []) as Hloop.
  assert (match for_each [0; 1; 2; 3; 4; 5] body [] with
          | (Ok _, l, _) =>
              map (λ md, update md (bootstrap_tags E region_id display_name
                                      latitude longitude)) l = batch
          | (Raise _, _, _) => True
          end) as Hstate.
  { match type of Hloop with ?P → _ => assert P as Hbody end.
    { intros k l. subst body. cbv beta.
      unfold bootstrap_window, month_window. run_eff.
      destruct (sub_days (now E) (30 * k)) as [d|e]; [|done]. cbv beta iota.
      destruct (replace d None None (Some 1)) as [first|e]; [|done].
      cbv beta iota.
      destruct (monthrange_ndays _ _) as [last_day|e]; [|done].
      cbv beta iota.
      destruct (replace d None None (Some last_day)) as [last|e]; [|done].
      cbv beta iota.
      pose proof (window_record_value E latitude longitude first last) as Hw.
      unfold value_of in Hw.
      destruct (_get_monthly_averaged_data _ _ _ _ _ _ _) as [[r u] ev].
      cbn [fst snd] in Hw. subst r. cbv beta iota.
      destruct (window_record E latitude longitude (first, last)) as [md|];
        cbn [fst snd option_list]; [reflexivity|by rewrite app_nil_r]. }
    specialize (Hloop Hbody).
    destruct (for_each [0; 1; 2; 3; 4; 5] body []) as [[[[]|e] l] ev];
      [|done].
    subst l. reflexivity. }
  clear Hloop. unfold ee_Initialize. run_eff.
  destruct (ee_initialize E) as [e|].
  { exists false. eexists. rewrite (app_nil_r tbl). split; [reflexivity|done]. }
  destruct (for_each [0; 1; 2; 3; 4; 5] body []) as [[[[]|e] l] ev].
  2:{ exists false. eexists. rewrite (app_nil_r tbl).
      split; [reflexivity|done]. }
  cbv beta iota. destruct l as [|r l].
  { exists false. eexists. rewrite (app_nil_r tbl).
    split; [reflexivity|done]. }
  rewrite upload_to_bigquery_run.
  unfold bootstrap_tags in Hstate. rewrite Hstate.
  destruct (bq_load_error E batch) as [e|] eqn:Hload.
  - exists false. eexists. rewrite (app_nil_r tbl). split; [reflexivity|done].
  - exists true. eexists. split; [reflexivity|].
    intros _. split; [|reflexivity]. rewrite <- Hstate. discriminate.
Qed.

(** A collection run never raises; it appends its batch when it returns
    true, and nothing when it returns false; a run that planned a month
    returns true only when it had a batch and the load job took it. *)
Lemma collect_satellite_data_batch E name latitude longitude tbl :
  let batch := run_batch E name latitude longitude tbl in
  ∃ (b : bool) ev,
    collect_satellite_data E name latitude longitude tbl
      = (Ok b, tbl ++ (if b then batch else []), ev)
    ∧ (b = true →
       planned_windows E tbl (region_id_of latitude longitude) ≠ [] →
       batch ≠ [] ∧ bq_load_error E batch = None).
Proof.
  intros batch. subst batch.
  unfold collect_satellite_data, collect_with_gap_filling, run_batch.
  fold (region_id_of latitude longitude).
  set (region_id := region_id_of latitude longitude).
  unfold planned_windows, latest_recorded_month. run_eff.
  rewrite get_latest_data_month_run.
  pose proof (collect_satellite_data_monthly_batch E region_id name
                latitude longitude tbl) as Hboot. cbv zeta in Hboot.
  destruct (bq_query_error E) as [e|]; cbn [value_of fst snd].
  { destruct Hboot as (b & ev & -> & Hb).
    exists b. eexists. split; [reflexivity|]. intros Ht _. by apply Hb. }
  destruct (max_acquisition_month tbl region_id) as [latest|].
  2:{ destruct Hboot as (b & ev & -> & Hb).
      exists b. eexists. split; [reflexivity|]. intros Ht _. by apply Hb. }
  clear Hboot.
  destruct (get_missing_months_total E latest (strftime_Ym E (now E)))
    as (months & ev1 & -> & _). cbn [value_of fst snd].
  destruct months as [|m months].
  { exists true. eexists. unfold gap_fill_batch. cbn [omap list_omap].
    rewrite (app_nil_r tbl). split; [reflexivity|].
    intros _ Hp. by destruct Hp. }
  destruct (fill_missing_months_batch E region_id name latitude longitude
              (m :: months) tbl) as (b & ev & -> & Hb).
  exists b. eexists. split; [reflexivity|]. intros Ht _. by apply Hb.
Qed.

(** When every planned month yields no data the batch is empty. *)
Lemma run_batch_empty E name latitude longitude tbl :
  (∀ a b,
     Ok (a, b) ∈ planned_windows E tbl (region_id_of latitude longitude) →
     value_of (_get_monthly_averaged_data E (Point longitude latitude)
                 (Bounds (Buffer (Point longitude latitude) 5000)) a b 3 tt)
       = Ok None) →
  run_batch E name latitude longitude tbl = [].
Proof.
  unfold run_batch, planned_windows. cbv zeta.
  set (region_id := region_id_of latitude longitude).
  assert (∀ {A} (window : A → result (datetime * datetime)) keys,
            (∀ a b, Ok (a, b) ∈ map window keys →
               value_of (_get_monthly_averaged_data E (Point longitude latitude)
                           (Bounds (Buffer (Point longitude latitude) 5000))
                           a b 3 tt) = Ok None) →
            ∀ k, k ∈ keys →
              match window k with
              | Ok w => window_record E latitude longitude w
              | Raise _ => None
              end = None) as Hnone.
  { intros A window keys Hno k Hk.
    destruct (window k) as [[a b]|e] eqn:Hw; [|reflexivity].
    assert (Ok (a, b) ∈ map window keys) as Hin.
    { rewrite <- Hw. apply list_elem_of_fmap. by exists k. }
    specialize (Hno a b Hin). rewrite window_record_value in Hno.
    by injection Hno. }
  destruct (latest_recorded_month E tbl region_id) as [latest|].
  - destruct (value_of (_get_missing_months E latest _ tt)) as [months|e];
      [|reflexivity].
    intros Hno. unfold gap_fill_batch.
    specialize (Hnone _ gap_fill_window months Hno). clear Hno.
    induction months as [|s months IH]; [reflexivity|].
    cbn [omap list_omap].
    pose proof (Hnone s ltac:(left)) as Hs.
    destruct (gap_fill_window s) as [w|e].
    + rewrite Hs. cbn [fmap option_fmap option_map]. apply IH.
      intros k Hk. apply Hnone. by right.
    + apply IH. intros k Hk. apply Hnone. by right.
  - intros Hno. unfold bootstrap_batch.
    specialize (Hnone _ (bootstrap_window E) [0; 1; 2; 3; 4; 5] Hno).
    clear Hno.
    assert (omap (λ k, match bootstrap_window E k with
                       | Ok w => window_record E latitude longitude w
                       | Raise _ => None
                       end) [0; 1; 2; 3; 4; 5] = []) as ->; [|reflexivity].
    induction [0; 1; 2; 3; 4; 5] as [|k ks IH]; [reflexivity|].
    cbn [omap list_omap]. rewrite (Hnone k ltac:(left)).
    apply IH. intros k' Hk'. apply Hnone. by right.
Qed.

(** C7, amended: a run that planned at least one month returns false, and
    does not raise, both when the load job of the batch of the run fails
    and when every planned month yielded no data; the table is left as it
    was.  The caller gets the same false in both cases. *)
Theorem collect_returns_false_without_raising E name latitude longitude tbl :
  let region_id := region_id_of latitude longitude in
  let point := Point longitude latitude in
  let region := Bounds (Buffer point 5000) in
  planned_windows E tbl region_id ≠ [] →
  bq_load_error E (run_batch E name latitude longitude tbl) ≠ None
  ∨ (∀ a b, Ok (a, b) ∈ planned_windows E tbl region_id →
       value_of (_get_monthly_averaged_data E point region a b 3 tt)
         = Ok None) →
  ∃ ev,
    collect_satellite_data E name latitude longitude tbl = (Ok false, tbl, ev).
Proof.
  intros region_id point region Hplan Hcase.
  destruct (collect_satellite_data_batch E name latitude longitude tbl)
    as (b & ev & Hrun & Hb).
  exists ev. rewrite Hrun. destruct b; [|by rewrite app_nil_r].
  destruct (Hb eq_refl Hplan) as [Hne Hload].
  destruct Hcase as [Hcase|Hcase]; [done|].
  by apply run_batch_empty with (name := name) in Hcase.
Qed.

Lemma collect_returns_false_without_raising_witness :
  (∃ ev,
     collect_satellite_data (single_row_failure_env (mk_datetime 2024 6 15))
       "Berlin" 52.52 13.405 [march_row] = (Ok false, [march_row], ev))
  ∧ (∃ ev,
       collect_satellite_data (quiet_env (mk_datetime 2024 6 15))
         "Berlin" 52.52 13.405 [march_row] = (Ok false, [march_row], ev)).
Proof.
  split.
  - apply (collect_returns_false_without_raising
             (single_row_failure_env (mk_datetime 2024 6 15))
             "Berlin" 52.52 13.405 [march_row]).
    + intros H. apply (f_equal length) in H. vm_compute in H. discriminate.
    + left. intros H. vm_compute in H. discriminate.
  - apply (collect_returns_false_without_raising
             (quiet_env (mk_datetime 2024 6 15))
             "Berlin" 52.52 13.405 [march_row]).
    + intros H. apply (f_equal length) in H. vm_compute in H. discriminate.
    + right. intros a b _. reflexivity.
Defined.

Lemma april_load_failure_run :
  collect_satellite_data
    (april_env (mk_datetime 2024 6 15) (Some (ServiceError "load job failed")))
    "Berlin" 52.52 13.405 [march_row]
  = (Ok false, [march_row],
     [GetInfo "2024-04-01" "2024-04-30";
      GetInfo "2024-05-01" "2024-05-31";
      Log WARNING "No suitable images found for 2024-05" None;
      Log WARNING "❌ Could not fill gap for 2024-05 (no suitable images)"
        None;
      GetInfo "2024-06-01" "2024-06-30";
      Log WARNING "No suitable images found for 2024-06" None;
      Log WARNING "❌ Could not fill gap for 2024-06 (no suitable images)"
        None;
      Log ERROR "BigQuery upload failed: "
        (Some (ServiceError "load job failed"))]).
Proof. by_vm. Qed.

Lemma quiet_gap_fill_run :
  collect_satellite_data (quiet_env (mk_datetime 2024 6 15))
    "Berlin" 52.52 13.405 [march_row]
  = (Ok false, [march_row],
     [GetInfo "2024-04-01" "2024-04-30";
      Log WARNING "No suitable images found for 2024-04" None;
      Log WARNING "❌ Could not fill gap for 2024-04 (no suitable images)"
        None;
      GetInfo "2024-05-01" "2024-05-31";
      Log WARNING "No suitable images found for 2024-05" None;
      Log WARNING "❌ Could not fill gap for 2024-05 (no suitable images)"
        None;
      GetInfo "2024-06-01" "2024-06-30";
      Log WARNING "No suitable images found for 2024-06" None;
      Log WARNING "❌ Could not fill gap for 2024-06 (no suitable images)"
        None;
      Log WARNING "No data collected during gap filling for Berlin" None]).
Proof. by_vm. Qed.

(** C7, as stated, fails: a run whose append failed and a run whose
    months all yielded no data hand the same value to the caller, so
    nothing computed from it tells the two outcomes apart. *)
Lemma append_failure_and_no_data_return_the_same :
  let failed :=
    collect_satellite_data
      (april_env (mk_datetime 2024 6 15)
         (Some (ServiceError "load job failed")))
      "Berlin" 52.52 13.405 [march_row] in
  let empty :=
    collect_satellite_data (quiet_env (mk_datetime 2024 6 15))
      "Berlin" 52.52 13.405 [march_row] in
  Log ERROR "BigQuery upload failed: " (Some (ServiceError "load job failed"))
    ∈ events_of failed
  ∧ Log WARNING "No data collected during gap filling for Berlin" None
    ∈ events_of empty
  ∧ value_of failed = Ok false
  ∧ value_of empty = Ok false
  ∧ ∀ (O : Type) (outcome : result bool → O),
      outcome (value_of failed) = outcome (value_of empty).
Proof.
  cbv zeta. rewrite april_load_failure_run, quiet_gap_fill_run.
  unfold events_of, value_of. cbn [fst snd].
  split_and!; try reflexivity.
  - repeat (first [left | right]).
  - repeat (first [left | right]).
Qed.

(* ===================================================================== *)
(** ** The data-sufficiency gate and the pipeline *)
(* ===================================================================== *)

Lemma should_collect_data_run E region_name tbl :
  should_collect_data E region_name tbl =
  match bq_query_error E with
  | Some e =>
      (Ok true, tbl,
       [Log WARNING ("Failed to check data for " +:+ region_name +:+ ": ")
          (Some e)])
  | None =>
      (Ok (Z.of_nat (length (rows_named tbl region_name)) <? 3), tbl, [])
  end.
Proof.
  unfold should_collect_data, bq_query. run_eff.
  destruct (bq_query_error E); [reflexivity|].
  cbv beta iota. destruct (_ <? 3); reflexivity.
Qed.

Lemma get_data_summary_run E region_name tbl :
  ∃ s ev, get_data_summary E region_name tbl = (Ok s, tbl, ev)
          ∧ Forall is_log ev.
Proof.
  unfold get_data_summary, bq_query. run_eff.
  destruct (bq_query_error E).
  - eexists _, _. split; [reflexivity|]. simpl. by repeat constructor.
  - cbv beta iota. destruct (Z.of_nat _ =? 0);
      eexists _, _; (split; [reflexivity|simpl; constructor]).
Qed.

Lemma generate_basic_analysis_run E region_name ld tbl :
  ∃ a ev, _generate_basic_analysis E region_name ld tbl = (Ok a, tbl, ev)
          ∧ Forall is_log ev.
Proof.
  unfold _generate_basic_analysis, bq_query. run_eff.
  destruct (bq_query_error E).
  - eexists _, _. split; [reflexivity|]. simpl. by repeat constructor.
  - cbv beta iota. destruct (bq_metrics E tbl region_name) as [row|].
    + destruct (0 <? total_observations row);
        eexists _, _; (split; [reflexivity|simpl; constructor]).
    + eexists _, _. split; [reflexivity|simpl; constructor].
Qed.

Lemma searches_app ev1 ev2 : searches (ev1 ++ ev2) = searches ev1 ++ searches ev2.
Proof. unfold searches. apply omap_app. Qed.

Lemma searches_logs ev : Forall is_log ev → searches ev = [].
Proof.
  induction 1 as [|x ev Hx _ IH]; [reflexivity|].
  destruct x; [|destruct Hx]. exact IH.
Qed.

Lemma rows_named_column tbl tbl' region_name :
  (λ row : dict, row !! "region_name") <$> tbl'
  = (λ row : dict, row !! "region_name") <$> tbl →
  length (rows_named tbl' region_name) = length (rows_named tbl region_name).
Proof.
  revert tbl. induction tbl' as [|r' tbl' IH]; intros [|r tbl]; simpl;
    try discriminate; [reflexivity|].
  intros [= Hr Ht]. rewrite Hr.
  destruct (r !! "region_name") as [[n| | | |]|]; simpl; try by apply IH.
  destruct (String.eqb n region_name); simpl; [f_equal|]; by apply IH.
Qed.

(** The rows the query of the gate counts are the records the store
    holds under the name. *)
Lemma rows_named_records tbl region_name :
  length (rows_named tbl region_name) = records_named tbl region_name.
Proof.
  induction tbl as [|row tbl IH]; [reflexivity|].
  unfold rows_named in *. cbn [List.filter records_named].
  destruct (row !! "region_name") as [[n| | | |]|]; try exact IH.
  destruct (String.eqb_spec n region_name) as [Heq|Hne];
    destruct (decide (n = region_name)) as [Heq'|Hne']; try done.
  simpl. by rewrite IH.
Qed.

(** C9: the gate returns true exactly when the store holds fewer than 3
    records under the display name, that is, rows that carry it in
    [region_name] (the column [region_id] plays no part), and whenever the
    query fails; the pipeline runs the collection exactly when the gate
    returned true. *)
Theorem collection_is_gated E :
  (∀ region_name tbl,
     ∃ b ev,
       should_collect_data E region_name tbl = (Ok b, tbl, ev)
       ∧ (bq_query_error E = None →
          (b = true ↔ (records_named tbl region_name < 3)%nat))
       ∧ (bq_query_error E ≠ None → b = true))
  ∧ (∀ region_name tbl tbl',
       (λ row : dict, row !! "region_name") <$> tbl'
       = (λ row : dict, row !! "region_name") <$> tbl →
       value_of (should_collect_data E region_name tbl')
       = value_of (should_collect_data E region_name tbl))
  ∧ (∀ user_id location_name ld tbl,
       get_user_locations E user_id !! location_name = Some ld →
       let region_name := actual_location ld in
       let out := analyze_user_location E user_id location_name tbl in
       ∃ res needs,
         value_of out = Ok res
         ∧ value_of (should_collect_data E region_name tbl) = Ok needs
         ∧ needs_collection res = Some needs
         ∧ if needs then
             ∃ b ev,
               collect_satellite_data E region_name (loc_lat ld) (loc_lon ld)
                 tbl = (Ok b, state_of out, ev)
               ∧ collection_status res
                 = Some (if b then "success" else "failed")
               ∧ searches (events_of out) = searches ev
           else
             collection_status res = Some "not_needed"
             ∧ state_of out = tbl
             ∧ searches (events_of out) = []).
Proof.
  split_and!.
  - intros region_name tbl. rewrite should_collect_data_run.
    destruct (bq_query_error E) as [e|].
    + eexists _, _. split; [reflexivity|]. split; [discriminate|done].
    + eexists _, _. split; [reflexivity|]. split; [|done].
      intros _. rewrite Z.ltb_lt, rows_named_records. lia.
  - intros region_name tbl tbl' Hcol. rewrite !should_collect_data_run.
    destruct (bq_query_error E); [reflexivity|].
    by rewrite (rows_named_column tbl tbl' region_name Hcol).
  - intros user_id location_name ld tbl Hloc region_name out.
    subst out. unfold analyze_user_location. rewrite Hloc.
    fold region_name.
    destruct (get_data_summary_run E region_name tbl)
      as (s1 & e1 & Hs1 & Hl1).
    destruct (generate_basic_analysis_run E region_name ld tbl)
      as (a1 & ea1 & Ha1 & Hla1).
    destruct (collect_satellite_data_run E region_name (loc_lat ld)
                (loc_lon ld) tbl) as (b & new & evc & Hc & _).
    destruct (get_data_summary_run E region_name (tbl ++ new))
      as (s2 & e2 & Hs2 & Hl2).
    destruct (generate_basic_analysis_run E region_name ld (tbl ++ new))
      as (a2 & ea2 & Ha2 & Hla2).
    run_eff. cbv beta iota zeta.
    rewrite should_collect_data_run.
    destruct (bq_query_error E) as [e|] eqn:Hq.
    { rewrite Hs1. cbv beta iota. rewrite Hc. cbv beta iota.
      destruct b.
      + rewrite Hs2. cbv beta iota. rewrite Ha2.
        eexists _, true. split; [reflexivity|]. split; [reflexivity|].
        split; [reflexivity|]. cbv beta iota.
        eexists true, evc. split; [reflexivity|]. split; [reflexivity|].
        unfold events_of. cbn [fst snd].
        rewrite !searches_app, !app_nil_r.
        rewrite (searches_logs e1 Hl1), (searches_logs e2 Hl2),
          (searches_logs ea2 Hla2).
        simpl. by rewrite !app_nil_r.
      + rewrite Ha2.
        eexists _, true. split; [reflexivity|]. split; [reflexivity|].
        split; [reflexivity|]. cbv beta iota.
        eexists false, evc. split; [reflexivity|]. split; [reflexivity|].
        unfold events_of. cbn [fst snd].
        rewrite !searches_app, !app_nil_r.
        rewrite (searches_logs e1 Hl1), (searches_logs ea2 Hla2).
        simpl. by rewrite !app_nil_r. }
    destruct (Z.of_nat (length (rows_named tbl region_name)) <? 3).
    { rewrite Hs1. cbv beta iota. rewrite Hc. cbv beta iota.
      destruct b.
      + rewrite Hs2. cbv beta iota. rewrite Ha2.
        eexists _, true. split; [reflexivity|]. split; [reflexivity|].
        split; [reflexivity|]. cbv beta iota.
        eexists true, evc. split; [reflexivity|]. split; [reflexivity|].
        unfold events_of. cbn [fst snd].
        rewrite !searches_app, !app_nil_r.
        rewrite (searches_logs e1 Hl1), (searches_logs e2 Hl2),
          (searches_logs ea2 Hla2).
        simpl. by rewrite !app_nil_r.
      + rewrite Ha2.
        eexists _, true. split; [reflexivity|]. split; [reflexivity|].
        split; [reflexivity|]. cbv beta iota.
        eexists false, evc. split; [reflexivity|]. split; [reflexivity|].
        unfold events_of. cbn [fst snd].
        rewrite !searches_app, !app_nil_r.
        rewrite (searches_logs e1 Hl1), (searches_logs ea2 Hla2).
        simpl. by rewrite !app_nil_r. }
    rewrite Hs1. cbv beta iota. rewrite Ha1.
    eexists _, false. split; [reflexivity|]. split; [reflexivity|].
    split; [reflexivity|]. cbv beta iota.
    split; [reflexivity|]. split; [reflexivity|].
    unfold events_of. cbn [fst snd].
    rewrite !searches_app, !app_nil_r.
    rewrite (searches_logs e1 Hl1), (searches_logs ea1 Hla1). reflexivity.
Qed.

Lemma collection_is_gated_witness :
  (∃ ev,
     should_collect_data (home_env (mk_datetime 2024 6 15)) "Berlin"
       [march_row; stray_row; april_gap_fill_row]
     = (Ok true, [march_row; stray_row; april_gap_fill_row], ev))
  ∧ (∃ ev,
       should_collect_data (home_env (mk_datetime 2024 6 15)) "Berlin"
         [february_row; march_row; stray_row; april_gap_fill_row]
       = (Ok false, [february_row; march_row; stray_row; april_gap_fill_row],
          ev))
  ∧ (∃ res,
       value_of (analyze_user_location (home_env (mk_datetime 2024 6 15))
                   7 "home" [march_row]) = Ok res
       ∧ needs_collection res = Some true
       ∧ collection_status res = Some "success")
  ∧ ∃ res,
      let out :=
        analyze_user_location (home_env (mk_datetime 2024 6 15)) 7 "home"
          [february_row; march_row; stray_row; april_gap_fill_row] in
      value_of out = Ok res
      ∧ state_of out
        = [february_row; march_row; stray_row; april_gap_fill_row]
      ∧ searches (events_of out) = []
      ∧ needs_collection res = Some false
      ∧ collection_status res = Some "not_needed".
Proof.
  split_and!.
  - destruct (proj1 (collection_is_gated (home_env (mk_datetime 2024 6 15)))
                "Berlin" [march_row; stray_row; april_gap_fill_row])
      as (b & ev & Hrun & Hiff & _).
    exists ev. rewrite Hrun.
    assert (b = true) as ->; [|reflexivity].
    apply Hiff; [reflexivity|]. vm_compute. lia.
  - destruct (proj1 (collection_is_gated (home_env (mk_datetime 2024 6 15)))
                "Berlin"
                [february_row; march_row; stray_row; april_gap_fill_row])
      as (b & ev & Hrun & Hiff & _).
    exists ev. rewrite Hrun. destruct b; [|reflexivity].
    exfalso. destruct (Hiff eq_refl) as [Hlt _]. specialize (Hlt eq_refl).
    vm_compute in Hlt. lia.
  - destruct (proj2 (proj2 (collection_is_gated
                              (home_env (mk_datetime 2024 6 15))))
                7 "home" (mk_location_data "Berlin" 52.52 13.405)
                [march_row]) as (res & needs & Hres & Hgate & Hneeds & Hrun).
    { vm_compute. reflexivity. }
    exists res. split; [exact Hres|].
    assert (needs = true) as ->.
    { vm_compute in Hgate. by injection Hgate as <-. }
    split; [exact Hneeds|].
    destruct Hrun as (b & ev & Hc & Hstatus & _).
    assert (b = true) as ->; [|exact Hstatus].
    apply (f_equal value_of) in Hc. vm_compute in Hc. by injection Hc as <-.
  - destruct (proj2 (proj2 (collection_is_gated
                              (home_env (mk_datetime 2024 6 15))))
                7 "home" (mk_location_data "Berlin" 52.52 13.405)
                [february_row; march_row; stray_row; april_gap_fill_row])
      as (res & needs & Hres & Hgate & Hneeds & Hrun).
    { vm_compute. reflexivity. }
    assert (needs = false) as ->.
    { vm_compute in Hgate. by injection Hgate as <-. }
    destruct Hrun as (Hstatus & Hstate & Hsearch).
    exists res. cbv zeta. by split_and!.
Defined.

(* ===================================================================== *)
(** ** The months of a bootstrap *)
(* ===================================================================== *)

Lemma process_image_events E region ix l :
  Forall is_log (events_of (process_image E region ix l)).
Proof.
  destruct ix as [i img]. unfold process_image, events_of. run_eff.
  destruct (ee_reduce_region E (img_id img) region) as [[v|]|e]; simpl;
    try by repeat constructor.
  destruct (system_time_start img) as [t|]; simpl; try by repeat constructor.
  destruct (fromtimestamp E t) as [d|e]; simpl; by repeat constructor.
Qed.

(** An aggregation sends one search: the one of its window. *)
Lemma aggregation_searches E point region a b n :
  searches (events_of (_get_monthly_averaged_data E point region a b n tt))
  = [window_dates E (a, b)].
Proof.
  unfold _get_monthly_averaged_data, events_of, window_dates. run_eff.
  destruct (ee_get_info E point _ _ n) as [[imgs|]|e];
    cbn [default from_option id]; cbv beta iota; try reflexivity.
  destruct imgs as [|img imgs]; [reflexivity|]. cbv beta iota zeta.
  pose proof (for_each_events is_log (enumerate 0 (img :: imgs))
                (process_image E region) (mk_samples [] [] [] [])
                (process_image_events E region)) as Hev.
  destruct (for_each (enumerate 0 (img :: imgs)) (process_image E region) _)
    as [[r l] ev]. unfold events_of in Hev. cbn [fst snd] in Hev.
  apply searches_logs in Hev.
  destruct r as [[]|e]; cbv beta iota.
  2:{ cbn [fst snd]. rewrite !searches_app, Hev. reflexivity. }
  destruct (ndvi_values l) as [|v vs]; cbv beta iota.
  { cbn [fst snd]. rewrite !searches_app, Hev. reflexivity. }
  destruct (1 <? length (v :: vs))%nat.
  - destruct (squares_of_deviations _ _ _) as [sq|e]; cbv beta iota;
      [destruct (pow_half _ _) as [std_dev|e]; cbv beta iota|];
      cbn [fst snd]; rewrite !searches_app, Hev; reflexivity.
  - cbn [fst snd]. rewrite !searches_app, Hev. reflexivity.
Qed.

(** The searches of a bootstrap run are those of the windows of the
    offsets 0 to 5, in this order, up to the first window that cannot be
    computed. *)
Lemma bootstrap_searches E region_id display_name latitude longitude tbl :
  ee_initialize E = None →
  searches (events_of (collect_satellite_data_monthly E region_id display_name
                         latitude longitude tbl))
  = map (window_dates E)
      (ok_prefix (map (bootstrap_window E) [0; 1; 2; 3; 4; 5])).
Proof.
  intros Hinit. unfold collect_satellite_data_monthly.
  match goal with |- context [for_each ?ks ?f] => set (body := f) end.
  assert (∀ k l, ∃ r l' ev,
            body k l = (r, l', ev)
            ∧ match bootstrap_window E k with
              | Ok w => r = Ok tt ∧ searches ev = [window_dates E w]
              | Raise _ => (∃ e, r = Raise e) ∧ searches ev = []
              end) as Hbody.
  { intros k l. unfold body, bootstrap_window, month_window. run_eff. cbv beta.
    destruct (sub_days (now E) (30 * k)) as [d|e]; [|by eauto 10].
    destruct (replace d None None (Some 1)) as [first|e]; [|by eauto 10].
    destruct (monthrange_ndays _ _) as [last_day|e]; [|by eauto 10].
    destruct (replace d None None (Some last_day)) as [last|e]; [|by eauto 10].
    pose proof (aggregation_searches E (Point longitude latitude)
                  (Bounds (Buffer (Point longitude latitude) 5000))
                  first last 3) as Hs.
    destruct (monthly_aggregation_no_raise E (Point longitude latitude)
                (Bounds (Buffer (Point longitude latitude) 5000))
                first last 3) as [o Ho].
    destruct (_get_monthly_averaged_data _ _ _ _ _ _ _) as [[r u] ev].
    unfold events_of, value_of in *. cbn [fst snd] in *. subst r.
    destruct o as [md|]; cbv beta iota.
    - eexists _, _, _. split; [reflexivity|]. split; [reflexivity|].
      by rewrite !searches_app, !app_nil_r.
    - eexists _, _, _. split; [reflexivity|]. split; [reflexivity|].
      rewrite !searches_app, Hs. reflexivity. }
  assert (∀ ks l,
            searches (events_of (for_each ks body l))
            = map (window_dates E) (ok_prefix (map (bootstrap_window E) ks)))
    as Hloop.
  { induction ks as [|k ks IH]; intros l; [reflexivity|].
    rewrite for_each_cons. simpl map.
    destruct (Hbody k l) as (r & l' & ev & -> & Hk).
    destruct (bootstrap_window E k) as [w|e].
    - destruct Hk as [-> Hs]. specialize (IH l').
      destruct (for_each ks body l') as [[r2 l2] ev2].
      unfold events_of in *. cbn [fst snd] in *.
      rewrite searches_app, Hs, IH. reflexivity.
    - destruct Hk as [[e' ->] Hs]. exact Hs. }
  clearbody body. unfold ee_Initialize. rewrite Hinit. run_eff.
  specialize (Hloop [0; 1; 2; 3; 4; 5] []).
  destruct (for_each [0; 1; 2; 3; 4; 5] body []) as [[[[]|e] l] ev];
    unfold events_of in *; cbn [fst snd] in *.
  2:{ rewrite !searches_app, Hloop. simpl. by rewrite app_nil_r. }
  destruct l as [|r l].
  { cbn [fst snd]. rewrite !searches_app, Hloop. simpl. by rewrite app_nil_r. }
  rewrite upload_to_bigquery_run.
  match goal with |- context [bq_load_error E ?rows] =>
    destruct (bq_load_error E rows) end;
    cbn [fst snd]; rewrite !searches_app, Hloop; simpl; by rewrite !app_nil_r.
Qed.

(** C2 fails: on 2024-03-31 the six steps of 30 days land twice in March
    and twice in January; February 2024 and October 2023, two of the six
    months that end at the current month, are never searched. *)
Theorem bootstrap_of_2024_03_31_skips_february
    E region_id display_name latitude longitude tbl :
  now E = mk_datetime 2024 3 31 →
  ee_initialize E = None →
  searches (events_of (collect_satellite_data_monthly E region_id display_name
                         latitude longitude tbl))
  = [("2024-03-01", "2024-03-31");
     ("2024-03-01", "2024-03-31");
     ("2024-01-01", "2024-01-31");
     ("2024-01-01", "2024-01-31");
     ("2023-12-01", "2023-12-31");
     ("2023-11-01", "2023-11-30")].
Proof.
  intros Hnow Hinit. rewrite bootstrap_searches by exact Hinit.
  unfold bootstrap_window, window_dates, strftime_Ymd. rewrite Hnow.
  destruct (strftime_pads_year E); by_vm.
Qed.

Lemma bootstrap_of_2024_03_31_skips_february_witness :
  searches (events_of (collect_satellite_data_monthly
                         (quiet_env (mk_datetime 2024 3 31))
                         "52.520_13.405" "Berlin" 52.52 13.405 []))
  = [("2024-03-01", "2024-03-31");
     ("2024-03-01", "2024-03-31");
     ("2024-01-01", "2024-01-31");
     ("2024-01-01", "2024-01-31");
     ("2023-12-01", "2023-12-31");
     ("2023-11-01", "2023-11-30")].
Proof.
  apply (bootstrap_of_2024_03_31_skips_february
           (quiet_env (mk_datetime 2024 3 31))
           "52.520_13.405" "Berlin" 52.52 13.405 []); reflexivity.
Defined.

(* ===================================================================== *)
(** ** Further properties of the code *)
(* ===================================================================== *)

(* ===================================================================== *)
(** ** Month strings: the order of the strings is the order of the months *)
(* ===================================================================== *)

Lemma zfill4_digits_all :
  forallb (λ y, String.eqb (zfill 4 y) (digits4 y)) (seqZ 0 10000) = true.
Proof. vm_compute. reflexivity. Qed.

Lemma zfill2_digits_all :
  forallb (λ m, String.eqb (zfill 2 m) (digits2 m)) (seqZ 0 100) = true.
Proof. vm_compute. reflexivity. Qed.

Lemma zfill4_digits y : 0 <= y <= 9999 → zfill 4 y = digits4 y.
Proof.
  intros Hy. pose proof zfill4_digits_all as H.
  rewrite forallb_forall in H. specialize (H y).
  rewrite <- list_elem_of_In, elem_of_seqZ in H.
  apply String.eqb_eq, H. lia.
Qed.

Lemma zfill2_digits m : 0 <= m <= 99 → zfill 2 m = digits2 m.
Proof.
  intros Hm. pose proof zfill2_digits_all as H.
  rewrite forallb_forall in H. specialize (H m).
  rewrite <- list_elem_of_In, elem_of_seqZ in H.
  apply String.eqb_eq, H. lia.
Qed.

Lemma digit_char_compare a b :
  0 <= a <= 9 → 0 <= b <= 9 →
  Ascii.compare (digit_char a) (digit_char b) = (a ?= b).
Proof.
  intros Ha Hb.
  assert (a = 0 ∨ a = 1 ∨ a = 2 ∨ a = 3 ∨ a = 4 ∨ a = 5 ∨ a = 6 ∨ a = 7
          ∨ a = 8 ∨ a = 9) as Ca by lia.
  assert (b = 0 ∨ b = 1 ∨ b = 2 ∨ b = 3 ∨ b = 4 ∨ b = 5 ∨ b = 6 ∨ b = 7
          ∨ b = 8 ∨ b = 9) as Cb by lia.
  repeat destruct Ca as [-> | Ca]; try subst a;
    repeat destruct Cb as [-> | Cb]; try subst b; reflexivity.
Qed.

(** The month string of a month, the year on four digits. *)
Lemma strftime_Y_m_digits d :
  0 <= year d <= 9999 → 0 <= month d <= 99 →
  strftime_Y_m true d
  = digits4 (year d) +:+ "-" +:+ digits2 (month d).
Proof.
  intros Hy Hm. unfold strftime_Y_m, strftime_Y.
  by rewrite zfill4_digits, zfill2_digits.
Qed.

Lemma month_string_compare y1 m1 y2 m2 :
  0 <= y1 <= 9999 → 0 <= m1 <= 99 → 0 <= y2 <= 9999 → 0 <= m2 <= 99 →
  String.compare (strftime_Y_m true (mk_datetime y1 m1 1))
    (strftime_Y_m true (mk_datetime y2 m2 1))
  = (100 * y1 + m1 ?= 100 * y2 + m2).
Proof.
  intros Hy1 Hm1 Hy2 Hm2.
  rewrite !strftime_Y_m_digits by (simpl; lia).
  unfold digits4, digits2. cbv [year month append String.compare]. fold Ascii.compare.
  pose proof (Z.div_mod y1 1000 ltac:(lia)).
  pose proof (Z.mod_pos_bound y1 1000 ltac:(lia)).
  pose proof (Z.div_mod y2 1000 ltac:(lia)).
  pose proof (Z.mod_pos_bound y2 1000 ltac:(lia)).
  pose proof (Z.div_mod (y1 / 100) 10 ltac:(lia)).
  pose proof (Z.mod_pos_bound (y1 / 100) 10 ltac:(lia)).
  pose proof (Z.div_mod (y2 / 100) 10 ltac:(lia)).
  pose proof (Z.mod_pos_bound (y2 / 100) 10 ltac:(lia)).
  pose proof (Z.div_mod (y1 / 10) 10 ltac:(lia)).
  pose proof (Z.mod_pos_bound (y1 / 10) 10 ltac:(lia)).
  pose proof (Z.div_mod (y2 / 10) 10 ltac:(lia)).
  pose proof (Z.mod_pos_bound (y2 / 10) 10 ltac:(lia)).
  pose proof (Z.div_mod y1 10 ltac:(lia)).
  pose proof (Z.mod_pos_bound y1 10 ltac:(lia)).
  pose proof (Z.div_mod y2 10 ltac:(lia)).
  pose proof (Z.mod_pos_bound y2 10 ltac:(lia)).
  pose proof (Z.div_mod y1 100 ltac:(lia)).
  pose proof (Z.mod_pos_bound y1 100 ltac:(lia)).
  pose proof (Z.div_mod y2 100 ltac:(lia)).
  pose proof (Z.mod_pos_bound y2 100 ltac:(lia)).
  pose proof (Z.div_mod m1 10 ltac:(lia)).
  pose proof (Z.mod_pos_bound m1 10 ltac:(lia)).
  pose proof (Z.div_mod m2 10 ltac:(lia)).
  pose proof (Z.mod_pos_bound m2 10 ltac:(lia)).
  rewrite !digit_char_compare by lia.
  replace (Ascii.compare "-" "-") with Eq by reflexivity.
  symmetry.
  repeat match goal with
         | |- context [match ?a ?= ?b with _ => _ end] =>
             destruct (Z.compare_spec a b)
         end;
    first [ apply Z.compare_eq_iff; lia
          | apply Z.compare_lt_iff; lia
          | apply Z.compare_gt_iff; lia ].
Qed.

Lemma canonical_month_inv s :
  canonical_month s = true →
  ∃ d, strptime_Y_m s = Ok d ∧ month_start d ∧ strftime_Y_m true d = s.
Proof.
  unfold canonical_month. destruct (strptime_Y_m s) as [d|e] eqn:Hd; [|done].
  intros H%String.eqb_eq. exists d. split; [reflexivity|].
  split; [by eapply strptime_Y_m_Ok|exact H].
Qed.

Lemma month_key_parsed s d : strptime_Y_m s = Ok d → month_key s = month_index d.
Proof. unfold month_key. by intros ->. Qed.

(** Between canonical month strings, the order of the strings is the
    order of the months. *)
Lemma canonical_ltb s1 s2 :
  canonical_month s1 = true → canonical_month s2 = true →
  String.ltb s1 s2 = bool_decide (month_key s1 < month_key s2).
Proof.
  intros (d1 & Hp1 & (Hy1 & Hm1 & Hd1) & H1)%canonical_month_inv
         (d2 & Hp2 & (Hy2 & Hm2 & Hd2) & H2)%canonical_month_inv.
  rewrite (month_key_parsed _ _ Hp1), (month_key_parsed _ _ Hp2).
  rewrite <- H1, <- H2. destruct d1 as [y1 m1 dd1], d2 as [y2 m2 dd2].
  simpl in *. subst dd1 dd2. unfold String.ltb.
  rewrite month_string_compare by lia. unfold month_index. simpl.
  case_bool_decide.
  - replace (100 * y1 + m1 ?= 100 * y2 + m2) with Lt; [done|].
    symmetry. apply Z.compare_lt_iff. lia.
  - destruct (Z.compare_spec (100 * y1 + m1) (100 * y2 + m2)); try done. lia.
Qed.

Lemma max_string_elem l m : max_string l = Some m → m ∈ l.
Proof.
  revert m. induction l as [|s l IH]; intros m; simpl; [done|].
  destruct (max_string l) as [m'|].
  - destruct (String.ltb s m'); intros [= <-]; [right; by apply IH | left].
  - intros [= <-]. left.
Qed.

Lemma max_string_Some l s : s ∈ l → ∃ m, max_string l = Some m.
Proof.
  destruct l as [|x l]; [by intros ?%elem_of_nil|]. intros _. simpl.
  destruct (max_string l) as [m'|]; [|by eauto].
  destruct (String.ltb x m'); eauto.
Qed.

Lemma max_string_canonical l m :
  Forall (λ s, canonical_month s = true) l →
  max_string l = Some m →
  ∀ s, s ∈ l → month_key s <= month_key m.
Proof.
  intros Hl. revert m. induction Hl as [|x l Hx Hl IH]; intros m; simpl.
  { intros _ s Hs. by apply elem_of_nil in Hs. }
  destruct (max_string l) as [m'|] eqn:Hm'.
  - assert (canonical_month m' = true) as Cm'.
    { rewrite Forall_forall in Hl. apply Hl. by apply max_string_elem. }
    rewrite (canonical_ltb x m' Hx Cm'). case_bool_decide; intros [= <-].
    + intros s [->|Hs]%elem_of_cons; [lia|]. by apply IH.
    + intros s [->|Hs]%elem_of_cons; [lia|].
      specialize (IH m' eq_refl s Hs). lia.
  - intros [= <-] s [->|Hs]%elem_of_cons; [lia|].
    destruct (max_string_Some l s Hs) as [? ?]. congruence.
Qed.

Lemma datetime_leb_month_index a b :
  month_start a → month_start b →
  datetime_leb a b = bool_decide (month_index a <= month_index b).
Proof.
  intros Ha Hb.
  rewrite <- (month_of_index_index a Ha) at 1.
  rewrite <- (month_of_index_index b Hb) at 1.
  apply datetime_leb_of_index.
Qed.

Lemma latest_recorded_month_months E tbl region_id :
  bq_query_error E = None →
  latest_recorded_month E tbl region_id
  = max_string (region_months tbl region_id).
Proof.
  intros Hq. unfold latest_recorded_month.
  rewrite get_latest_data_month_run, Hq. reflexivity.
Qed.

(** X1: when the months recorded for a region are canonical month strings,
    the latest month the planner reads is one of them and no recorded
    month is after it: the greatest string is the latest month.  It is
    [None] only when the region has no month recorded. *)
Theorem latest_month_is_the_last_recorded E tbl region_id :
  bq_query_error E = None →
  Forall (λ s, canonical_month s = true) (region_months tbl region_id) →
  match latest_recorded_month E tbl region_id with
  | None => region_months tbl region_id = []
  | Some latest =>
      latest ∈ region_months tbl region_id
      ∧ ∃ l, strptime_Y_m latest = Ok l
             ∧ ∀ s, s ∈ region_months tbl region_id →
                 ∃ d, strptime_Y_m s = Ok d ∧ datetime_leb d l = true
  end.
Proof.
  intros Hq Hcan. rewrite latest_recorded_month_months by exact Hq.
  destruct (max_string (region_months tbl region_id)) as [latest|] eqn:Hmax.
  - pose proof (max_string_elem _ _ Hmax) as Hin. split; [exact Hin|].
    rewrite Forall_forall in Hcan.
    destruct (canonical_month_inv latest (Hcan _ Hin)) as (l & Hl & Vl & _).
    exists l. split; [exact Hl|]. intros s Hs.
    destruct (canonical_month_inv s (Hcan _ Hs)) as (d & Hd & Vd & _).
    exists d. split; [exact Hd|].
    rewrite datetime_leb_month_index by done. apply bool_decide_eq_true.
    rewrite <- (month_key_parsed _ _ Hd), <- (month_key_parsed _ _ Hl).
    eapply max_string_canonical; [|exact Hmax|exact Hs].
    by apply Forall_forall.
  - destruct (region_months tbl region_id) as [|s l]; [reflexivity|].
    destruct (max_string_Some (s :: l) s ltac:(left)) as [? ?]. congruence.
Qed.


Lemma latest_month_is_the_last_recorded_witness :
  match latest_recorded_month (quiet_env (mk_datetime 2024 6 15))
          berlin_table "52.520_13.405" with
  | None => region_months berlin_table "52.520_13.405" = []
  | Some latest =>
      latest ∈ region_months berlin_table "52.520_13.405"
      ∧ ∃ l, strptime_Y_m latest = Ok l
             ∧ ∀ s, s ∈ region_months berlin_table "52.520_13.405" →
                 ∃ d, strptime_Y_m s = Ok d ∧ datetime_leb d l = true
  end.
Proof.
  apply (latest_month_is_the_last_recorded (quiet_env (mk_datetime 2024 6 15))
           berlin_table "52.520_13.405").
  - reflexivity.
  - assert (region_months berlin_table "52.520_13.405"
            = ["2024-03"; "2024-04"]) as -> by by_vm.
    repeat constructor.
Defined.

(** X2: when the months recorded for the region are canonical month
    strings and the current month is among them, a run returns true,
    leaves the table as it is, sends no search and logs no record of level
    WARNING or ERROR. *)
Theorem recorded_current_month_makes_the_run_a_no_op
    E name latitude longitude tbl :
  wall_clock (now E) →
  bq_query_error E = None →
  Forall (λ s, canonical_month s = true)
    (region_months tbl (region_id_of latitude longitude)) →
  strftime_Ym E (now E) ∈ region_months tbl (region_id_of latitude longitude) →
  collect_satellite_data E name latitude longitude tbl = (Ok true, tbl, []).
Proof.
  intros Hclock Hq Hcan Hcur.
  set (region_id := region_id_of latitude longitude) in *.
  destruct (max_string_Some _ _ Hcur) as [latest Hmax].
  pose proof (max_string_elem _ _ Hmax) as Hin.
  pose proof Hcan as Hcan'. rewrite Forall_forall in Hcan'.
  destruct (canonical_month_inv latest (Hcan' _ Hin)) as (l & Hl & Vl & _).
  pose proof (strptime_strftime E (now E) Hclock) as Hc.
  assert (datetime_leb (first_of_month (now E)) l = true) as Hle.
  { rewrite datetime_leb_month_index; [|destruct Hclock; split; simpl; lia|done].
    apply bool_decide_eq_true.
    rewrite <- (month_key_parsed _ _ Hc), <- (month_key_parsed _ _ Hl).
    by eapply max_string_canonical. }
  unfold collect_satellite_data, collect_with_gap_filling.
  fold (region_id_of latitude longitude). fold region_id. run_eff.
  rewrite get_latest_data_month_run, Hq.
  change (max_acquisition_month tbl region_id)
    with (max_string (region_months tbl region_id)).
  rewrite Hmax. unfold _get_missing_months. run_eff.
  rewrite Hl, Hc, Hle. reflexivity.
Qed.

Lemma recorded_current_month_makes_the_run_a_no_op_witness :
  wall_clock (mk_datetime 2024 4 25)
  ∧ "2024-04" ∈ region_months berlin_table (region_id_of 52.52 13.405)
  ∧ collect_satellite_data (april_env (mk_datetime 2024 4 25) None)
      "Berlin" 52.52 13.405 berlin_table = (Ok true, berlin_table, []).
Proof.
  split; [unfold wall_clock; simpl; lia|].
  assert (region_months berlin_table (region_id_of 52.52 13.405)
          = ["2024-03"; "2024-04"]) as Hm by by_vm.
  split; [rewrite Hm; right; left|].
  apply (recorded_current_month_makes_the_run_a_no_op
           (april_env (mk_datetime 2024 4 25) None)
           "Berlin" 52.52 13.405 berlin_table).
  - unfold wall_clock. simpl. lia.
  - reflexivity.
  - rewrite Hm. repeat constructor.
  - rewrite Hm. right. left.
Defined.

(* ===================================================================== *)
(** ** The two collection loops, window by window *)
(* ===================================================================== *)

Lemma window_record_run E latitude longitude first last :
  ∃ ev,
    _get_monthly_averaged_data E (Point longitude latitude)
      (Bounds (Buffer (Point longitude latitude) 5000)) first last 3 tt
    = (Ok (window_record E latitude longitude (first, last)), tt, ev)
    ∧ searches ev = [window_dates E (first, last)].
Proof.
  pose proof (aggregation_searches E (Point longitude latitude)
                (Bounds (Buffer (Point longitude latitude) 5000))
                first last 3) as Hs.
  destruct (monthly_aggregation_no_raise E (Point longitude latitude)
              (Bounds (Buffer (Point longitude latitude) 5000))
              first last 3) as [o Ho].
  unfold window_record. cbn [fst snd].
  destruct (_get_monthly_averaged_data _ _ _ _ _ _ _) as [[r []] ev].
  unfold events_of, value_of in *. cbn [fst snd] in *. subst r.
  exists ev. split; [reflexivity|exact Hs].
Qed.

Lemma is_failure_log_snoc ev lvl text exc :
  is_failure_log (last (ev ++ [Log lvl text exc])).
Proof. by rewrite last_snoc. Qed.

(** What a gap-fill run does when Earth Engine can be initialised: it
    searches the windows of the months in their order, up to the first
    month whose window cannot be computed; the records it appends are
    those of the months that have one, in the order of the months. *)
Lemma fill_missing_months_spec E region_id display_name latitude longitude
    months tbl :
  ee_initialize E = None →
  ∃ b new ev kept,
    _fill_missing_months E region_id display_name latitude longitude months tbl
      = (Ok b, tbl ++ new, ev)
    ∧ searches ev
      = map (window_dates E) (ok_prefix (map gap_fill_window months))
    ∧ sublist kept months
    ∧ Forall2 (λ s rec, ∃ w md,
                 gap_fill_window s = Ok w
                 ∧ window_record E latitude longitude w = Some md
                 ∧ rec = update md (gap_fill_tags E region_id display_name
                                      latitude longitude))
        kept new
    ∧ (b = true → new ≠ [])
    ∧ (b = false → new = [] ∧ is_failure_log (last ev)).
Proof.
  intros Hinit. unfold _fill_missing_months.
  match goal with |- context [for_each months ?f] => set (body := f) end.
  set (R := λ (s : string) (rec : dict), ∃ w md,
              gap_fill_window s = Ok w
              ∧ window_record E latitude longitude w = Some md
              ∧ rec = update md (gap_fill_tags E region_id display_name
                                   latitude longitude)).
  assert (∀ s acc, ∃ r acc' ev,
            body s acc = (r, acc', ev)
            ∧ match gap_fill_window s with
              | Ok w =>
                  r = Ok tt ∧ searches ev = [window_dates E w]
                  ∧ match window_record E latitude longitude w with
                    | Some md =>
                        acc' = acc ++ [update md
                                         (gap_fill_tags E region_id
                                            display_name latitude longitude)]
                    | None => acc' = acc
                    end
              | Raise _ => (∃ e, r = Raise e) ∧ searches ev = [] ∧ acc' = acc
              end) as Hbody.
  { intros s acc. unfold body, gap_fill_window, month_window. run_eff. cbv beta.
    destruct (strptime_Y_m s) as [d|e]; [|by eauto 10].
    destruct (replace d None None (Some 1)) as [first|e]; [|by eauto 10].
    destruct (monthrange_ndays _ _) as [last_day|e]; [|by eauto 10].
    destruct (replace d None None (Some last_day)) as [last|e]; [|by eauto 10].
    destruct (window_record_run E latitude longitude first last)
      as (ev & -> & Hs).
    destruct (window_record E latitude longitude (first, last)) as [md|];
      cbv beta iota.
    - eexists _, _, _. split; [reflexivity|]. split; [reflexivity|].
      split; [|reflexivity]. by rewrite !searches_app, !app_nil_r.
    - eexists _, _, _. split; [reflexivity|]. split; [reflexivity|].
      split; [|reflexivity]. rewrite !searches_app, Hs. reflexivity. }
  assert (∀ ms acc, ∃ r acc' ev kept new,
            for_each ms body acc = (r, acc', ev)
            ∧ searches ev
              = map (window_dates E) (ok_prefix (map gap_fill_window ms))
            ∧ acc' = acc ++ new
            ∧ sublist kept ms ∧ Forall2 R kept new) as Hloop.
  { induction ms as [|s ms IH]; intros acc.
    { exists (Ok tt), acc, [], [], []. rewrite app_nil_r.
      split_and!; try reflexivity; constructor. }
    rewrite for_each_cons. simpl map.
    destruct (Hbody s acc) as (r & acc1 & ev1 & -> & Hs).
    destruct (gap_fill_window s) as [w|e] eqn:Hw.
    - destruct Hs as (-> & Hs & Hacc).
      destruct (IH acc1) as (r2 & acc2 & ev2 & kept & new & -> & Hs2 & -> & Hk & HR).
      destruct (window_record E latitude longitude w) as [md|] eqn:Hmd.
      + subst acc1. eexists r2, _, _, (s :: kept), (_ :: new).
        split; [reflexivity|]. rewrite searches_app, Hs, Hs2.
        split; [reflexivity|]. rewrite <- app_assoc.
        split; [reflexivity|]. split; [by apply sublist_skip|].
        constructor; [|exact HR]. unfold R. eauto.
      + subst acc1. eexists r2, _, _, kept, new.
        split; [reflexivity|]. rewrite searches_app, Hs, Hs2.
        split; [reflexivity|]. split; [reflexivity|].
        split; [by apply sublist_cons|exact HR].
    - destruct Hs as ([e' ->] & Hs & ->).
      exists (Raise e'), acc, ev1, [], []. rewrite app_nil_r.
      split; [reflexivity|]. split; [exact Hs|]. split; [reflexivity|].
      split; [apply sublist_nil_l|constructor]. }
  clearbody body. unfold ee_Initialize. rewrite Hinit. run_eff.
  destruct (Hloop months []) as (r & acc' & ev & kept & new & -> & Hs & -> & Hk & HR).
  simpl app.
  destruct r as [[]|e].
  2:{ eexists false, [], _, []. rewrite (app_nil_r tbl).
      split; [reflexivity|]. split.
      { rewrite !searches_app, Hs. simpl. by rewrite app_nil_r. }
      split; [apply sublist_nil_l|]. split; [constructor|].
      split; [done|]. intros _. split; [reflexivity|].
      apply is_failure_log_snoc. }
  destruct new as [|rec new].
  { eexists false, [], _, []. rewrite (app_nil_r tbl).
    split; [reflexivity|]. split.
    { rewrite !searches_app, Hs. simpl. by rewrite app_nil_r. }
    split; [apply sublist_nil_l|]. split; [constructor|].
    split; [done|]. intros _. split; [reflexivity|].
    apply is_failure_log_snoc. }
  rewrite upload_to_bigquery_run.
  destruct (bq_load_error E (rec :: new)) as [e|].
  - eexists false, [], _, []. rewrite (app_nil_r tbl).
    split; [reflexivity|]. split.
    { rewrite !searches_app, Hs. simpl. by rewrite app_nil_r. }
    split; [apply sublist_nil_l|]. split; [constructor|].
    split; [done|]. intros _. split; [reflexivity|].
    apply is_failure_log_snoc.
  - eexists true, (rec :: new), _, kept.
    split; [reflexivity|]. split.
    { rewrite !searches_app, Hs. simpl. by rewrite app_nil_r. }
    split; [exact Hk|]. split; [exact HR|]. split; [done|discriminate].
Qed.

(** What a bootstrap run does when Earth Engine can be initialised: the
    records it appends are those of the offsets 0 to 5 whose window has
    one, in this order. *)
Lemma collect_satellite_data_monthly_spec E region_id display_name
    latitude longitude tbl :
  ee_initialize E = None →
  ∃ b new ev kept,
    collect_satellite_data_monthly E region_id display_name
      latitude longitude tbl = (Ok b, tbl ++ new, ev)
    ∧ sublist kept [0; 1; 2; 3; 4; 5]
    ∧ Forall2 (λ k rec, ∃ w md,
                 bootstrap_window E k = Ok w
                 ∧ window_record E latitude longitude w = Some md
                 ∧ rec = update md (bootstrap_tags E region_id display_name
                                      latitude longitude))
        kept new
    ∧ (b = true → new ≠ [])
    ∧ (b = false → new = [] ∧ is_failure_log (last ev)).
Proof.
  intros Hinit. unfold collect_satellite_data_monthly.
  match goal with |- context [for_each ?ks ?f] => set (body := f) end.
  set (R := λ (k : Z) (md : dict), ∃ w,
              bootstrap_window E k = Ok w
              ∧ window_record E latitude longitude w = Some md).
  assert (∀ k acc, ∃ r acc' ev,
            body k acc = (r, acc', ev)
            ∧ match bootstrap_window E k with
              | Ok w =>
                  r = Ok tt
                  ∧ match window_record E latitude longitude w with
                    | Some md => acc' = acc ++ [md]
                    | None => acc' = acc
                    end
              | Raise _ => (∃ e, r = Raise e) ∧ acc' = acc
              end) as Hbody.
  { intros k acc. unfold body, bootstrap_window, month_window. run_eff. cbv beta.
    destruct (sub_days (now E) (30 * k)) as [d|e]; [|by eauto 10].
    destruct (replace d None None (Some 1)) as [first|e]; [|by eauto 10].
    destruct (monthrange_ndays _ _) as [last_day|e]; [|by eauto 10].
    destruct (replace d None None (Some last_day)) as [last|e]; [|by eauto 10].
    destruct (window_record_run E latitude longitude first last)
      as (ev & -> & Hs).
    destruct (window_record E latitude longitude (first, last)) as [md|];
      cbv beta iota.
    - eexists _, _, _. split; [reflexivity|]. split; reflexivity.
    - eexists _, _, _. split; [reflexivity|]. split; reflexivity. }
  assert (∀ ks acc, ∃ r acc' ev kept new,
            for_each ks body acc = (r, acc', ev)
            ∧ acc' = acc ++ new
            ∧ sublist kept ks ∧ Forall2 R kept new) as Hloop.
  { induction ks as [|k ks IH]; intros acc.
    { exists (Ok tt), acc, [], [], []. rewrite app_nil_r.
      split_and!; try reflexivity; constructor. }
    rewrite for_each_cons.
    destruct (Hbody k acc) as (r & acc1 & ev1 & -> & Hs).
    destruct (bootstrap_window E k) as [w|e] eqn:Hw.
    - destruct Hs as (-> & Hacc).
      destruct (IH acc1) as (r2 & acc2 & ev2 & kept & new & -> & -> & Hk & HR).
      destruct (window_record E latitude longitude w) as [md|] eqn:Hmd.
      + subst acc1. eexists r2, _, _, (k :: kept), (_ :: new).
        split; [reflexivity|]. rewrite <- app_assoc.
        split; [reflexivity|]. split; [by apply sublist_skip|].
        constructor; [|exact HR]. unfold R. eauto.
      + subst acc1. eexists r2, _, _, kept, new.
        split; [reflexivity|]. split; [reflexivity|].
        split; [by apply sublist_cons|exact HR].
    - destruct Hs as ([e' ->] & ->).
      exists (Raise e'), acc, ev1, [], []. rewrite app_nil_r.
      split; [reflexivity|]. split; [reflexivity|].
      split; [apply sublist_nil_l|constructor]. }
  clearbody body. unfold ee_Initialize. rewrite Hinit. run_eff.
  destruct (Hloop [0; 1; 2; 3; 4; 5] [])
    as (r & acc' & ev & kept & new & -> & -> & Hk & HR).
  simpl app.
  destruct r as [[]|e].
  2:{ eexists false, [], _, []. rewrite (app_nil_r tbl).
      split; [reflexivity|].
      split; [apply sublist_nil_l|]. split; [constructor|].
      split; [done|]. intros _. split; [reflexivity|].
      apply is_failure_log_snoc. }
  destruct new as [|rec new].
  { eexists false, [], _, []. rewrite (app_nil_r tbl).
    split; [reflexivity|].
    split; [apply sublist_nil_l|]. split; [constructor|].
    split; [done|]. intros _. split; [reflexivity|].
    apply is_failure_log_snoc. }
  rewrite upload_to_bigquery_run.
  match goal with |- context [bq_load_error E ?rows] =>
    destruct (bq_load_error E rows) as [e|] end.
  - eexists false, [], _, []. rewrite (app_nil_r tbl).
    split; [reflexivity|].
    split; [apply sublist_nil_l|]. split; [constructor|].
    split; [done|]. intros _. split; [reflexivity|].
    apply is_failure_log_snoc.
  - eexists true, _, _, kept.
    split; [reflexivity|]. split; [exact Hk|]. split.
    { apply Forall2_fmap_r. eapply Forall2_impl; [exact HR|].
      intros k md (w & Hw & Hmd). exists w, md. done. }
    split; [done|discriminate].
Qed.

(** When Earth Engine cannot be initialised, neither loop starts. *)
Lemma fill_missing_months_no_engine E region_id display_name
    latitude longitude months tbl e :
  ee_initialize E = Some e →
  _fill_missing_months E region_id display_name latitude longitude months tbl
  = (Ok false, tbl, [Log ERROR "Failed to fill missing months: " (Some e)]).
Proof.
  intros Hinit. unfold _fill_missing_months, ee_Initialize. rewrite Hinit.
  reflexivity.
Qed.

Lemma collect_satellite_data_monthly_no_engine E region_id display_name
    latitude longitude tbl e :
  ee_initialize E = Some e →
  collect_satellite_data_monthly E region_id display_name
    latitude longitude tbl
  = (Ok false, tbl,
     [Log ERROR ("Monthly collection failed for " +:+ display_name +:+ ": ")
        (Some e)]).
Proof.
  intros Hinit. unfold collect_satellite_data_monthly, ee_Initialize.
  rewrite Hinit. reflexivity.
Qed.

(* ===================================================================== *)
(** ** The windows of a gap-fill run *)
(* ===================================================================== *)

Lemma monthrange_ndays_days_in_month y m :
  1 <= m <= 12 → monthrange_ndays y m = Ok (_days_in_month y m).
Proof.
  intros Hm. unfold monthrange_ndays, _days_in_month.
  replace ((1 <=? m) && (m <=? 12)) with true by lia. simpl.
  destruct (m =? 2) eqn:H2; simpl; [|by rewrite Z.add_0_r].
  assert (m = 2) as -> by lia. by destruct (_is_leap y).
Qed.

(** The window of a date is the whole month of the date. *)
Lemma month_window_whole_month d :
  1 <= year d <= 9999 → 1 <= month d <= 12 →
  month_window d = Ok (whole_month d).
Proof.
  intros Hy Hm. unfold month_window, replace. simpl.
  pose proof (days_in_month_pos (year d) (month d) Hm) as Hdim.
  rewrite monthrange_ndays_days_in_month by exact Hm.
  unfold new_datetime, MINYEAR, MAXYEAR.
  replace ((1 <=? year d) && (year d <=? 9999)) with true by lia.
  replace ((1 <=? month d) && (month d <=? 12)) with true by lia.
  replace ((1 <=? 1) && (1 <=? _days_in_month (year d) (month d)))
    with true by lia.
  replace ((1 <=? _days_in_month (year d) (month d))
           && (_days_in_month (year d) (month d)
               <=? _days_in_month (year d) (month d)))
    with true by lia.
  reflexivity.
Qed.

Lemma wall_clock_of_index k :
  12000 <= k <= 12 * 9999 + 11 → wall_clock (month_of_index k).
Proof.
  intros Hk. unfold wall_clock, month_of_index. simpl.
  pose proof (Z.div_mod k 12 ltac:(lia)).
  pose proof (Z.mod_pos_bound k 12 ltac:(lia)). lia.
Qed.

Lemma strptime_of_index E k :
  12000 <= k <= 12 * 9999 + 11 →
  strptime_Y_m (strftime_Ym E (month_of_index k)) = Ok (month_of_index k).
Proof.
  intros Hk. by rewrite strptime_strftime by by apply wall_clock_of_index.
Qed.

(** The window the gap-fill loop computes for the month string of a
    month is the whole month. *)
Lemma gap_fill_window_of_index E k :
  12000 <= k <= 12 * 9999 + 11 →
  gap_fill_window (strftime_Ym E (month_of_index k))
  = Ok (whole_month (month_of_index k)).
Proof.
  intros Hk. unfold gap_fill_window. rewrite strptime_of_index by exact Hk.
  destruct (wall_clock_of_index k Hk) as [Hy Hm].
  apply month_window_whole_month; lia.
Qed.

(** The gap enumeration between two months, by indices. *)
Lemma get_missing_months_indices E latest current l c :
  strptime_Y_m latest = Ok l → strptime_Y_m current = Ok c →
  datetime_ltb l c = true →
  _get_missing_months E latest current tt
  = (Ok (map (λ k, strftime_Ym E (month_of_index k))
           (seqZ (month_index l + 1) (month_index c - month_index l))),
     tt, [])
  ∧ month_index l < month_index c.
Proof.
  intros Hl Hc Hlt.
  pose proof (strptime_Y_m_Ok _ _ Hl) as Vl.
  pose proof (strptime_Y_m_Ok _ _ Hc) as Vc.
  pose proof (month_index_range _ Vl). pose proof (month_index_range _ Vc).
  assert (month_index l < month_index c) as Hn.
  { rewrite <- (month_of_index_index l Vl), <- (month_of_index_index c Vc) in Hlt.
    rewrite datetime_ltb_of_index in Hlt. by apply bool_decide_eq_true in Hlt. }
  split; [|exact Hn].
  unfold _get_missing_months. run_eff. rewrite Hl, Hc.
  replace (datetime_leb c l) with false.
  2:{ rewrite <- (month_of_index_index l Vl), <- (month_of_index_index c Vc).
      rewrite datetime_leb_of_index. symmetry. apply bool_decide_eq_false. lia. }
  rewrite <- (month_of_index_index l Vl) at 1.
  rewrite <- (month_of_index_index c Vc) at 1.
  rewrite (loop_of_index E (Z.to_nat (month_index c - month_index l))) by lia.
  simpl. rewrite Z2Nat.id by lia. reflexivity.
Qed.

Lemma ok_prefix_all_ok {A B} (f : A → result B) (g : A → B) l :
  (∀ x, x ∈ l → f x = Ok (g x)) → ok_prefix (map f l) = map g l.
Proof.
  induction l as [|x l IH]; intros H; [reflexivity|]. simpl.
  rewrite (H x) by left. f_equal. apply IH. intros y Hy. apply H. by right.
Qed.

(** X3: a run that finds a latest month [l] before the current month
    searches every month after [l] up to the current one, each once, in
    chronological order, each over its whole calendar month; what Earth
    Engine answers and whether the load succeeds change nothing to it. *)
Theorem gap_fill_searches_every_missing_month
    E name latitude longitude tbl latest l :
  wall_clock (now E) →
  ee_initialize E = None →
  latest_recorded_month E tbl (region_id_of latitude longitude) = Some latest →
  strptime_Y_m latest = Ok l →
  1000 <= year l →
  datetime_ltb l (first_of_month (now E)) = true →
  searches (events_of (collect_satellite_data E name latitude longitude tbl))
  = map (λ k, window_dates E (whole_month (month_of_index k)))
      (seqZ (month_index l + 1) (month_index (now E) - month_index l)).
Proof.
  intros Hclock Hinit Hlatest Hl Hy Hlt.
  pose proof (strptime_strftime E (now E) Hclock) as Hc.
  destruct (get_missing_months_indices E latest (strftime_Ym E (now E)) l
              (first_of_month (now E)) Hl Hc Hlt) as [Hgap Hn].
  change (month_index (first_of_month (now E))) with (month_index (now E))
    in Hgap, Hn.
  pose proof (strptime_Y_m_Ok _ _ Hl) as (_ & Hml & _).
  assert (12000 <= month_index l + 1) as Hlo by (unfold month_index; lia).
  assert (month_index (now E) <= 12 * 9999 + 11) as Hhi.
  { destruct Hclock. unfold month_index. lia. }
  set (ks := seqZ (month_index l + 1) (month_index (now E) - month_index l))
    in *.
  unfold collect_satellite_data, collect_with_gap_filling.
  fold (region_id_of latitude longitude). run_eff.
  rewrite (latest_recorded_month_Some _ _ _ _ Hlatest), Hgap.
  destruct (map (λ k, strftime_Ym E (month_of_index k)) ks)
    as [|m months] eqn:Hmonths.
  { exfalso. apply (f_equal length) in Hmonths.
    rewrite length_map in Hmonths. unfold ks in Hmonths.
    rewrite length_seqZ in Hmonths. simpl in Hmonths. lia. }
  rewrite <- Hmonths. clear Hmonths.
  destruct (fill_missing_months_spec E (region_id_of latitude longitude) name
              latitude longitude
              (map (λ k, strftime_Ym E (month_of_index k)) ks) tbl Hinit)
    as (b & new & ev & kept & -> & Hs & _).
  unfold events_of. cbn [fst snd]. simpl app.
  rewrite Hs, <- list_fmap_compose.
  rewrite (ok_prefix_all_ok _ (λ k, whole_month (month_of_index k))).
  - by rewrite <- list_fmap_compose.
  - intros k Hk. unfold ks in Hk. apply elem_of_seqZ in Hk.
    apply gap_fill_window_of_index. lia.
Qed.

Lemma gap_fill_searches_every_missing_month_witness :
  wall_clock (mk_datetime 2024 6 15)
  ∧ strptime_Y_m "2024-03" = Ok (mk_datetime 2024 3 1)
  ∧ searches (events_of (collect_satellite_data
                           (april_env (mk_datetime 2024 6 15) None)
                           "Berlin" 52.52 13.405 [march_row]))
    = [("2024-04-01", "2024-04-30");
       ("2024-05-01", "2024-05-31");
       ("2024-06-01", "2024-06-30")].
Proof.
  split; [unfold wall_clock; simpl; lia|]. split; [reflexivity|].
  apply (gap_fill_searches_every_missing_month
           (april_env (mk_datetime 2024 6 15) None)
           "Berlin" 52.52 13.405 [march_row] "2024-03"
           (mk_datetime 2024 3 1)).
  - unfold wall_clock. simpl. lia.
  - reflexivity.
  - by_vm.
  - reflexivity.
  - simpl. lia.
  - reflexivity.
Defined.

(* ===================================================================== *)
(** ** The outcome of a run *)
(* ===================================================================== *)

Lemma is_failure_log_app ev1 ev2 :
  is_failure_log (last ev2) → is_failure_log (last (ev1 ++ ev2)).
Proof.
  destruct ev2 as [|x ev2] using rev_ind; [done|].
  rewrite app_assoc, !last_snoc. done.
Qed.

Lemma collect_satellite_data_spec E name latitude longitude tbl :
  ∃ b new ev,
    collect_satellite_data E name latitude longitude tbl
      = (Ok b, tbl ++ new, ev)
    ∧ Forall (run_record E name latitude longitude) new
    ∧ (b = true → new = [] → searches ev = [])
    ∧ (b = false → new = [] ∧ is_failure_log (last ev)).
Proof.
  set (region_id := region_id_of latitude longitude).
  assert (∃ b new ev,
            collect_satellite_data_monthly E region_id name latitude longitude
              tbl = (Ok b, tbl ++ new, ev)
            ∧ Forall (run_record E name latitude longitude) new
            ∧ (b = true → new ≠ [])
            ∧ (b = false → new = [] ∧ is_failure_log (last ev))) as Hboot.
  { destruct (ee_initialize E) as [e|] eqn:Hinit.
    - rewrite (collect_satellite_data_monthly_no_engine _ _ _ _ _ _ e Hinit).
      eexists false, [], _. rewrite app_nil_r. split; [reflexivity|].
      split; [constructor|]. split; [done|]. intros _. split; done.
    - destruct (collect_satellite_data_monthly_spec E region_id name latitude
                  longitude tbl Hinit)
        as (b & new & ev & kept & -> & _ & HR & Ht & Hf).
      exists b, new, ev. split; [reflexivity|]. split; [|done].
      eapply Forall2_Forall_r; [exact HR|]. apply Forall_true.
      intros k rec (w & md & _ & Hmd & ->). exists w, md. eauto. }
  assert (∀ months, ∃ b new ev,
            _fill_missing_months E region_id name latitude longitude months
              tbl = (Ok b, tbl ++ new, ev)
            ∧ Forall (run_record E name latitude longitude) new
            ∧ (b = true → new ≠ [])
            ∧ (b = false → new = [] ∧ is_failure_log (last ev))) as Hfill.
  { intros months. destruct (ee_initialize E) as [e|] eqn:Hinit.
    - rewrite (fill_missing_months_no_engine _ _ _ _ _ _ _ e Hinit).
      eexists false, [], _. rewrite app_nil_r. split; [reflexivity|].
      split; [constructor|]. split; [done|]. intros _. split; done.
    - destruct (fill_missing_months_spec E region_id name latitude
                  longitude months tbl Hinit)
        as (b & new & ev & kept & -> & _ & _ & HR & Ht & Hf).
      exists b, new, ev. split; [reflexivity|]. split; [|done].
      eapply Forall2_Forall_r; [exact HR|]. apply Forall_true.
      intros k rec (w & md & _ & Hmd & ->). exists w, md. eauto. }
  unfold collect_satellite_data, collect_with_gap_filling.
  fold (region_id_of latitude longitude). fold region_id. run_eff.
  rewrite get_latest_data_month_run.
  destruct (bq_query_error E) as [e|].
  { destruct Hboot as (b & new & ev & -> & HR & Ht & Hf).
    eexists b, new, _. split; [reflexivity|]. split; [exact HR|]. split.
    - intros Hb Hn. by destruct (Ht Hb).
    - intros Hb. destruct (Hf Hb) as [-> Hlog]. split; [reflexivity|].
      by apply is_failure_log_app. }
  destruct (max_acquisition_month tbl region_id) as [latest|].
  2:{ destruct Hboot as (b & new & ev & -> & HR & Ht & Hf).
      eexists b, new, _. split; [reflexivity|]. split; [exact HR|]. split.
      - intros Hb Hn. by destruct (Ht Hb).
      - intros Hb. destruct (Hf Hb) as [-> Hlog]. split; [reflexivity|].
        by apply is_failure_log_app. }
  destruct (get_missing_months_total E latest (strftime_Ym E (now E)))
    as (months & ev1 & -> & Hlogs).
  destruct months as [|m months].
  { eexists true, [], _. rewrite (app_nil_r tbl). split; [reflexivity|].
    split; [constructor|]. split; [|done]. intros _ _.
    rewrite !searches_app. rewrite (searches_logs ev1 Hlogs). reflexivity. }
  destruct (Hfill (m :: months)) as (b & new & ev & -> & HR & Ht & Hf).
  eexists b, new, _. split; [reflexivity|]. split; [exact HR|]. split.
  - intros Hb Hn. by destruct (Ht Hb).
  - intros Hb. destruct (Hf Hb) as [-> Hlog]. split; [reflexivity|].
    apply is_failure_log_app. by apply is_failure_log_app.
Qed.

(** X4: a run never raises and only appends.  When it returns false it
    appended nothing and the last thing it did was to log a warning or an
    error; when it returns true it appended at least one record, or it
    sent no search at all. *)
Theorem run_result_tells_what_was_written E name latitude longitude tbl :
  ∃ b new ev,
    collect_satellite_data E name latitude longitude tbl
      = (Ok b, tbl ++ new, ev)
    ∧ (b = false → new = [] ∧ is_failure_log (last ev))
    ∧ (b = true → new ≠ [] ∨ searches ev = []).
Proof.
  destruct (collect_satellite_data_spec E name latitude longitude tbl)
    as (b & new & ev & Hrun & _ & Ht & Hf).
  exists b, new, ev. split; [exact Hrun|]. split; [exact Hf|].
  intros Hb. destruct new as [|rec new]; [right; by apply Ht|by left].
Qed.

Lemma window_record_inv E latitude longitude w md :
  window_record E latitude longitude w = Some md →
  value_of (_get_monthly_averaged_data E (Point longitude latitude)
              (Bounds (Buffer (Point longitude latitude) 5000))
              w.1 w.2 3 tt) = Ok (Some md).
Proof.
  unfold window_record.
  destruct (value_of _) as [o|e]; [by intros ->|done].
Qed.

Lemma window_record_fields E latitude longitude w md :
  window_record E latitude longitude w = Some md →
  md !! "acquisition_month" = Some (VStr (strftime_Ym E w.1))
  ∧ md !! "acquisition_date" = None
  ∧ md !! "region_id" = None
  ∧ md !! "region_name" = None.
Proof.
  intros Ho%window_record_inv%monthly_record_inv.
  destruct Ho as (imgs & _ & std & _ & _ & ->). split_and!; reflexivity.
Qed.

Lemma run_record_fields E name latitude longitude rec :
  run_record E name latitude longitude rec →
  rec !! "region_id" = Some (VStr (region_id_of latitude longitude))
  ∧ rec !! "region_name" = Some (VStr name)
  ∧ rec !! "acquisition_date" = None
  ∧ ∃ w, is_Some (window_record E latitude longitude w)
         ∧ rec !! "acquisition_month" = Some (VStr (strftime_Ym E w.1)).
Proof.
  intros (w & md & Hmd & Hrec).
  destruct (window_record_fields _ _ _ _ _ Hmd) as (Hm & Hd & _).
  destruct Hrec as [-> | ->].
  - split_and!; try by apply update_lookup_new.
    + by rewrite update_lookup_old.
    + exists w. split; [by eexists|]. by rewrite update_lookup_old.
  - split_and!; try by apply update_lookup_new.
    + by rewrite update_lookup_old.
    + exists w. split; [by eexists|]. by rewrite update_lookup_old.
Qed.

Lemma rows_named_app tbl tbl' name :
  rows_named (tbl ++ tbl') name = rows_named tbl name ++ rows_named tbl' name.
Proof. unfold rows_named. apply List.filter_app. Qed.

Lemma rows_named_all tbl name :
  Forall (λ row : dict, row !! "region_name" = Some (VStr name)) tbl →
  rows_named tbl name = tbl.
Proof.
  induction 1 as [|row tbl Hrow _ IH]; [reflexivity|].
  unfold rows_named in *. simpl. rewrite Hrow, String.eqb_refl.
  by rewrite IH.
Qed.

(** X5: the rows a run appends all carry the display name the gate counts
    by: after a run, the gate sees the rows it saw before and every
    appended row, and asks for a collection exactly when these are fewer
    than 3. *)
Theorem gate_counts_what_the_run_appends E name latitude longitude tbl :
  ∃ new,
    state_of (collect_satellite_data E name latitude longitude tbl)
      = tbl ++ new
    ∧ rows_named (tbl ++ new) name = rows_named tbl name ++ new
    ∧ (bq_query_error E = None →
       value_of (should_collect_data E name (tbl ++ new))
       = Ok (Z.of_nat (length (rows_named tbl name))
             + Z.of_nat (length new) <? 3)).
Proof.
  destruct (collect_satellite_data_spec E name latitude longitude tbl)
    as (b & new & ev & Hrun & HR & _).
  exists new. rewrite Hrun. split; [reflexivity|].
  assert (rows_named (tbl ++ new) name = rows_named tbl name ++ new) as Hrows.
  { rewrite rows_named_app. f_equal. apply rows_named_all.
    eapply Forall_impl; [exact HR|]. intros rec Hrec.
    by destruct (run_record_fields _ _ _ _ _ Hrec) as (_ & ? & _). }
  split; [exact Hrows|]. intros Hq.
  rewrite should_collect_data_run, Hq, Hrows, length_app.
  unfold value_of. cbn [fst snd]. do 2 f_equal. lia.
Qed.

Lemma max_acquisition_date_none rows :
  Forall (λ row : dict, row !! "acquisition_date" = None) rows →
  max_acquisition_date rows = "None".
Proof.
  intros H. unfold max_acquisition_date.
  replace (omap _ rows) with ([] : list string); [reflexivity|].
  induction H as [|row rows Hrow _ IH]; [reflexivity|].
  simpl. by rewrite Hrow.
Qed.

Lemma rows_named_Forall (P : dict → Prop) tbl name :
  Forall P tbl → Forall P (rows_named tbl name).
Proof.
  intros H. unfold rows_named. rewrite Forall_forall in *.
  intros row Hin. apply H. rewrite list_elem_of_In in *.
  by apply List.filter_In in Hin as [? _].
Qed.

(** X6: the collector writes [acquisition_month] and never
    [acquisition_date], the column the summary takes its latest date
    from: on a table where no row has that column a run adds none that
    has it, and the summary of a name that has rows reads
    'latest: None'. *)
Theorem summary_has_no_latest_date E name latitude longitude tbl :
  Forall (λ row : dict, row !! "acquisition_date" = None) tbl →
  let tbl' :=
    state_of (collect_satellite_data E name latitude longitude tbl) in
  Forall (λ row : dict, row !! "acquisition_date" = None) tbl'
  ∧ (bq_query_error E = None →
     ∀ region_name,
       rows_named tbl' region_name ≠ [] →
       get_data_summary E region_name tbl'
       = (Ok ("Found "
              +:+ str_int (Z.of_nat (length (rows_named tbl' region_name)))
              +:+ " records for " +:+ region_name +:+ ", latest: None"),
          tbl', [])).
Proof.
  intros Htbl tbl'.
  assert (Forall (λ row : dict, row !! "acquisition_date" = None) tbl')
    as Htbl'.
  { subst tbl'.
    destruct (collect_satellite_data_spec E name latitude longitude tbl)
      as (b & new & ev & -> & HR & _).
    unfold state_of. cbn [fst snd]. apply Forall_app. split; [exact Htbl|].
    eapply Forall_impl; [exact HR|]. intros rec Hrec.
    by destruct (run_record_fields _ _ _ _ _ Hrec) as (_ & _ & ? & _). }
  split; [exact Htbl'|]. clearbody tbl'. intros Hq region_name Hrows.
  unfold get_data_summary, bq_query. rewrite Hq. run_eff. cbv beta iota zeta.
  rewrite (max_acquisition_date_none (rows_named tbl' region_name))
    by by apply rows_named_Forall.
  destruct (rows_named tbl' region_name) as [|row rows] eqn:Hr; [done|].
  replace (Z.of_nat (length (row :: rows)) =? 0) with false; [reflexivity|].
  symmetry. apply Z.eqb_neq. simpl. lia.
Qed.

Lemma summary_has_no_latest_date_witness :
  Forall (λ row : dict, row !! "acquisition_date" = None) [march_row]
  ∧ get_data_summary (april_env (mk_datetime 2024 6 15) None) "Berlin"
      [march_row; april_gap_fill_row]
    = (Ok "Found 2 records for Berlin, latest: None",
       [march_row; april_gap_fill_row], []).
Proof.
  assert (Forall (λ row : dict, row !! "acquisition_date" = None) [march_row])
    as Hm by (repeat constructor).
  split; [exact Hm|].
  pose proof (proj2 (summary_has_no_latest_date
                       (april_env (mk_datetime 2024 6 15) None)
                       "Berlin" 52.52 13.405 [march_row] Hm)
                eq_refl "Berlin") as H.
  rewrite april_gap_fill_run in H. unfold state_of in H. cbn [fst snd] in H.
  apply H. intros Hn. apply (f_equal length) in Hn.
  vm_compute in Hn. discriminate.
Defined.

(** X7: when the read of the latest month fails, the run returns and
    writes what the bootstrap of a region without history does; its
    searches and its log records of level WARNING or ERROR are the ERROR
    record of the failed read followed by those of the bootstrap. *)
Theorem unreadable_table_means_bootstrap E name latitude longitude tbl e :
  bq_query_error E = Some e →
  let region_id := region_id_of latitude longitude in
  let boot :=
    collect_satellite_data_monthly E region_id name latitude longitude tbl in
  collect_satellite_data E name latitude longitude tbl
  = (value_of boot, state_of boot,
     Log ERROR ("Failed to get latest month for region " +:+ region_id
                +:+ ": ") (Some e) :: events_of boot).
Proof.
  intros Hq region_id boot. subst boot.
  destruct (collect_satellite_data_monthly_run E region_id name latitude
              longitude tbl) as (b & new & ev & Hrun & _).
  unfold collect_satellite_data, collect_with_gap_filling.
  fold (region_id_of latitude longitude). fold region_id. run_eff.
  rewrite get_latest_data_month_run, Hq, Hrun.
  unfold value_of, state_of, events_of. cbn [fst snd]. simpl.
  by rewrite ?app_nil_r.
Qed.

Lemma unreadable_table_means_bootstrap_witness :
  let E := unreadable_env (mk_datetime 2024 6 15) in
  let boot :=
    collect_satellite_data_monthly E (region_id_of 52.52 13.405) "Berlin"
      52.52 13.405 berlin_table in
  collect_satellite_data E "Berlin" 52.52 13.405 berlin_table
  = (value_of boot, state_of boot,
     Log ERROR ("Failed to get latest month for region "
                +:+ region_id_of 52.52 13.405 +:+ ": ")
       (Some (ServiceError "no access")) :: events_of boot).
Proof.
  apply (unreadable_table_means_bootstrap
           (unreadable_env (mk_datetime 2024 6 15))
           "Berlin" 52.52 13.405 berlin_table (ServiceError "no access")).
  reflexivity.
Defined.

(** X8: when Earth Engine cannot be initialised, a run sends no search
    and writes nothing; it returns true only when it had no month to
    collect, and otherwise false, the last record of its log being the
    error of the initialisation. *)
Theorem without_earth_engine_nothing_happens E name latitude longitude tbl e :
  ee_initialize E = Some e →
  ∃ b ev,
    collect_satellite_data E name latitude longitude tbl = (Ok b, tbl, ev)
    ∧ searches ev = []
    ∧ (b = true
       ↔ planned_windows E tbl (region_id_of latitude longitude) = [])
    ∧ (b = false → ∃ text, last ev = Some (Log ERROR text (Some e))).
Proof.
  intros Hinit. set (region_id := region_id_of latitude longitude).
  unfold collect_satellite_data, collect_with_gap_filling.
  fold (region_id_of latitude longitude). fold region_id.
  unfold planned_windows, latest_recorded_month. run_eff.
  rewrite get_latest_data_month_run.
  destruct (bq_query_error E) as [eq|]; cbn [value_of fst snd].
  { rewrite (collect_satellite_data_monthly_no_engine _ _ _ _ _ _ e Hinit).
    eexists false, _. split; [reflexivity|]. split; [reflexivity|].
    split; [split; discriminate|]. intros _. eexists. reflexivity. }
  destruct (max_acquisition_month tbl region_id) as [latest|].
  2:{ rewrite (collect_satellite_data_monthly_no_engine _ _ _ _ _ _ e Hinit).
      eexists false, _. split; [reflexivity|]. split; [reflexivity|].
      split; [split; discriminate|]. intros _. eexists. reflexivity. }
  destruct (get_missing_months_total E latest (strftime_Ym E (now E)))
    as (months & ev1 & -> & Hlogs). cbn [value_of fst snd].
  destruct months as [|m months].
  { eexists true, _. split; [reflexivity|]. split.
    { rewrite !searches_app, (searches_logs ev1 Hlogs). reflexivity. }
    split; [done|discriminate]. }
  rewrite (fill_missing_months_no_engine _ _ _ _ _ _ _ e Hinit).
  eexists false, _. split; [reflexivity|]. split.
  { rewrite !searches_app, (searches_logs ev1 Hlogs). reflexivity. }
  split; [split; discriminate|]. intros _. eexists.
  simpl. apply last_snoc.
Qed.

Lemma without_earth_engine_nothing_happens_witness :
  ∃ b ev,
    collect_satellite_data (signed_out_env (mk_datetime 2024 6 15))
      "Berlin" 52.52 13.405 berlin_table = (Ok b, berlin_table, ev)
    ∧ searches ev = []
    ∧ (b = false →
       ∃ text,
         last ev = Some (Log ERROR text (Some (ServiceError "not signed in")))).
Proof.
  destruct (without_earth_engine_nothing_happens
              (signed_out_env (mk_datetime 2024 6 15))
              "Berlin" 52.52 13.405 berlin_table
              (ServiceError "not signed in") eq_refl)
    as (b & ev & Hrun & Hs & _ & Hf).
  exists b, ev. split; [exact Hrun|]. split; [exact Hs|exact Hf].
Defined.

(* ===================================================================== *)
(** ** One record per region and month *)
(* ===================================================================== *)

Lemma four_digit_years_all :
  forallb (λ y, String.eqb (zfill 4 y) (str_int y)) (seqZ 1000 9000) = true.
Proof. vm_compute. reflexivity. Qed.

(** From the year 1000 on the platform's [%Y] plays no part. *)
Lemma strftime_Ym_four_digits E d :
  1000 <= year d <= 9999 → strftime_Ym E d = strftime_Y_m true d.
Proof.
  intros Hy. unfold strftime_Ym, strftime_Y_m, strftime_Y.
  destruct (strftime_pads_year E); [reflexivity|].
  pose proof four_digit_years_all as H.
  rewrite forallb_forall in H. specialize (H (year d)).
  rewrite <- list_elem_of_In, elem_of_seqZ in H.
  rewrite (proj1 (String.eqb_eq _ _) (H ltac:(lia))). reflexivity.
Qed.

Lemma canonical_of_index E k :
  12000 <= k <= 12 * 9999 + 11 →
  canonical_month (strftime_Ym E (month_of_index k)) = true
  ∧ month_key (strftime_Ym E (month_of_index k)) = k.
Proof.
  intros Hk. unfold canonical_month, month_key.
  rewrite strptime_of_index by exact Hk.
  destruct (wall_clock_of_index k Hk) as [Hy Hm].
  rewrite strftime_Ym_four_digits by exact Hy.
  split; [apply String.eqb_refl|apply month_index_of_index].
Qed.

Lemma region_months_app tbl tbl' region_id :
  region_months (tbl ++ tbl') region_id
  = region_months tbl region_id ++ region_months tbl' region_id.
Proof. unfold region_months. apply omap_app. Qed.

(** The months of the records a gap-fill run appends are the month
    strings it kept. *)
Lemma gap_fill_months E name latitude longitude ks kept new :
  (∀ k, k ∈ ks → 12000 <= k <= 12 * 9999 + 11) →
  kept ⊆ map (λ k, strftime_Ym E (month_of_index k)) ks →
  Forall2 (λ s rec, ∃ w md,
             gap_fill_window s = Ok w
             ∧ window_record E latitude longitude w = Some md
             ∧ rec = update md
                       (gap_fill_tags E (region_id_of latitude longitude)
                          name latitude longitude))
    kept new →
  region_months new (region_id_of latitude longitude) = kept.
Proof.
  intros Hks Hsub HR. induction HR as [|s rec kept new Hrec _ IH];
    [reflexivity|].
  assert (s ∈ map (λ k, strftime_Ym E (month_of_index k)) ks) as Hs
    by (apply Hsub; left).
  apply list_elem_of_fmap in Hs. destruct Hs as (k & -> & Hk).
  destruct Hrec as (w & md & Hw & Hmd & ->).
  rewrite gap_fill_window_of_index in Hw by by apply Hks.
  injection Hw as <-.
  destruct (window_record_fields _ _ _ _ _ Hmd) as (Hm & _).
  unfold region_months in *. cbn [omap list_omap].
  rewrite (update_lookup_new md _ "region_id"
             (VStr (region_id_of latitude longitude))) by reflexivity.
  rewrite update_lookup_old by reflexivity. rewrite Hm.
  rewrite String.eqb_refl. simpl. f_equal.
  apply IH. intros x Hx. apply Hsub. by right.
Qed.

(** X9: on a table where the months recorded for the region are canonical
    month strings, no two the same, a run that finds a latest month keeps
    it so: the month of every record it appends is canonical and was not
    recorded yet, and no two appended records are of the same month. *)
Theorem gap_fill_keeps_one_record_per_month
    E name latitude longitude tbl latest l :
  wall_clock (now E) →
  latest_recorded_month E tbl (region_id_of latitude longitude) = Some latest →
  strptime_Y_m latest = Ok l →
  1000 <= year l →
  Forall (λ s, canonical_month s = true)
    (region_months tbl (region_id_of latitude longitude)) →
  NoDup (region_months tbl (region_id_of latitude longitude)) →
  let tbl' :=
    state_of (collect_satellite_data E name latitude longitude tbl) in
  Forall (λ s, canonical_month s = true)
    (region_months tbl' (region_id_of latitude longitude))
  ∧ NoDup (region_months tbl' (region_id_of latitude longitude)).
Proof.
  intros Hclock Hlatest Hl Hy Hcan Hnodup tbl'. subst tbl'.
  set (region_id := region_id_of latitude longitude) in *.
  pose proof (strptime_strftime E (now E) Hclock) as Hc.
  pose proof (strptime_Y_m_Ok _ _ Hl) as Vl.
  assert (month_start (first_of_month (now E))) as Vc.
  { destruct Hclock. split; simpl; lia. }
  assert (bq_query_error E = None) as Hq.
  { unfold latest_recorded_month in Hlatest.
    rewrite get_latest_data_month_run in Hlatest.
    by destruct (bq_query_error E). }
  unfold collect_satellite_data, collect_with_gap_filling.
  fold (region_id_of latitude longitude). fold region_id. run_eff.
  rewrite (latest_recorded_month_Some _ _ _ _ Hlatest).
  destruct (datetime_ltb l (first_of_month (now E))) eqn:Hlt.
  2:{ assert (datetime_leb (first_of_month (now E)) l = true) as Hle.
      { rewrite datetime_leb_month_index by done.
        rewrite <- (month_of_index_index l Vl) in Hlt.
        rewrite <- (month_of_index_index _ Vc) in Hlt.
        rewrite datetime_ltb_of_index in Hlt.
        apply bool_decide_eq_false in Hlt. apply bool_decide_eq_true. lia. }
      unfold _get_missing_months. run_eff. rewrite Hl, Hc, Hle.
      unfold state_of. cbn [fst snd]. done. }
  destruct (get_missing_months_indices E latest (strftime_Ym E (now E)) l
              (first_of_month (now E)) Hl Hc Hlt) as [Hgap Hn].
  change (month_index (first_of_month (now E))) with (month_index (now E))
    in Hgap, Hn.
  set (ks := seqZ (month_index l + 1) (month_index (now E) - month_index l))
    in *.
  assert (∀ k, k ∈ ks → 12000 <= k <= 12 * 9999 + 11) as Hks.
  { intros k Hk. unfold ks in Hk. apply elem_of_seqZ in Hk.
    destruct Vl as (_ & ? & _). destruct Hclock.
    unfold month_index in *. lia. }
  rewrite Hgap.
  destruct (map (λ k, strftime_Ym E (month_of_index k)) ks)
    as [|m months] eqn:Hmonths.
  { unfold state_of. cbn [fst snd]. done. }
  rewrite <- Hmonths. clear Hmonths.
  destruct (ee_initialize E) as [e|] eqn:Hinit.
  { rewrite (fill_missing_months_no_engine _ _ _ _ _ _ _ e Hinit).
    unfold state_of. cbn [fst snd]. done. }
  destruct (fill_missing_months_spec E region_id name latitude longitude
              (map (λ k, strftime_Ym E (month_of_index k)) ks) tbl Hinit)
    as (b & new & ev & kept & -> & _ & Hsub & HR & _).
  unfold state_of. cbn [fst snd].
  rewrite region_months_app.
  pose proof (gap_fill_months E name latitude longitude ks kept new Hks
                (sublist_subseteq _ _ Hsub) HR) as Hmonths.
  fold region_id in Hmonths. rewrite Hmonths.
  assert (∀ s, s ∈ kept →
            canonical_month s = true ∧ month_index l < month_key s) as Hkept.
  { intros s Hs. apply (sublist_subseteq _ _ Hsub) in Hs.
    apply list_elem_of_fmap in Hs. destruct Hs as (k & -> & Hk).
    destruct (canonical_of_index E k (Hks k Hk)) as [Hck ->].
    split; [exact Hck|]. unfold ks in Hk. apply elem_of_seqZ in Hk. lia. }
  split.
  - apply Forall_app. split; [exact Hcan|].
    apply Forall_forall. intros s Hs. by apply Hkept.
  - apply NoDup_app. split; [exact Hnodup|]. split.
    + intros s Hold Hnew. apply Hkept in Hnew as [_ Hnew].
      rewrite latest_recorded_month_months in Hlatest by exact Hq.
      pose proof (max_string_canonical _ _ Hcan Hlatest s Hold) as Hle.
      rewrite (month_key_parsed _ _ Hl) in Hle. lia.
    + eapply sublist_NoDup; [|exact Hsub].
      apply NoDup_fmap_2_strong; [|apply NoDup_seqZ].
      intros x y Hx Hy' Heq.
      destruct (canonical_of_index E x (Hks x Hx)) as [_ Kx].
      destruct (canonical_of_index E y (Hks y Hy')) as [_ Ky].
      rewrite Heq in Kx. congruence.
Qed.

Lemma gap_fill_keeps_one_record_per_month_witness :
  wall_clock (mk_datetime 2024 6 15)
  ∧ strptime_Y_m "2024-03" = Ok (mk_datetime 2024 3 1)
  ∧ NoDup (region_months [march_row] (region_id_of 52.52 13.405))
  ∧ NoDup (region_months
             (state_of (collect_satellite_data
                          (april_env (mk_datetime 2024 6 15) None)
                          "Berlin" 52.52 13.405 [march_row]))
             (region_id_of 52.52 13.405)).
Proof.
  assert (region_months [march_row] (region_id_of 52.52 13.405) = ["2024-03"])
    as Hm by by_vm.
  split; [unfold wall_clock; simpl; lia|]. split; [reflexivity|].
  split; [rewrite Hm; apply NoDup_singleton|].
  apply (gap_fill_keeps_one_record_per_month
           (april_env (mk_datetime 2024 6 15) None)
           "Berlin" 52.52 13.405 [march_row] "2024-03"
           (mk_datetime 2024 3 1)).
  - unfold wall_clock. simpl. lia.
  - by_vm.
  - reflexivity.
  - simpl. lia.
  - rewrite Hm. repeat constructor.
  - rewrite Hm. apply NoDup_singleton.
Defined.

(* ===================================================================== *)
(** ** The aggregation: its failures, and what it counts *)
(* ===================================================================== *)

(** X10: the monthly aggregation never raises and sends exactly one search,
    the one of its window.  When the search raises, it returns None and
    logs the error; when the search finds no image, it returns None and
    logs a warning. *)
Theorem aggregation_never_raises_and_searches_once E point region a b n :
  ∃ o ev,
    _get_monthly_averaged_data E point region a b n tt = (Ok o, tt, ev)
    ∧ searches ev = [(strftime_Ymd E a, strftime_Ymd E b)]
    ∧ (∀ e,
         ee_get_info E point (strftime_Ymd E a) (strftime_Ymd E b) n = Raise e →
         o = None
         ∧ ev = [GetInfo (strftime_Ymd E a) (strftime_Ymd E b);
                 Log ERROR ("Failed to get averaged data for month "
                            +:+ strftime_Ym E a +:+ ": ") (Some e)])
    ∧ (ee_get_info E point (strftime_Ymd E a) (strftime_Ymd E b) n = Ok None
       ∨ ee_get_info E point (strftime_Ymd E a) (strftime_Ymd E b) n
         = Ok (Some []) →
       o = None
       ∧ ev = [GetInfo (strftime_Ymd E a) (strftime_Ymd E b);
               Log WARNING ("No suitable images found for "
                            +:+ strftime_Ym E a) None]).
Proof.
  pose proof (aggregation_searches E point region a b n) as Hs.
  destruct (monthly_aggregation_no_raise E point region a b n) as [o Ho].
  destruct (_get_monthly_averaged_data E point region a b n tt)
    as [[r []] ev] eqn:Hrun.
  unfold value_of, events_of in *. cbn [fst snd] in *. subst r.
  exists o, ev. split; [reflexivity|]. split; [exact Hs|].
  unfold _get_monthly_averaged_data in Hrun. revert Hrun. run_eff.
  split.
  - intros e He. rewrite He in Hrun. by injection Hrun as <- <-.
  - intros [He|He]; rewrite He in Hrun; by injection Hrun as <- <-.
Qed.

Lemma process_image_state E region i img l :
  state_of (process_image E region (i, img) l)
  = match usable_metric E region img with
    | Some v =>
        mk_samples (ndvi_values l ++ [v])
          (cloud_percentages l
             ++ [default 0%float (CLOUDY_PIXEL_PERCENTAGE img)])
          (image_dates l ++ match image_date E img with
                            | Some d => [d]
                            | None => []
                            end)
          (image_ids l ++ match image_date E img with
                          | Some _ => [img_id img]
                          | None => []
                          end)
    | None => l
    end.
Proof.
  unfold process_image, usable_metric, image_date, state_of. run_eff.
  destruct (ee_reduce_region E (img_id img) region) as [[v|]|e]; simpl;
    try reflexivity.
  destruct (system_time_start img) as [t|]; simpl.
  - destruct (fromtimestamp E t) as [d|e]; simpl; [reflexivity|].
    by rewrite !app_nil_r.
  - by rewrite !app_nil_r.
Qed.

(** The four lists of the image loop, image by image. *)
Lemma image_loop_state E region imgs : ∀ i l,
  state_of (for_each (enumerate i imgs) (process_image E region) l)
  = mk_samples
      (ndvi_values l ++ omap (usable_metric E region) imgs)
      (cloud_percentages l
         ++ map (λ img, default 0%float (CLOUDY_PIXEL_PERCENTAGE img))
              (counted_images E region imgs))
      (image_dates l ++ omap (image_date E) (counted_images E region imgs))
      (image_ids l ++ map img_id (dated_images E region imgs)).
Proof.
  induction imgs as [|img imgs IH]; intros i l.
  { simpl. rewrite !app_nil_r. by destruct l. }
  simpl enumerate. rewrite for_each_cons.
  pose proof (process_image_state E region i img l) as Hst.
  pose proof (process_image_no_raise E region (i, img) l) as Hok.
  destruct (process_image E region (i, img) l) as [[r l1] ev1].
  unfold value_of, state_of in Hst, Hok. cbn [fst snd] in Hst, Hok.
  subst r. specialize (IH (i + 1) l1).
  destruct (for_each (enumerate (i + 1) imgs) (process_image E region) l1)
    as [[r2 l2] ev2].
  unfold state_of in *. cbn [fst snd] in *. rewrite IH, Hst.
  unfold dated_images, counted_images. cbn [List.filter omap list_omap].
  destruct (usable_metric E region img) as [v|] eqn:Hv.
  - rewrite bool_decide_eq_true_2 by by eexists.
    cbn [ndvi_values cloud_percentages image_dates image_ids List.filter
         map omap list_omap].
    destruct (image_date E img) as [d|] eqn:Hd.
    + rewrite bool_decide_eq_true_2 by by eexists.
      cbn [map]. by rewrite <- !app_assoc.
    + rewrite bool_decide_eq_false_2 by by intros [? ?].
      by rewrite !app_nil_r, <- !app_assoc.
  - rewrite bool_decide_eq_false_2 by by intros [? ?]. reflexivity.
Qed.

Lemma collected_samples_eq E region imgs :
  collected_samples E region imgs
  = mk_samples
      (omap (usable_metric E region) imgs)
      (map (λ img, default 0%float (CLOUDY_PIXEL_PERCENTAGE img))
         (counted_images E region imgs))
      (omap (image_date E) (counted_images E region imgs))
      (map img_id (dated_images E region imgs)).
Proof. unfold collected_samples. by rewrite image_loop_state. Qed.

Lemma length_usable_metrics E region imgs :
  length (omap (usable_metric E region) imgs)
  = length (counted_images E region imgs).
Proof.
  unfold counted_images. induction imgs as [|img imgs IH]; [reflexivity|].
  cbn [omap list_omap List.filter].
  destruct (usable_metric E region img) as [v|].
  - rewrite bool_decide_eq_true_2 by by eexists. simpl. by rewrite IH.
  - rewrite bool_decide_eq_false_2 by by intros [? ?]. exact IH.
Qed.

Lemma length_filter_le {A} (f : A → bool) l :
  (length (List.filter f l) <= length l)%nat.
Proof.
  induction l as [|x l IH]; simpl; [lia|]. destruct (f x); simpl; lia.
Qed.

Lemma length_image_dates E region imgs :
  length (omap (image_date E) (counted_images E region imgs))
  = length (dated_images E region imgs).
Proof.
  unfold dated_images. induction (counted_images E region imgs) as [|img l IH];
    [reflexivity|].
  cbn [omap list_omap List.filter].
  destruct (image_date E img) as [d|].
  - rewrite bool_decide_eq_true_2 by by eexists. simpl. by rewrite IH.
  - rewrite bool_decide_eq_false_2 by by intros [? ?]. exact IH.
Qed.

(** X11: what a record counts.  [image_count] is the number of images of
    the search whose metric could be computed, in the order of the
    search; [image_ids] and [image_dates] list those among them whose
    timestamp could be read: they have the same length, which can be
    smaller than [image_count], and [image_count] is at least 1 and at
    most the number of images the search returned. *)
Theorem record_counts_the_usable_images E point region a b n rec :
  value_of (_get_monthly_averaged_data E point region a b n tt)
    = Ok (Some rec) →
  ∃ imgs,
    ee_get_info E point (strftime_Ymd E a) (strftime_Ymd E b) n
      = Ok (Some imgs)
    ∧ rec !! "image_count"
      = Some (VInt (Z.of_nat (length (counted_images E region imgs))))
    ∧ rec !! "image_ids"
      = Some (VList (map img_id (dated_images E region imgs)))
    ∧ rec !! "image_dates"
      = Some (VList (omap (image_date E) (counted_images E region imgs)))
    ∧ length (omap (image_date E) (counted_images E region imgs))
      = length (dated_images E region imgs)
    ∧ (length (dated_images E region imgs)
       <= length (counted_images E region imgs) <= length imgs)%nat
    ∧ (1 <= length (counted_images E region imgs))%nat.
Proof.
  intros Ho. apply monthly_record_inv in Ho.
  destruct Ho as (imgs & Hinfo & std & Hne & _ & ->).
  exists imgs. split; [exact Hinfo|].
  rewrite collected_samples_eq in *.
  cbn [ndvi_values cloud_percentages image_dates image_ids] in *.
  rewrite length_usable_metrics in *.
  split; [reflexivity|]. split; [reflexivity|]. split; [reflexivity|].
  split; [apply length_image_dates|]. split.
  - split; apply length_filter_le.
  - rewrite <- length_usable_metrics.
    destruct (omap (usable_metric E region) imgs); [done|simpl; lia].
Qed.

Lemma record_counts_the_usable_images_witness :
  ∃ imgs,
    ee_get_info (april_env (mk_datetime 2024 6 15) None) berlin
      "2024-04-01" "2024-04-30" 3 = Ok (Some imgs)
    ∧ april_record !! "image_count"
      = Some (VInt (Z.of_nat
                      (length (counted_images
                                 (april_env (mk_datetime 2024 6 15) None)
                                 berlin_region imgs)))).
Proof.
  destruct (record_counts_the_usable_images
              (april_env (mk_datetime 2024 6 15) None) berlin berlin_region
              (mk_datetime 2024 4 1) (mk_datetime 2024 4 30) 3 april_record
              (april_aggregation (mk_datetime 2024 6 15) None))
    as (imgs & Hinfo & Hcount & _).
  exists imgs. split; [exact Hinfo|exact Hcount].
Defined.

Lemma lone_aggregation today :
  value_of (_get_monthly_averaged_data (lone_env today) berlin berlin_region
              (mk_datetime 2024 4 1) (mk_datetime 2024 4 30) 3 tt)
  = Ok (Some lone_record).
Proof. by_vm. Qed.

(** X12: a record made of a single image has a standard deviation of 0.0,
    its minimum equal to its maximum, and is rated good or fair: never
    excellent, never poor. *)
Theorem single_image_record_is_good_or_fair E point region a b n rec :
  value_of (_get_monthly_averaged_data E point region a b n tt)
    = Ok (Some rec) →
  rec !! "image_count" = Some (VInt 1) →
  rec !! "ndvi_std" = Some (VFloat 0)
  ∧ rec !! "ndvi_min" = rec !! "ndvi_max"
  ∧ (rec !! "data_quality" = Some (VStr "good")
     ∨ rec !! "data_quality" = Some (VStr "fair")).
Proof.
  intros Ho Hcount. apply monthly_record_inv in Ho.
  destruct Ho as (imgs & _ & std & Hne & Hstd & ->).
  set (l := collected_samples E region imgs) in *.
  assert (length (ndvi_values l) = 1%nat) as Hlen.
  { assert (Some (VInt (Z.of_nat (length (ndvi_values l))))
            = Some (VInt 1)) as H by exact Hcount.
    injection H as H. lia. }
  destruct (ndvi_values l) as [|v [|v' vs]] eqn:Hv; try discriminate.
  simpl in Hstd. subst std.
  split; [|split].
  - change (Some (VFloat (py_round 0 4)) = Some (VFloat 0)).
    assert (py_round 0 4 = 0%float) as -> by by_vm. reflexivity.
  - reflexivity.
  - change (Some (VStr (_assess_monthly_data_quality 1
                          (py_sum (cloud_percentages l)
                           / len_f (cloud_percentages l)) 0))
            = Some (VStr "good")
            ∨ Some (VStr (_assess_monthly_data_quality 1
                            (py_sum (cloud_percentages l)
                             / len_f (cloud_percentages l)) 0))
              = Some (VStr "fair")).
    unfold _assess_monthly_data_quality.
    replace (PrimFloat.ltb 0 0.05) with true by by_vm.
    destruct (PrimFloat.ltb _ 10); [left; reflexivity|].
    destruct (PrimFloat.ltb _ 20); right; reflexivity.
Qed.

Lemma single_image_record_is_good_or_fair_witness :
  lone_record !! "image_count" = Some (VInt 1)
  ∧ lone_record !! "ndvi_std" = Some (VFloat 0)
  ∧ lone_record !! "ndvi_min" = lone_record !! "ndvi_max"
  ∧ (lone_record !! "data_quality" = Some (VStr "good")
     ∨ lone_record !! "data_quality" = Some (VStr "fair")).
Proof.
  assert (lone_record !! "image_count" = Some (VInt 1)) as Hc by by_vm.
  split; [exact Hc|].
  apply (single_image_record_is_good_or_fair
           (lone_env (mk_datetime 2024 6 15)) berlin berlin_region
           (mk_datetime 2024 4 1) (mk_datetime 2024 4 30) 3 lone_record).
  - apply lone_aggregation.
  - exact Hc.
Defined.

(* ===================================================================== *)
(** ** The rating and the number of images *)
(* ===================================================================== *)

(** X13: the rating is one of the four tiers, and with the same mean cloud
    cover and the same standard deviation more images never give a lower
    rating. *)
Theorem more_images_never_lower_the_rating (n m : Z) (c s : float) :
  n <= m →
  _assess_monthly_data_quality n c s ∈ ["excellent"; "good"; "fair"; "poor"]
  ∧ quality_rank (_assess_monthly_data_quality n c s)
    <= quality_rank (_assess_monthly_data_quality m c s).
Proof.
  intros Hnm. unfold _assess_monthly_data_quality.
  destruct (3 <=? n) eqn:Hn3, (2 <=? n) eqn:Hn2,
           (3 <=? m) eqn:Hm3, (2 <=? m) eqn:Hm2; try lia;
    destruct (PrimFloat.ltb c 10), (PrimFloat.ltb c 20),
             (PrimFloat.ltb s 0.05), (PrimFloat.ltb s 0.10);
    (split; [cbn; set_solver | vm_compute; discriminate]).
Qed.

Lemma more_images_never_lower_the_rating_witness :
  quality_rank (_assess_monthly_data_quality 1 12 0.07)
  <= quality_rank (_assess_monthly_data_quality 3 12 0.07).
Proof.
  apply (more_images_never_lower_the_rating 1 3 12 0.07). lia.
Defined.

(* ===================================================================== *)
(** ** The pipeline: what the caller always gets *)
(* ===================================================================== *)

(** The pipeline on a name the user has. *)
Lemma analyze_known_location E user_id location_name ld tbl :
  get_user_locations E user_id !! location_name = Some ld →
  ∃ res new ev,
    analyze_user_location E user_id location_name tbl
      = (Ok res, tbl ++ new, ev)
    ∧ success res = true
    ∧ error res = None
    ∧ r_region_name res = Some (actual_location ld)
    ∧ coordinates res = Some (loc_lat ld, loc_lon ld)
    ∧ is_Some (analysis res).
Proof.
  intros Hld. unfold analyze_user_location. rewrite Hld.
  set (region_name := actual_location ld).
  destruct (get_data_summary_run E region_name tbl) as (s1 & e1 & Hs1 & _).
  destruct (generate_basic_analysis_run E region_name ld tbl)
    as (a1 & ea1 & Ha1 & _).
  destruct (collect_satellite_data_run E region_name (loc_lat ld)
              (loc_lon ld) tbl) as (b & new & evc & Hc & _).
  destruct (get_data_summary_run E region_name (tbl ++ new))
    as (s2 & e2 & Hs2 & _).
  destruct (generate_basic_analysis_run E region_name ld (tbl ++ new))
    as (a2 & ea2 & Ha2 & _).
  run_eff. cbv beta iota zeta.
  rewrite should_collect_data_run.
  destruct (bq_query_error E) as [e|];
    [|destruct (Z.of_nat (length (rows_named tbl region_name)) <? 3)].
  - rewrite Hs1. cbv beta iota. rewrite Hc. cbv beta iota. destruct b.
    + rewrite Hs2. cbv beta iota. rewrite Ha2.
      eexists _, new, _. split; [reflexivity|]. split_and!; by eauto.
    + rewrite Ha2.
      eexists _, new, _. split; [reflexivity|]. split_and!; by eauto.
  - rewrite Hs1. cbv beta iota. rewrite Hc. cbv beta iota. destruct b.
    + rewrite Hs2. cbv beta iota. rewrite Ha2.
      eexists _, new, _. split; [reflexivity|]. split_and!; by eauto.
    + rewrite Ha2.
      eexists _, new, _. split; [reflexivity|]. split_and!; by eauto.
  - rewrite Hs1. cbv beta iota. rewrite Ha1.
    eexists _, [], _. rewrite (app_nil_r tbl). split; [reflexivity|].
    split_and!; by eauto.
Qed.

(** X14: the pipeline never raises and only appends to the table.  For a
    name that is not among the user's personal locations (or a user
    without a session) it answers 'location_not_found', appends nothing,
    sends no search and logs no record of level WARNING or ERROR; for a
    name that is, it answers with success and always with an analysis. *)
Theorem pipeline_always_answers E user_id location_name tbl :
  ∃ res new ev,
    analyze_user_location E user_id location_name tbl
      = (Ok res, tbl ++ new, ev)
    ∧ match get_user_locations E user_id !! location_name with
      | None =>
          success res = false
          ∧ error res = Some "location_not_found"
          ∧ analysis res = None
          ∧ new = [] ∧ ev = []
      | Some ld =>
          success res = true
          ∧ error res = None
          ∧ r_region_name res = Some (actual_location ld)
          ∧ coordinates res = Some (loc_lat ld, loc_lon ld)
          ∧ is_Some (analysis res)
      end.
Proof.
  destruct (get_user_locations E user_id !! location_name) as [ld|] eqn:Hld.
  - destruct (analyze_known_location E user_id location_name ld tbl Hld)
      as (res & new & ev & Hrun & H).
    exists res, new, ev. split; [exact Hrun|exact H].
  - unfold analyze_user_location. rewrite Hld.
    eexists _, [], []. rewrite app_nil_r. split; [reflexivity|].
    split_and!; reflexivity.
Qed.

(* ===================================================================== *)
(** ** Dates and their ordinals *)
(* ===================================================================== *)

Lemma month_day_valid_all :
  forallb (λ leap,
    forallb (λ n,
      match month_day leap n with
      | (m, d) =>
          (1 <=? m) && (m <=? 12) && (1 <=? d)
          && (d <=? (if (m =? 2) && leap then 29
                     else default 0 (_DAYS_IN_MONTH !! Z.to_nat m)))
      end) (seqZ 0 365)) [true; false] = true.
Proof. vm_compute. reflexivity. Qed.

Lemma month_day_valid leap n :
  0 <= n <= 364 →
  1 <= (month_day leap n).1 <= 12
  ∧ 1 <= (month_day leap n).2
    <= (if ((month_day leap n).1 =? 2) && leap then 29
        else default 0 (_DAYS_IN_MONTH !! Z.to_nat (month_day leap n).1)).
Proof.
  intros Hn. pose proof month_day_valid_all as H.
  rewrite forallb_forall in H. specialize (H leap).
  rewrite <- list_elem_of_In in H.
  specialize (H ltac:(destruct leap; [left | right; left])).
  rewrite forallb_forall in H. specialize (H n).
  rewrite <- list_elem_of_In, elem_of_seqZ in H. specialize (H ltac:(lia)).
  destruct (month_day leap n) as [m d]. simpl. lia.
Qed.

Lemma ord2ymd_unfold n :
  _ord2ymd n =
  let n0 := n - 1 in
  let a := n0 / 146097 in let r400 := n0 mod 146097 in
  let b := r400 / 36524 in let r100 := r400 mod 36524 in
  let c := r100 / 1461 in let r4 := r100 mod 1461 in
  let e := r4 / 365 in let r1 := r4 mod 365 in
  let y := a * 400 + 1 + b * 100 + c * 4 + e in
  if (e =? 4) || (b =? 4) then (y - 1, 12, 31)
  else
    let leapyear := (e =? 3) && (negb (c =? 24) || (b =? 3)) in
    (y, (month_day leapyear r1).1, (month_day leapyear r1).2).
Proof.
  unfold _ord2ymd, month_day, _DI400Y, _DI100Y, _DI4Y. cbv zeta.
  destruct (_ || _); [reflexivity|].
  destruct (_ <? _); reflexivity.
Qed.

Lemma is_leap_digits a b c e :
  0 <= b <= 3 → 0 <= c <= 24 → 0 <= e <= 3 →
  _is_leap (a * 400 + 1 + b * 100 + c * 4 + e)
  = (e =? 3) && (negb (c =? 24) || (b =? 3)).
Proof.
  intros Hb Hc He. unfold _is_leap.
  set (y := a * 400 + 1 + b * 100 + c * 4 + e).
  pose proof (Z.div_mod y 4 ltac:(lia)).
  pose proof (Z.mod_pos_bound y 4 ltac:(lia)).
  pose proof (Z.div_mod y 100 ltac:(lia)).
  pose proof (Z.mod_pos_bound y 100 ltac:(lia)).
  pose proof (Z.div_mod y 400 ltac:(lia)).
  pose proof (Z.mod_pos_bound y 400 ltac:(lia)).
  assert (y mod 4 = 0 ↔ e = 3) as M4 by (unfold y in *; lia).
  assert (y mod 100 = 0 ↔ c = 24 ∧ e = 3) as M100 by (unfold y in *; lia).
  assert (y mod 400 = 0 ↔ b = 3 ∧ c = 24 ∧ e = 3) as M400
    by (unfold y in *; lia).
  destruct (y mod 4 =? 0) eqn:E4, (y mod 100 =? 0) eqn:E100,
    (y mod 400 =? 0) eqn:E400, (e =? 3) eqn:Ee, (c =? 24) eqn:Ec,
    (b =? 3) eqn:Eb; simpl; try reflexivity; exfalso; lia.
Qed.

(** The date of an ordinal is a date: [_ord2ymd] gives a year from 1 to
    9999, a month from 1 to 12 and a day of that month. *)
Lemma ord2ymd_valid n :
  1 <= n <= 3652059 →
  ∃ y m d,
    _ord2ymd n = (y, m, d)
    ∧ 1 <= y <= 9999 ∧ 1 <= m <= 12 ∧ 1 <= d <= _days_in_month y m.
Proof.
  intros Hn. rewrite ord2ymd_unfold. cbv zeta.
  set (n0 := n - 1).
  pose proof (Z.div_mod n0 146097 ltac:(lia)) as D1.
  pose proof (Z.mod_pos_bound n0 146097 ltac:(lia)) as B1.
  set (a := n0 / 146097) in *. set (r400 := n0 mod 146097) in *.
  pose proof (Z.div_mod r400 36524 ltac:(lia)) as D2.
  pose proof (Z.mod_pos_bound r400 36524 ltac:(lia)) as B2.
  set (b := r400 / 36524) in *. set (r100 := r400 mod 36524) in *.
  pose proof (Z.div_mod r100 1461 ltac:(lia)) as D3.
  pose proof (Z.mod_pos_bound r100 1461 ltac:(lia)) as B3.
  set (c := r100 / 1461) in *. set (r4 := r100 mod 1461) in *.
  pose proof (Z.div_mod r4 365 ltac:(lia)) as D4.
  pose proof (Z.mod_pos_bound r4 365 ltac:(lia)) as B4.
  set (e := r4 / 365) in *. set (r1 := r4 mod 365) in *.
  assert (0 <= a <= 24) by (unfold n0 in *; lia).
  assert (0 <= b <= 4) by lia.
  assert (0 <= c <= 24) by lia.
  assert (0 <= e <= 4) by lia.
  destruct ((e =? 4) || (b =? 4)) eqn:Hspecial.
  - eexists _, _, _. split; [reflexivity|].
    split; [unfold n0 in *; lia|]. split; [lia|].
    unfold _days_in_month. simpl. lia.
  - assert (e <= 3 ∧ b <= 3) as [He Hb] by lia.
    pose proof (month_day_valid
                  ((e =? 3) && (negb (c =? 24) || (b =? 3))) r1 ltac:(lia))
      as (Hm & Hd).
    eexists _, _, _. split; [reflexivity|].
    split; [unfold n0 in *; lia|]. split; [exact Hm|].
    unfold _days_in_month. rewrite is_leap_digits by lia. exact Hd.
Qed.

Lemma day_of_year_all :
  forallb (λ leap,
    forallb (λ m,
      forallb (λ d,
        let dim := if (m =? 2) && leap then 29
                   else default 0 (_DAYS_IN_MONTH !! Z.to_nat m) in
        let doy := default 0 (_DAYS_BEFORE_MONTH !! Z.to_nat m)
                   + (if (2 <? m) && leap then 1 else 0) + d - 1 in
        (dim <? d)
        || ((0 <=? doy) && (doy <=? 364 + (if leap then 1 else 0))
            && (if doy =? 365 then (m =? 12) && (d =? 31)
                else match month_day leap doy with
                     | (m', d') => (m' =? m) && (d' =? d)
                     end)))
        (seqZ 1 31)) (seqZ 1 12)) [true; false] = true.
Proof. vm_compute. reflexivity. Qed.

(** The day number of a date in its year, and the way back. *)
Lemma day_of_year y m d :
  1 <= m <= 12 → 1 <= d <= _days_in_month y m →
  let doy := _days_before_month y m + d - 1 in
  0 <= doy <= 364 + (if _is_leap y then 1 else 0)
  ∧ (doy = 365 → m = 12 ∧ d = 31)
  ∧ (doy <= 364 → month_day (_is_leap y) doy = (m, d)).
Proof.
  intros Hm Hd. unfold _days_in_month, _days_before_month in *.
  pose proof day_of_year_all as H.
  rewrite forallb_forall in H. specialize (H (_is_leap y)).
  rewrite <- list_elem_of_In in H.
  specialize (H ltac:(destruct (_is_leap y); [left | right; left])).
  rewrite forallb_forall in H. specialize (H m).
  rewrite <- list_elem_of_In, elem_of_seqZ in H. specialize (H ltac:(lia)).
  rewrite forallb_forall in H. specialize (H d).
  rewrite <- list_elem_of_In, elem_of_seqZ in H.
  assert (d <= 31) as Hd31.
  { destruct ((m =? 2) && _is_leap y); [lia|].
    assert (m = 1 ∨ m = 2 ∨ m = 3 ∨ m = 4 ∨ m = 5 ∨ m = 6 ∨ m = 7 ∨ m = 8
            ∨ m = 9 ∨ m = 10 ∨ m = 11 ∨ m = 12) as Hc by lia.
    repeat destruct Hc as [-> | Hc]; try subst m; simpl in Hd; lia. }
  specialize (H ltac:(lia)). cbv zeta in H |- *.
  set (dim := if (m =? 2) && _is_leap y then 29
              else default 0 (_DAYS_IN_MONTH !! Z.to_nat m)) in *.
  set (doy := default 0 (_DAYS_BEFORE_MONTH !! Z.to_nat m)
              + (if (2 <? m) && _is_leap y then 1 else 0) + d - 1) in *.
  apply orb_true_iff in H. destruct H as [H|H]; [lia|].
  apply andb_true_iff in H. destruct H as [H1 H2].
  split; [lia|]. split.
  - intros E. rewrite E in H2. simpl in H2. lia.
  - intros L. replace (doy =? 365) with false in H2 by lia.
    destruct (month_day (_is_leap y) doy) as [m' d'].
    f_equal; lia.
Qed.

(** The ordinal of a date leads back to the date. *)
Lemma ord2ymd_ymd2ord y m d :
  1 <= y → 1 <= m <= 12 → 1 <= d <= _days_in_month y m →
  _ord2ymd (_ymd2ord y m d) = (y, m, d).
Proof.
  intros Hy Hm Hd.
  destruct (day_of_year y m d Hm Hd) as (Hdoy & Hlast & Hmd).
  set (doy := _days_before_month y m + d - 1) in *.
  set (Y := y - 1).
  pose proof (Z.div_mod Y 400 ltac:(lia)) as E1.
  pose proof (Z.mod_pos_bound Y 400 ltac:(lia)) as F1.
  set (a := Y / 400) in *. set (rY := Y mod 400) in *.
  pose proof (Z.div_mod rY 100 ltac:(lia)) as E2.
  pose proof (Z.mod_pos_bound rY 100 ltac:(lia)) as F2.
  set (b := rY / 100) in *. set (rb := rY mod 100) in *.
  pose proof (Z.div_mod rb 4 ltac:(lia)) as E3.
  pose proof (Z.mod_pos_bound rb 4 ltac:(lia)) as F3.
  set (c := rb / 4) in *. set (e := rb mod 4) in *.
  assert (0 <= b <= 3) as Bb by lia.
  assert (0 <= c <= 24) as Bc by lia.
  assert (Y = 400 * a + 100 * b + 4 * c + e) as HY by lia.
  assert (y = a * 400 + 1 + b * 100 + c * 4 + e) as Hy' by (unfold Y in *; lia).
  pose proof (is_leap_digits a b c e Bb Bc ltac:(lia)) as Hleap.
  rewrite <- Hy' in Hleap.
  assert (_ymd2ord y m d - 1
          = 146097 * a + 36524 * b + 1461 * c + 365 * e + doy) as Hord.
  { unfold _ymd2ord, _days_before_year, doy. fold Y.
    pose proof (Z.div_mod Y 4 ltac:(lia)).
    pose proof (Z.mod_pos_bound Y 4 ltac:(lia)).
    pose proof (Z.div_mod Y 100 ltac:(lia)).
    pose proof (Z.mod_pos_bound Y 100 ltac:(lia)).
    assert (Y / 4 = 100 * a + 25 * b + c) by lia.
    assert (Y / 100 = 4 * a + b) by lia.
    fold a. lia. }
  rewrite ord2ymd_unfold. cbv zeta. rewrite Hord.
  set (n0 := 146097 * a + 36524 * b + 1461 * c + 365 * e + doy).
  assert (doy = 365 → e = 3 ∧ (c ≠ 24 ∨ b = 3)) as Hleap365.
  { intros E. rewrite E in Hdoy.
    destruct (_is_leap y) eqn:L; [|lia]. symmetry in Hleap.
    apply andb_true_iff in Hleap. destruct Hleap as [L1 L2].
    apply orb_true_iff in L2. split; [lia|].
    destruct L2 as [L2%negb_true_iff|L2]; [left|right]; lia. }
  assert (0 <= doy <= 365) as Hdoy' by (destruct (_is_leap y); lia).
  pose proof (Z.div_mod n0 146097 ltac:(lia)) as D1.
  pose proof (Z.mod_pos_bound n0 146097 ltac:(lia)) as B1.
  assert (n0 / 146097 = a ∧ n0 mod 146097 = n0 - 146097 * a) as [Q1 R1]
    by (unfold n0 in *; lia).
  rewrite Q1, R1.
  set (r400 := n0 - 146097 * a).
  pose proof (Z.div_mod r400 36524 ltac:(lia)) as D2.
  pose proof (Z.mod_pos_bound r400 36524 ltac:(lia)) as B2.
  destruct (Z.eq_dec doy 365) as [E365|N365].
  - destruct (Hleap365 E365) as [He Hcb].
    destruct (Hlast E365) as [-> ->].
    destruct (Z.eq_dec c 24) as [Ec|Nc].
    + assert (b = 3) as Eb by lia.
      assert (r400 / 36524 = 4 ∧ r400 mod 36524 = 0) as [Q2 R2]
        by (unfold r400, n0 in *; lia).
      rewrite Q2, R2.
      change (0 mod 1461) with 0. change (0 / 1461) with 0.
      change (0 / 365) with 0. simpl. f_equal. f_equal. lia.
    + assert (r400 / 36524 = b ∧ r400 mod 36524 = r400 - 36524 * b) as [Q2 R2]
        by (unfold r400, n0 in *; lia).
      rewrite Q2, R2. set (r100 := r400 - 36524 * b).
      pose proof (Z.div_mod r100 1461 ltac:(lia)) as D3.
      pose proof (Z.mod_pos_bound r100 1461 ltac:(lia)) as B3.
      assert (r100 / 1461 = c ∧ r100 mod 1461 = 1460) as [Q3 R3]
        by (unfold r100, r400, n0 in *; lia).
      rewrite Q3, R3.
      replace (1460 / 365) with 4 by reflexivity. simpl. f_equal. f_equal. lia.
  - assert (doy <= 364) as L364 by lia.
    assert (r400 / 36524 = b ∧ r400 mod 36524 = r400 - 36524 * b) as [Q2 R2]
      by (unfold r400, n0 in *; lia).
    rewrite Q2, R2. set (r100 := r400 - 36524 * b).
    pose proof (Z.div_mod r100 1461 ltac:(lia)) as D3.
    pose proof (Z.mod_pos_bound r100 1461 ltac:(lia)) as B3.
    assert (r100 / 1461 = c ∧ r100 mod 1461 = r100 - 1461 * c) as [Q3 R3]
      by (unfold r100, r400, n0 in *; lia).
    rewrite Q3, R3. set (r4 := r100 - 1461 * c).
    pose proof (Z.div_mod r4 365 ltac:(lia)) as D4.
    pose proof (Z.mod_pos_bound r4 365 ltac:(lia)) as B4.
    assert (r4 / 365 = e ∧ r4 mod 365 = doy) as [Q4 R4]
      by (unfold r4, r100, r400, n0 in *; lia).
    rewrite Q4, R4.
    replace ((e =? 4) || (b =? 4)) with false by lia.
    rewrite <- Hleap, (Hmd L364). simpl. f_equal. f_equal. lia.
Qed.

Lemma valid_datetime_inv d :
  valid_datetime d →
  1 <= year d <= 9999 ∧ 1 <= month d <= 12
  ∧ 1 <= day d <= _days_in_month (year d) (month d).
Proof.
  unfold valid_datetime, new_datetime, MINYEAR, MAXYEAR.
  repeat case_match; try discriminate. intros _. lia.
Qed.

Lemma ymd2ord_range y m d :
  1 <= y <= 9999 → 1 <= m <= 12 → 1 <= d <= _days_in_month y m →
  1 <= _ymd2ord y m d <= 3652059.
Proof.
  intros Hy Hm Hd.
  destruct (day_of_year y m d Hm Hd) as (Hdoy & _).
  unfold _ymd2ord, _days_before_year. cbv zeta.
  set (doy := _days_before_month y m + d - 1) in *.
  pose proof (Z.div_mod (y - 1) 4 ltac:(lia)).
  pose proof (Z.mod_pos_bound (y - 1) 4 ltac:(lia)).
  pose proof (Z.div_mod (y - 1) 100 ltac:(lia)).
  pose proof (Z.mod_pos_bound (y - 1) 100 ltac:(lia)).
  pose proof (Z.div_mod (y - 1) 400 ltac:(lia)).
  pose proof (Z.mod_pos_bound (y - 1) 400 ltac:(lia)).
  destruct (Z.eq_dec y 9999) as [->|Hne].
  - replace (_is_leap 9999) with false in Hdoy by reflexivity.
    change (9999 - 1) with 9998 in *. lia.
  - assert (0 <= doy <= 365) by (destruct (_is_leap y); lia). lia.
Qed.

(** [dt - timedelta(days=n)] of a date is the date [n] days before, as
    long as that is a date. *)
Lemma sub_days_days_before d n :
  1 <= _ymd2ord (year d) (month d) (day d) - n <= 3652059 →
  sub_days d n = Ok (days_before d n)
  ∧ valid_datetime (days_before d n).
Proof.
  intros Hn. unfold sub_days, days_before, _MAXORDINAL. cbv zeta.
  replace ((1 <=? _ymd2ord (year d) (month d) (day d) - n)
           && (_ymd2ord (year d) (month d) (day d) - n <=? 3652059))
    with true by lia.
  destruct (ord2ymd_valid _ Hn) as (y & m & dd & -> & Hy & Hm & Hd).
  split; [reflexivity|].
  unfold valid_datetime, new_datetime, MINYEAR, MAXYEAR. simpl.
  replace ((1 <=? y) && (y <=? 9999)) with true by lia.
  replace ((1 <=? m) && (m <=? 12)) with true by lia.
  replace ((1 <=? dd) && (dd <=? _days_in_month y m)) with true by lia.
  reflexivity.
Qed.

Lemma days_before_0 d : valid_datetime d → days_before d 0 = d.
Proof.
  intros (Hy & Hm & Hd)%valid_datetime_inv. unfold days_before.
  rewrite Z.sub_0_r, ord2ymd_ymd2ord by lia. by destruct d.
Qed.

(** X15: on a date that is at least 150 days after 0001-01-01, a bootstrap
    run sends exactly six searches; each is for a whole calendar month,
    the month of the date 0, 30, 60, 90, 120 and 150 days before today,
    from its first to its last day; the first is the current month. *)
Theorem bootstrap_searches_six_whole_months
    E region_id display_name latitude longitude tbl :
  valid_datetime (now E) →
  150 < _ymd2ord (year (now E)) (month (now E)) (day (now E)) →
  ee_initialize E = None →
  searches (events_of (collect_satellite_data_monthly E region_id display_name
                         latitude longitude tbl))
  = map (λ k, window_dates E (whole_month (days_before (now E) (30 * k))))
      [0; 1; 2; 3; 4; 5]
  ∧ whole_month (days_before (now E) (30 * 0)) = whole_month (now E).
Proof.
  intros Hvalid Hord Hinit.
  pose proof (valid_datetime_inv _ Hvalid) as (Hy & Hm & Hd).
  pose proof (ymd2ord_range _ _ _ Hy Hm Hd) as Hrange.
  split; [|by rewrite days_before_0].
  rewrite bootstrap_searches by exact Hinit.
  rewrite (ok_prefix_all_ok (bootstrap_window E)
             (λ k, whole_month (days_before (now E) (30 * k)))).
  { by rewrite <- list_fmap_compose. }
  intros k Hk.
  assert (0 <= k <= 5) as Hk5.
  { repeat (apply elem_of_cons in Hk as [->|Hk]; [lia|]).
    by apply elem_of_nil in Hk. }
  unfold bootstrap_window.
  destruct (sub_days_days_before (now E) (30 * k) ltac:(lia)) as [-> Hv].
  apply valid_datetime_inv in Hv as (? & ? & _).
  by apply month_window_whole_month.
Qed.

Lemma bootstrap_searches_six_whole_months_witness :
  valid_datetime (mk_datetime 2024 6 15)
  ∧ searches (events_of (collect_satellite_data_monthly
                           (quiet_env (mk_datetime 2024 6 15))
                           "52.520_13.405" "Berlin" 52.52 13.405 []))
    = [("2024-06-01", "2024-06-30");
       ("2024-05-01", "2024-05-31");
       ("2024-04-01", "2024-04-30");
       ("2024-03-01", "2024-03-31");
       ("2024-02-01", "2024-02-29");
       ("2024-01-01", "2024-01-31")].
Proof.
  split; [reflexivity|].
  apply (proj1 (bootstrap_searches_six_whole_months
                  (quiet_env (mk_datetime 2024 6 15))
                  "52.520_13.405" "Berlin" 52.52 13.405 []
                  eq_refl ltac:(vm_compute; reflexivity) eq_refl)).
Defined.

(* ===================================================================== *)
(** ** What the collector writes, the planner can read *)
(* ===================================================================== *)

(** X16: the month a record is filed under is a canonical month string, and
    it parses back to the first day of the month of the window, for every
    window that starts in a year of four digits and whatever the
    platform's [%Y]. *)
Theorem recorded_month_parses_back E point region a b n rec :
  wall_clock a →
  value_of (_get_monthly_averaged_data E point region a b n tt)
    = Ok (Some rec) →
  ∃ s,
    rec !! "acquisition_month" = Some (VStr s)
    ∧ strptime_Y_m s = Ok (first_of_month a)
    ∧ canonical_month s = true.
Proof.
  intros Hclock Ho. apply monthly_record_inv in Ho.
  destruct Ho as (imgs & _ & std & _ & _ & ->).
  exists (strftime_Ym E a). split; [reflexivity|].
  pose proof (strptime_strftime E a Hclock) as Hp.
  split; [exact Hp|]. unfold canonical_month. rewrite Hp.
  destruct Hclock as [Hy Hm].
  rewrite (strftime_Ym_four_digits E a Hy). apply String.eqb_refl.
Qed.

Lemma recorded_month_parses_back_witness :
  wall_clock (mk_datetime 2024 4 1)
  ∧ ∃ s,
      april_record !! "acquisition_month" = Some (VStr s)
      ∧ strptime_Y_m s = Ok (mk_datetime 2024 4 1)
      ∧ canonical_month s = true.
Proof.
  split; [unfold wall_clock; simpl; lia|].
  apply (recorded_month_parses_back
           (april_env (mk_datetime 2024 6 15) None) berlin berlin_region
           (mk_datetime 2024 4 1) (mk_datetime 2024 4 30) 3 april_record).
  - unfold wall_clock. simpl. lia.
  - apply april_aggregation.
Defined.

(* ===================================================================== *)
(** ** The basic analysis *)
(* ===================================================================== *)

Lemma interpret_metrics_keys ndvi cloud :
  (is_Some (_interpret_metrics ndvi cloud !! "vegetation") ↔ is_Some ndvi)
  ∧ (is_Some (_interpret_metrics ndvi cloud !! "data_quality")
     ↔ is_Some cloud).
Proof.
  unfold _interpret_metrics. cbv zeta.
  destruct ndvi as [x|], cloud as [c|];
    repeat match goal with
           | |- context [if ?b then _ else _] => destruct b
           end;
    (split; (split;
     [ first [ intros _; by eexists
             | intros [? H]; vm_compute in H; discriminate ]
     | first [ intros _; vm_compute; by eexists
             | intros [? H]; discriminate ] ])).
Qed.

(** X17: the basic analysis never raises, leaves the table alone and sends
    no search.  It has data exactly when the query succeeds and returns a
    row of at least one observation; when the query fails it carries the
    error, which is logged.  The interpretation speaks of the vegetation
    exactly when the mean of the metric is not NULL, and of the quality
    of the data exactly when the mean cloud cover is not NULL. *)
Theorem basic_analysis_reports_what_the_warehouse_has E region_name ld tbl :
  ∃ a ev,
    _generate_basic_analysis E region_name ld tbl = (Ok a, tbl, ev)
    ∧ searches ev = []
    ∧ (has_data a = true
       ↔ bq_query_error E = None
         ∧ ∃ row, bq_metrics E tbl region_name = Some row
                  ∧ 0 < total_observations row)
    ∧ (∀ e, bq_query_error E = Some e →
         has_data a = false ∧ a_error a = Some e
         ∧ ev = [Log ERROR "Analysis generation failed: " (Some e)])
    ∧ (has_data a = true →
       ∃ row i,
         bq_metrics E tbl region_name = Some row
         ∧ a_total_observations a = Some (total_observations row)
         ∧ interpretation a = Some i
         ∧ (is_Some (i !! "vegetation") ↔ is_Some (avg_vegetation row))
         ∧ (is_Some (i !! "data_quality")
            ↔ is_Some (avg_cloud_cover_row row))).
Proof.
  unfold _generate_basic_analysis, bq_query. run_eff.
  destruct (bq_query_error E) as [e|].
  { eexists _, _. split; [reflexivity|]. split; [reflexivity|].
    split; [split; [discriminate|by intros [? _]]|].
    split; [|discriminate]. intros e' [= <-]. done. }
  cbv beta iota. destruct (bq_metrics E tbl region_name) as [row|].
  2:{ eexists _, _. split; [reflexivity|]. split; [reflexivity|].
      split; [split; [discriminate|by intros [_ (? & ? & _)]]|].
      split; discriminate. }
  destruct (0 <? total_observations row) eqn:Hpos.
  - eexists _, _. split; [reflexivity|]. split; [reflexivity|].
    split; [split; [intros _; split; [done|exists row; split; [done|lia]]
                   |done]|].
    split; [discriminate|]. intros _. eexists row, _.
    split; [reflexivity|]. split; [reflexivity|]. split; [reflexivity|].
    apply interpret_metrics_keys.
  - eexists _, _. split; [reflexivity|]. split; [reflexivity|].
    split; [split; [discriminate|]|split; discriminate].
    intros [_ (row' & [= <-] & Hr)]. lia.
Qed.

(* ===================================================================== *)
(** ** The reverse geocoding *)
(* ===================================================================== *)

Lemma or_else_Some a b c :
  city_locator.or_else a b = Some c → a = Some c ∨ b = Some c.
Proof.
  unfold city_locator.or_else. destruct a as [s|]; [|by right].
  destruct (String.eqb s ""); [by right|by left].
Qed.

Lemma get_location_info_run {S}
    reverse latitude longitude (s : S) :
  ∃ info ev,
    city_locator.get_location_info reverse latitude longitude s
      = (Ok info, s, ev).
Proof.
  unfold city_locator.get_location_info. run_eff.
  destruct (reverse latitude longitude) as [data|e]; [|by eexists _, _].
  cbv beta iota zeta.
  destruct (city_locator.or_else _ (city_locator.county data)) as [c|];
    [|by eexists _, _].
  destruct (String.eqb c ""); [by eexists _, _|].
  destruct (city_locator.osm_lat data) as [[la|e]|]; simpl;
    try (by eexists _, _);
    destruct (city_locator.osm_lon data) as [[lo|e]|]; simpl;
    by eexists _, _.
Qed.

(** X18: [get_location_info] never raises and leaves its caller's state
    alone.  The region id it returns is always the one of the coordinates
    it was given, to three places.  When the request fails it logs one
    warning and falls back to the coordinates: the name is the
    coordinates at four places, the position is the one given, so that
    the region id is also the one of the position it returns.  When it
    reports a city, it logs no record of level WARNING or ERROR, the name is
    one of the five address fields and is not empty, and for a city
    outside the seven known centres the display name is the name and the
    country. *)
Theorem get_location_info_always_answers {S}
    reverse latitude longitude (s : S) :
  ∃ info ev,
    city_locator.get_location_info reverse latitude longitude s
      = (Ok info, s, ev)
    ∧ city_locator.region_id info = region_id_of latitude longitude
    ∧ (∀ e, reverse latitude longitude = Raise e →
         ev = [Log WARNING "City lookup failed: " (Some e)]
         ∧ city_locator.is_city info = false)
    ∧ (city_locator.is_city info = false →
       city_locator.region_name info
         = format_f 4 latitude +:+ ", " +:+ format_f 4 longitude
       ∧ city_locator.lat info = latitude
       ∧ city_locator.lon info = longitude
       ∧ city_locator.region_id info
         = region_id_of (city_locator.lat info) (city_locator.lon info)
       ∧ city_locator.display_name info
         = "Location " +:+ city_locator.region_name info)
    ∧ (city_locator.is_city info = true →
       ev = []
       ∧ city_locator.region_name info ≠ ""
       ∧ ∃ data,
           reverse latitude longitude = Ok data
           ∧ Some (city_locator.region_name info)
             ∈ [city_locator.city data; city_locator.town data;
                city_locator.village data; city_locator.municipality data;
                city_locator.county data]
           ∧ (city_locator.city_centers !! city_locator.region_name info
                = None →
              city_locator.display_name info
              = city_locator.region_name info +:+ ", "
                +:+ default "Unknown" (city_locator.country data))).
Proof.
  unfold city_locator.get_location_info. run_eff.
  destruct (reverse latitude longitude) as [data|e] eqn:Hrev.
  2:{ eexists _, _. split; [reflexivity|]. split; [reflexivity|].
      split; [by intros e' [= <-]|]. split; [done|discriminate]. }
  cbv beta iota zeta.
  destruct (city_locator.or_else _ (city_locator.county data)) as [c|] eqn:Hc.
  2:{ eexists _, _. split; [reflexivity|]. split; [reflexivity|].
      split; [discriminate|]. split; [done|discriminate]. }
  destruct (String.eqb c "") eqn:Hempty.
  { eexists _, _. split; [reflexivity|]. split; [reflexivity|].
    split; [discriminate|]. split; [done|discriminate]. }
  assert (Some c ∈ [city_locator.city data; city_locator.town data;
                    city_locator.village data; city_locator.municipality data;
                    city_locator.county data]) as Hin.
  { apply or_else_Some in Hc as [Hc| ->]; [|do 4 right; left].
    apply or_else_Some in Hc as [Hc| ->]; [|do 3 right; left].
    apply or_else_Some in Hc as [Hc| ->]; [|do 2 right; left].
    apply or_else_Some in Hc as [-> | ->]; [left|right; left]. }
  destruct (city_locator.osm_lat data) as [[la|e]|]; simpl.
  2:{ eexists _, _. split; [reflexivity|]. split; [reflexivity|].
      split; [discriminate|]. split; [done|discriminate]. }
  - destruct (city_locator.osm_lon data) as [[lo|e]|]; simpl.
    2:{ eexists _, _. split; [reflexivity|]. split; [reflexivity|].
        split; [discriminate|]. split; [done|discriminate]. }
    + eexists _, _. split; [reflexivity|]. split; [reflexivity|].
      split; [discriminate|]. split; [discriminate|]. intros _.
      split; [reflexivity|]. split.
      { simpl. intros Heq. rewrite Heq in Hempty. discriminate. }
      exists data. split; [reflexivity|]. split; [exact Hin|].
      intros Hno. simpl in Hno. simpl.
      unfold city_locator._get_district_hint. rewrite Hno. reflexivity.
    + eexists _, _. split; [reflexivity|]. split; [reflexivity|].
      split; [discriminate|]. split; [discriminate|]. intros _.
      split; [reflexivity|]. split.
      { simpl. intros Heq. rewrite Heq in Hempty. discriminate. }
      exists data. split; [reflexivity|]. split; [exact Hin|].
      intros Hno. simpl in Hno. simpl.
      unfold city_locator._get_district_hint. rewrite Hno. reflexivity.
  - destruct (city_locator.osm_lon data) as [[lo|e]|]; simpl.
    2:{ eexists _, _. split; [reflexivity|]. split; [reflexivity|].
        split; [discriminate|]. split; [done|discriminate]. }
    + eexists _, _. split; [reflexivity|]. split; [reflexivity|].
      split; [discriminate|]. split; [discriminate|]. intros _.
      split; [reflexivity|]. split.
      { simpl. intros Heq. rewrite Heq in Hempty. discriminate. }
      exists data. split; [reflexivity|]. split; [exact Hin|].
      intros Hno. simpl in Hno. simpl.
      unfold city_locator._get_district_hint. rewrite Hno. reflexivity.
    + eexists _, _. split; [reflexivity|]. split; [reflexivity|].
      split; [discriminate|]. split; [discriminate|]. intros _.
      split; [reflexivity|]. split.
      { simpl. intros Heq. rewrite Heq in Hempty. discriminate. }
      exists data. split; [reflexivity|]. split; [exact Hin|].
      intros Hno. simpl in Hno. simpl.
      unfold city_locator._get_district_hint. rewrite Hno. reflexivity.
Qed.

(* ===================================================================== *)
(** ** The sessions *)
(* ===================================================================== *)

Lemma get_user_locations_run user_id st :
  user_personalization.get_user_locations user_id st
  = (Ok (default ∅ (user_sessions.personal_locations
                      (default user_sessions.empty (st !! user_id)))),
     st, []).
Proof. reflexivity. Qed.

(** What the pipeline sees of the store is what [get_user_locations]
    returns. *)
Lemma get_user_locations_view E st user_id :
  get_user_locations (with_sessions E st) user_id
  = location_view
      <$> default ∅ (user_sessions.personal_locations
                       (default user_sessions.empty (st !! user_id))).
Proof.
  unfold get_user_locations, with_sessions, sessions_view. simpl.
  rewrite lookup_fmap. destruct (st !! user_id) as [s|]; simpl.
  - destruct (user_sessions.personal_locations s); simpl;
      [reflexivity|by rewrite fmap_empty].
  - by rewrite fmap_empty.
Qed.

Lemma analyze_unknown_location E user_id location_name tbl :
  get_user_locations E user_id !! location_name = None →
  ∃ res,
    analyze_user_location E user_id location_name tbl = (Ok res, tbl, [])
    ∧ success res = false ∧ error res = Some "location_not_found".
Proof.
  intros Hno. unfold analyze_user_location. rewrite Hno.
  eexists. split; [reflexivity|]. split; reflexivity.
Qed.

(** X19: entering a mode replaces the user's session by one that has the
    mode only: the personal locations of the user are gone, and the
    pipeline answers 'location_not_found' for every name; the sessions of
    the other users stay as they are. *)
Theorem init_mode_session_forgets_the_personal_locations
    user_id mode st :
  ∃ st',
    user_sessions.init_mode_session user_id mode st = (Ok tt, st', [])
    ∧ value_of (user_personalization.get_user_locations user_id st') = Ok ∅
    ∧ (∀ u, u ≠ user_id → st' !! u = st !! u)
    ∧ ∀ E location_name tbl,
        ∃ res,
          analyze_user_location (with_sessions E st') user_id location_name
            tbl = (Ok res, tbl, [])
          ∧ error res = Some "location_not_found".
Proof.
  eexists. split; [reflexivity|]. split.
  { rewrite get_user_locations_run. unfold value_of. simpl.
    by rewrite lookup_insert_eq. }
  split; [intros u Hu; by rewrite lookup_insert_ne|].
  intros E location_name tbl.
  destruct (analyze_unknown_location
              (with_sessions E
                 (<[user_id := user_sessions.mk_session (Some mode) None None
                                 None None None None None None None None
                                 None]> st))
              user_id location_name tbl) as (res & Hrun & _ & Herr).
  { rewrite get_user_locations_view, lookup_insert_eq. simpl.
    by rewrite fmap_empty. }
  exists res. split; [exact Hrun|exact Herr].
Qed.

Lemma truthy_false_no_locations s :
  user_sessions.truthy s = false → user_sessions.personal_locations s = None.
Proof.
  unfold user_sessions.truthy.
  destruct (user_sessions.personal_locations s); [|done].
  simpl. rewrite !orb_true_r. simpl. discriminate.
Qed.

(** X20: choosing a sensor, updating the session, checking it, setting
    the location of a time travel and updating the user's location keep
    the personal locations of every user, whether they succeed or
    raise. *)
Theorem session_updates_keep_the_personal_locations
    reverse user_id lat lon sensor current_date st u :
  let locations st :=
    value_of (user_personalization.get_user_locations u st) in
  locations (state_of (user_sessions.init_user_session user_id sensor st))
    = locations st
  ∧ locations (state_of (user_sessions.update_user_session user_id lat lon
                           sensor current_date st))
    = locations st
  ∧ locations (state_of (user_sessions.check_and_update_session user_id
                           lat lon st))
    = locations st
  ∧ locations (state_of (user_sessions.init_timetravelling_location user_id
                           lat lon st))
    = locations st
  ∧ locations (state_of (city_locator.update_user_location reverse user_id
                           lat lon st))
    = locations st.
Proof.
  intros locations. subst locations. cbv beta.
  rewrite !get_user_locations_run. unfold value_of, state_of. cbn [fst snd].
  destruct (get_location_info_run reverse lat lon st) as (info & evi & Hinfo).
  unfold user_sessions.init_user_session, user_sessions.update_user_session,
    user_sessions.check_and_update_session,
    user_sessions.init_timetravelling_location,
    city_locator.update_user_location,
    user_sessions.get_user_session.
  run_eff. rewrite Hinfo. cbv beta iota zeta.
  destruct (decide (u = user_id)) as [->|Hne].
  - destruct (st !! user_id) as [s|] eqn:Hs; cbn [fst snd].
    + rewrite Hs. cbn [default from_option id].
      destruct (user_sessions.truthy s) eqn:Ht;
        [destruct (user_sessions.sensor s)|]; cbn [fst snd];
        rewrite ?lookup_insert_eq, ?Hs; cbn [default from_option id];
        try (split_and!; reflexivity).
      split_and!; try reflexivity. simpl.
      by rewrite (truthy_false_no_locations s Ht).
    + rewrite !lookup_insert_eq. cbn [fst snd].
      rewrite ?lookup_insert_eq, ?Hs. done.
  - destruct (st !! user_id) as [s|] eqn:Hs; cbn [fst snd].
    + destruct (user_sessions.truthy s);
        [destruct (user_sessions.sensor s)|]; cbn [fst snd];
        rewrite ?lookup_insert_ne by done; done.
    + rewrite ?lookup_insert_ne by done; done.
Qed.

(** X21: a location sent before a sensor was chosen.  Right after a mode
    was entered the session has no sensor: [check_and_update_session]
    stores the coordinates and then raises KeyError('sensor').  After a
    sensor was chosen it returns the sensor.  Without a session it
    returns None and stores nothing. *)
Theorem a_location_needs_a_sensor user_id lat lon st :
  (∀ mode,
     ∃ st',
       user_sessions.check_and_update_session user_id lat lon
         (state_of (user_sessions.init_mode_session user_id mode st))
       = (Raise (KeyError "sensor"), st', [])
       ∧ st' !! user_id
         = Some (user_sessions.mk_session (Some mode) None (Some lat)
                   (Some lon) None None None None None None None None))
  ∧ (∀ sensor,
       ∃ st' s,
         user_sessions.check_and_update_session user_id lat lon
           (state_of (user_sessions.init_user_session user_id sensor st))
         = (Ok (Some sensor), st', [])
         ∧ st' !! user_id = Some s
         ∧ user_sessions.lat s = Some lat ∧ user_sessions.lon s = Some lon
         ∧ user_sessions.sensor s = Some sensor)
  ∧ (st !! user_id = None →
     user_sessions.check_and_update_session user_id lat lon st
     = (Ok None, st, [])).
Proof.
  split; [|split].
  - intros mode. unfold user_sessions.check_and_update_session,
      user_sessions.get_user_session, user_sessions.init_mode_session,
      state_of.
    run_eff. cbn [fst snd]. rewrite lookup_insert_eq. cbv beta iota.
    eexists. split; [reflexivity|]. by rewrite lookup_insert_eq.
  - intros sensor. unfold user_sessions.check_and_update_session,
      user_sessions.get_user_session, user_sessions.init_user_session,
      state_of.
    run_eff. cbv zeta. cbn [fst snd]. rewrite lookup_insert_eq.
    cbv beta iota.
    replace (user_sessions.truthy (user_sessions.set_sensor sensor _))
      with true.
    2:{ unfold user_sessions.truthy, user_sessions.set_sensor. simpl.
        by rewrite orb_true_r. }
    simpl. eexists _, _. split; [reflexivity|].
    rewrite lookup_insert_eq. done.
  - intros Hno. unfold user_sessions.check_and_update_session,
      user_sessions.get_user_session. run_eff. by rewrite Hno.
Qed.

(** X22: [init_timetravelling_location] raises ValueError, and stores
    nothing, when the user has no session or an empty one; right after
    the mode was entered it stores the coordinates and keeps the mode. *)
Theorem time_travel_needs_a_session user_id lat lon st :
  (st !! user_id = None ∨ st !! user_id = Some user_sessions.empty →
   user_sessions.init_timetravelling_location user_id lat lon st
   = (Raise (ValueError ("Session not initialized for user_id "
                         +:+ str_int user_id)), st, []))
  ∧ ∀ mode,
      ∃ st',
        user_sessions.init_timetravelling_location user_id lat lon
          (state_of (user_sessions.init_mode_session user_id mode st))
        = (Ok tt, st', [])
        ∧ st' !! user_id
          = Some (user_sessions.mk_session (Some mode) None (Some lat)
                    (Some lon) None None None None None None None None).
Proof.
  split.
  - unfold user_sessions.init_timetravelling_location. run_eff.
    intros [-> | ->]; reflexivity.
  - intros mode. unfold user_sessions.init_timetravelling_location,
      user_sessions.init_mode_session, state_of.
    run_eff. cbn [fst snd]. rewrite lookup_insert_eq. cbv beta iota.
    eexists. split; [reflexivity|]. by rewrite lookup_insert_eq.
Qed.

Lemma time_travel_needs_a_session_witness :
  user_sessions.init_timetravelling_location 7 52.52 13.405 ∅
  = (Raise (ValueError "Session not initialized for user_id 7"), ∅, []).
Proof.
  apply (proj1 (time_travel_needs_a_session 7 52.52 13.405 ∅)).
  left. reflexivity.
Defined.

(* ===================================================================== *)
(** ** The personal locations *)
(* ===================================================================== *)

Lemma locations_of_insert st user_id s u :
  locations_of (<[user_id := s]> st) u
  = if decide (u = user_id)
    then default ∅ (user_sessions.personal_locations s)
    else locations_of st u.
Proof.
  unfold locations_of. destruct (decide (u = user_id)) as [->|Hne].
  - by rewrite lookup_insert_eq.
  - by rewrite lookup_insert_ne.
Qed.

Lemma add_user_location_run E reverse user_id location_name
    latitude longitude st :
  ∃ info ev st',
    city_locator.get_location_info reverse latitude longitude st
      = (Ok info, st, ev)
    ∧ user_personalization.add_user_location E reverse user_id location_name
        latitude longitude st = (Ok true, st', ev)
    ∧ locations_of st' user_id
      = <[location_name :=
            mk_personal_location location_name
              (city_locator.region_name info)
              (city_locator.display_name info)
              (city_locator.lat info) (city_locator.lon info)
              (city_locator.is_city info)
              (strftime_Y_m_d true (now E))]> (locations_of st user_id)
    ∧ (∀ u, u ≠ user_id → st' !! u = st !! u)
    ∧ ∃ s',
        st' !! user_id = Some s'
        ∧ let s := default user_sessions.empty (st !! user_id) in
          user_sessions.mode s' = user_sessions.mode s
          ∧ user_sessions.sensor s' = user_sessions.sensor s
          ∧ user_sessions.lat s' = user_sessions.lat s
          ∧ user_sessions.lon s' = user_sessions.lon s
          ∧ user_sessions.current_date s' = user_sessions.current_date s.
Proof.
  destruct (get_location_info_run reverse latitude longitude st)
    as (info & ev & Hinfo).
  unfold user_personalization.add_user_location,
    user_personalization.today_str. run_eff. rewrite Hinfo.
  cbv beta iota zeta. rewrite !app_nil_r.
  exists info, ev. eexists. split; [reflexivity|]. split; [reflexivity|].
  unfold locations_of.
  destruct (st !! user_id) as [s|] eqn:Hs.
  - rewrite Hs. cbn [default from_option id].
    rewrite lookup_insert_eq. cbn [default from_option id].
    destruct s as [m se la lo cd [pls|] ad rl rn ri dn ic]; simpl.
    + split; [reflexivity|].
      split; [intros u Hu; by rewrite lookup_insert_ne|].
      eexists. split; [reflexivity|]. done.
    + split; [reflexivity|].
      split; [intros u Hu; by rewrite lookup_insert_ne|].
      eexists. split; [reflexivity|]. done.
  - rewrite !lookup_insert_eq. cbn [default from_option id].
    split; [reflexivity|].
    split.
    { intros u Hu. by rewrite !lookup_insert_ne. }
    eexists. split; [reflexivity|]. done.
Qed.

(** X23: [add_user_location] always returns True, also when the geocoder
    is out of reach: under the name given, the user then has the location
    the geocoder reported (the city, or the coordinates as a name), with
    the date of today.  A location that had this name is replaced; the
    other locations of the user and the sessions of the other users stay
    as they are, and the only log records of level WARNING or ERROR are
    those of the geocoding. *)
Theorem add_user_location_stores_the_location
    E reverse user_id location_name latitude longitude st :
  ∃ info ev st',
    city_locator.get_location_info reverse latitude longitude st
      = (Ok info, st, ev)
    ∧ user_personalization.add_user_location E reverse user_id location_name
        latitude longitude st = (Ok true, st', ev)
    ∧ locations_of st' user_id !! location_name
      = Some (mk_personal_location location_name
                (city_locator.region_name info)
                (city_locator.display_name info)
                (city_locator.lat info) (city_locator.lon info)
                (city_locator.is_city info)
                (strftime_Y_m_d true (now E)))
    ∧ (∀ other, other ≠ location_name →
         locations_of st' user_id !! other = locations_of st user_id !! other)
    ∧ (∀ u, u ≠ user_id → st' !! u = st !! u).
Proof.
  destruct (add_user_location_run E reverse user_id location_name latitude
              longitude st)
    as (info & ev & st' & Hinfo & Hrun & Hlocs & Hothers & _).
  exists info, ev, st'. split; [exact Hinfo|]. split; [exact Hrun|].
  rewrite Hlocs. split; [by rewrite lookup_insert_eq|].
  split; [|exact Hothers]. intros other Hne. by rewrite lookup_insert_ne.
Qed.

Lemma remove_user_location_run user_id location_name st :
  match locations_of st user_id !! location_name with
  | Some _ =>
      ∃ st',
        user_personalization.remove_user_location user_id location_name st
          = (Ok true, st', [])
        ∧ locations_of st' user_id
          = delete location_name (locations_of st user_id)
        ∧ (∀ u, u ≠ user_id → st' !! u = st !! u)
  | None =>
      user_personalization.remove_user_location user_id location_name st
        = (Ok false, st, [])
  end.
Proof.
  unfold user_personalization.remove_user_location, locations_of. run_eff.
  destruct (st !! user_id) as [s|] eqn:Hs; cbn [default from_option id].
  2:{ simpl; rewrite ?lookup_empty; reflexivity. }
  destruct s as [m se la lo cd [pls|] ad rl rn ri dn ic]; simpl.
  2:{ simpl; rewrite ?lookup_empty; reflexivity. }
  destruct (pls !! location_name) as [pl|] eqn:Hpl; [|reflexivity].
  eexists. split; [reflexivity|]. rewrite lookup_insert_eq. simpl.
  split; [reflexivity|]. intros u Hu. by rewrite lookup_insert_ne.
Qed.

(** X24: [remove_user_location] returns True exactly when the user has a
    location of this name; it then removes this location and no other,
    and leaves the other users alone.  Otherwise it returns False and
    changes nothing.  It never raises and logs no record of level WARNING
    or ERROR. *)
Theorem remove_user_location_removes_exactly_one user_id location_name st :
  ∃ b st',
    user_personalization.remove_user_location user_id location_name st
      = (Ok b, st', [])
    ∧ (b = true ↔ is_Some (locations_of st user_id !! location_name))
    ∧ (b = false → st' = st)
    ∧ locations_of st' user_id !! location_name = None
    ∧ (∀ other, other ≠ location_name →
         locations_of st' user_id !! other = locations_of st user_id !! other)
    ∧ (∀ u, u ≠ user_id → st' !! u = st !! u).
Proof.
  pose proof (remove_user_location_run user_id location_name st) as H.
  destruct (locations_of st user_id !! location_name) as [pl|] eqn:Hpl.
  - destruct H as (st' & Hrun & Hlocs & Hothers).
    exists true, st'. split; [exact Hrun|].
    split; [split; [by eexists|done]|]. split; [discriminate|].
    rewrite Hlocs. split; [by rewrite lookup_delete_eq|].
    split; [|exact Hothers]. intros other Hne. by rewrite lookup_delete_ne.
  - exists false, st. split; [exact H|].
    split; [split; [discriminate|by intros [? ?]]|]. done.
Qed.

(** X25: a location added under a name the user did not have, then
    removed, leaves the user with the locations they had. *)
Theorem add_then_remove_restores_the_locations
    E reverse user_id location_name latitude longitude st :
  locations_of st user_id !! location_name = None →
  let st1 :=
    state_of (user_personalization.add_user_location E reverse user_id
                location_name latitude longitude st) in
  let out :=
    user_personalization.remove_user_location user_id location_name st1 in
  value_of out = Ok true
  ∧ locations_of (state_of out) user_id = locations_of st user_id
  ∧ (∀ u, u ≠ user_id → state_of out !! u = st !! u).
Proof.
  intros Hnew st1 out. subst out st1.
  destruct (add_user_location_run E reverse user_id location_name latitude
              longitude st)
    as (info & ev & st' & _ & -> & Hlocs & Hothers & _).
  unfold state_of at 1 3 5. cbn [fst snd].
  pose proof (remove_user_location_run user_id location_name st') as H.
  rewrite Hlocs, lookup_insert_eq in H.
  destruct H as (st2 & -> & Hlocs2 & Hothers2).
  unfold value_of, state_of. cbn [fst snd]. split; [reflexivity|].
  split.
  - rewrite Hlocs2, delete_insert_eq. by apply delete_id.
  - intros u Hu. rewrite Hothers2, Hothers by done. reflexivity.
Qed.

Lemma add_then_remove_restores_the_locations_witness :
  locations_of ∅ 7 !! "home" = None
  ∧ locations_of
      (state_of
         (user_personalization.remove_user_location 7 "home"
            (state_of
               (user_personalization.add_user_location
                  (quiet_env (mk_datetime 2024 6 15)) berlin_geocoder 7
                  "home" 52.52 13.405 ∅)))) 7
    = locations_of ∅ 7.
Proof.
  split; [reflexivity|].
  apply (add_then_remove_restores_the_locations
           (quiet_env (mk_datetime 2024 6 15)) berlin_geocoder 7 "home"
           52.52 13.405 ∅).
  reflexivity.
Defined.

Lemma rename_user_location_run user_id old_name new_name st :
  match locations_of st user_id !! old_name with
  | Some d =>
      ∃ st',
        user_personalization.rename_user_location user_id old_name new_name st
          = (Ok true, st', [])
        ∧ locations_of st' user_id
          = delete old_name
              (<[new_name :=
                   mk_personal_location new_name (pl_actual_location d)
                     (pl_display_name d) (pl_lat d) (pl_lon d)
                     (pl_is_city d) (pl_added_date d)]>
                 (locations_of st user_id))
        ∧ (∀ u, u ≠ user_id → st' !! u = st !! u)
  | None =>
      user_personalization.rename_user_location user_id old_name new_name st
        = (Ok false, st, [])
  end.
Proof.
  unfold user_personalization.rename_user_location,
    user_personalization.get_user_locations, locations_of. run_eff.
  cbv beta iota zeta.
  destruct (st !! user_id) as [s|] eqn:Hs; cbn [default from_option id].
  2:{ simpl; rewrite ?lookup_empty; reflexivity. }
  destruct s as [m se la lo cd [pls|] ad rl rn ri dn ic]; simpl.
  2:{ simpl; rewrite ?lookup_empty; reflexivity. }
  destruct (pls !! old_name) as [d|] eqn:Hd; [|reflexivity].
  rewrite Hs. simpl.
  eexists. split; [reflexivity|]. rewrite lookup_insert_eq. simpl.
  split; [reflexivity|]. intros u Hu. by rewrite lookup_insert_ne.
Qed.

(** X26: [rename_user_location] returns False and changes nothing when the
    user has no location of the old name.  Otherwise it returns True:
    under a different new name the user then has the data of the old
    location (a location that had the new name is replaced), and nothing
    under the old name; but renaming a location to its own name removes
    it.  The other locations and the other users stay as they are. *)
Theorem rename_user_location_moves_the_location
    user_id old_name new_name st :
  ∃ b st',
    user_personalization.rename_user_location user_id old_name new_name st
      = (Ok b, st', [])
    ∧ (b = true ↔ is_Some (locations_of st user_id !! old_name))
    ∧ (b = false → st' = st)
    ∧ locations_of st' user_id !! old_name = None
    ∧ (∀ d, locations_of st user_id !! old_name = Some d →
         old_name ≠ new_name →
         locations_of st' user_id !! new_name
         = Some (mk_personal_location new_name (pl_actual_location d)
                   (pl_display_name d) (pl_lat d) (pl_lon d)
                   (pl_is_city d) (pl_added_date d)))
    ∧ (∀ other, other ≠ old_name → other ≠ new_name →
         locations_of st' user_id !! other = locations_of st user_id !! other)
    ∧ (∀ u, u ≠ user_id → st' !! u = st !! u).
Proof.
  pose proof (rename_user_location_run user_id old_name new_name st) as H.
  destruct (locations_of st user_id !! old_name) as [d|] eqn:Hd.
  - destruct H as (st' & Hrun & Hlocs & Hothers).
    exists true, st'. split; [exact Hrun|].
    split; [split; [by eexists|done]|]. split; [discriminate|].
    rewrite Hlocs. split; [by rewrite lookup_delete_eq|]. split.
    { intros d' [= <-] Hne.
      by rewrite lookup_delete_ne, lookup_insert_eq. }
    split; [|exact Hothers]. intros other Ho Hn.
    by rewrite lookup_delete_ne, lookup_insert_ne.
  - exists false, st. split; [exact H|].
    split; [split; [discriminate|by intros [? ?]]|].
    split; [done|]. split; [exact Hd|]. split; [discriminate|]. done.
Qed.

(** X27: a location the user added can be analysed: for the name it was
    added under the pipeline answers with success, for the place name and
    the coordinates the geocoder reported (which need not be the
    coordinates the user gave). *)
Theorem added_location_can_be_analysed
    E reverse user_id location_name latitude longitude st tbl :
  ∃ info res new ev,
    value_of (city_locator.get_location_info reverse latitude longitude st)
      = Ok info
    ∧ analyze_user_location
        (with_sessions E
           (state_of (user_personalization.add_user_location E reverse
                        user_id location_name latitude longitude st)))
        user_id location_name tbl
      = (Ok res, tbl ++ new, ev)
    ∧ success res = true
    ∧ r_region_name res = Some (city_locator.region_name info)
    ∧ coordinates res
      = Some (city_locator.lat info, city_locator.lon info).
Proof.
  destruct (add_user_location_run E reverse user_id location_name latitude
              longitude st)
    as (info & ev0 & st' & Hinfo & -> & Hlocs & _).
  unfold state_of. cbn [fst snd].
  destruct (analyze_known_location (with_sessions E st') user_id
              location_name
              (mk_location_data (city_locator.region_name info)
                 (city_locator.lat info) (city_locator.lon info)) tbl)
    as (res & new & ev & Hrun & Hs & _ & Hr & Hc & _).
  { rewrite get_user_locations_view. fold (locations_of st' user_id).
    by rewrite Hlocs, lookup_fmap, lookup_insert_eq. }
  exists info, res, new, ev. rewrite Hinfo. by split_and!.
Qed.
